(** * Automated Financial Report Generator: aggregator and narrator

    A shallow embedding of [financial_report.py] (class
    [FinancialReportGenerator]), of [gpt_summary.py] (class
    [GPTFinancialAnalyzer] and the plain summary), of the integrity checks
    of [test_examples.py] and of the conversion of tables to records that
    [app.py] applies between the two, with the pandas operations these files
    call written out as functions on columns.

    Numbers.  A numeric cell is an exact rational or one of the IEEE special
    values (+inf, -inf, NaN) that pandas produces on division by zero and for
    missing data.  Arithmetic is exact, where the program's is binary64: a
    result of the program differs from the model's by rounding error, and so
    can a step that chooses between separate outcomes when the exact value
    lies on the boundary or within rounding error of it (rounding to two
    decimals at a tie, a comparison with a threshold at the threshold, a
    standard deviation of exactly zero).  Theorems about such steps are
    therefore stated up to the last digit published ([to_two_decimals]), or
    for whole amounts that binary64 holds and combines exactly.  An int64
    column wraps around beyond 2^63, which the model does not: theorems on
    totals state the range.  Signed zeros are not modelled; the square root
    used by [std] is a parameter of the development.  Arithmetic results are
    kept in lowest terms, so that equal numbers are equal terms. *)

From Stdlib Require Import List String Ascii Bool ZArith QArith Qround Qabs.
From Stdlib Require DecimalString Qcanon.
From Stdlib Require Import Lia Lqa Permutation Sorted.
Import ListNotations.

Set Implicit Arguments.

(** ** Extended rationals *)

Local Open Scope Q_scope.

Inductive num : Type :=
| Fin (q : Q)
| PInf
| NInf
| NaN.

Definition is_nan (a : num) : bool :=
  match a with NaN => true | _ => false end.

Definition notna (a : num) : bool := negb (is_nan a).

(** Sign of a rational: the sign of its numerator. *)
Definition Qsgn (q : Q) : Z := Z.sgn (Qnum q).

Definition nneg (a : num) : num :=
  match a with
  | Fin q => Fin (Qred (- q))
  | PInf => NInf
  | NInf => PInf
  | NaN => NaN
  end.

Definition nadd (a b : num) : num :=
  match a, b with
  | NaN, _ | _, NaN => NaN
  | Fin x, Fin y => Fin (Qred (x + y))
  | PInf, NInf | NInf, PInf => NaN
  | PInf, _ | _, PInf => PInf
  | NInf, _ | _, NInf => NInf
  end.

Definition nsub (a b : num) : num := nadd a (nneg b).

(** An infinity of the sign [s] (0 gives NaN). *)
Definition inf_of_sign (s : Z) : num :=
  match s with
  | Z0 => NaN
  | Zpos _ => PInf
  | Zneg _ => NInf
  end.

Definition nsign (a : num) : Z :=
  match a with
  | Fin q => Qsgn q
  | PInf => 1%Z
  | NInf => (-1)%Z
  | NaN => 0%Z
  end.

Definition nmul (a b : num) : num :=
  match a, b with
  | NaN, _ | _, NaN => NaN
  | Fin x, Fin y => Fin (Qred (x * y))
  | _, _ => inf_of_sign (nsign a * nsign b)%Z
  end.

(** Division as numpy does it on float64: a finite value over zero is an
    infinity of the sign of the numerator, zero over zero is NaN. *)
Definition ndiv (a b : num) : num :=
  match a, b with
  | NaN, _ | _, NaN => NaN
  | Fin x, Fin y =>
      if Qeq_bool y 0 then inf_of_sign (Qsgn x) else Fin (Qred (x / y))
  | Fin _, _ => Fin 0
  | _, Fin y => inf_of_sign (nsign a * (if Qeq_bool y 0 then 1 else Qsgn y))%Z
  | _, _ => NaN
  end.

Definition nabs (a : num) : num :=
  match a with
  | Fin q => Fin (Qred (Qabs q))
  | PInf | NInf => PInf
  | NaN => NaN
  end.

(** Comparisons: every comparison with NaN is false. *)
Definition nltb (a b : num) : bool :=
  match a, b with
  | NaN, _ | _, NaN => false
  | Fin x, Fin y => negb (Qle_bool y x)
  | Fin _, PInf => true
  | Fin _, NInf => false
  | PInf, _ => false
  | NInf, NInf => false
  | NInf, _ => true
  end.

Definition ngtb (a b : num) : bool := nltb b a.

(** Equality of values (not of representations); NaN differs from itself. *)
Definition neqb (a b : num) : bool :=
  match a, b with
  | Fin x, Fin y => Qeq_bool x y
  | PInf, PInf | NInf, NInf => true
  | _, _ => false
  end.

(** Round half to even, the rounding of [numpy.rint]. *)
Definition round_half_even (x : Q) : Z :=
  let f := Qfloor x in
  match Qcompare (x - inject_Z f) (1 # 2) with
  | Lt => f
  | Gt => (f + 1)%Z
  | Eq => if Z.even f then f else (f + 1)%Z
  end.

(** [round(2)]: scale by 100, round to the nearest integer, scale back.
    The exact value is rounded; numpy rounds the binary64 value, which at a
    tie of the exact value can lie on either side of it (1.015 is read as
    1.01499999999999990 and shown as 1.01).  Either way the result shows the
    value to two decimals in the sense of [to_two_decimals]. *)
Definition round2 (a : num) : num :=
  match a with
  | Fin q => Fin (Qred (inject_Z (round_half_even (q * 100)) / 100))
  | _ => a
  end.

Definition of_Z (n : Z) : num := Fin (inject_Z n).
Definition of_nat (n : nat) : num := of_Z (Z.of_nat n).

(** A computable square root on non-negative rationals, rounded up at the
    twelfth decimal place; it instantiates the parameter of the aggregator in
    examples. *)
Definition Qsqrt12 (x : Q) : Q :=
  Qred (Z.sqrt_up (Qnum x * Zpos (Qden x) * 10 ^ 24)%Z
        # (Qden x * 1000000000000)%positive).

Local Close Scope Q_scope.

(** ** Python values, exceptions and results *)

Inductive exn : Type :=
| Exception (msg : string)
| ValueError (msg : string)
| KeyError (keys : list string)
| TypeError (msg : string).

Inductive result (A : Type) : Type :=
| Ok (a : A)
| Raise (e : exn).

Arguments Ok {A} a.
Arguments Raise {A} e.

Definition rbind {A B} (r : result A) (k : A -> result B) : result B :=
  match r with
  | Ok a => k a
  | Raise e => Raise e
  end.

Declare Scope result_scope.
Delimit Scope result_scope with result.
Notation "x <- c ;; k" := (rbind c (fun x => k))
  (at level 61, c at next level, right associativity) : result_scope.

(** The value of one cell of a table. *)
Inductive cell : Type :=
| CNum (x : num)
| CStr (s : string)
| CDate (t : Z).

Inductive pyval : Type :=
| PNum (x : num)
| PInt (n : Z)
| PStr (s : string)
| PDate (t : Z)
| PList (l : list cell).

(** A Python dict with string keys, in insertion order. *)
Definition dict := list (string * pyval).

Fixpoint dict_get (d : dict) (k : string) : option pyval :=
  match d with
  | [] => None
  | (k', v) :: d' => if String.eqb k' k then Some v else dict_get d' k
  end.

(** ** Columns and frames

    A column is a pandas Series of one dtype: numbers (int64 or float64, NaN
    for a missing value), strings (dtype object) or datetimes (datetime64,
    as nanoseconds).  [pd.read_csv] yields the first two; [load_data] turns
    the column named Date, when there is one, into datetimes
    (financial_report.py, lines 42-43).  A text column holds a string in
    every cell: a column of text with missing cells has no counterpart.  A
    frame lists its columns in order; labels are looked up from the left. *)

Inductive column : Type :=
| NumCol (vs : list num)
| StrCol (vs : list string)
| DateCol (vs : list Z).

Definition DataFrame := list (string * column).

(** [Series.tolist()] *)
Definition cells (c : column) : list cell :=
  match c with
  | NumCol vs => map CNum vs
  | StrCol vs => map CStr vs
  | DateCol vs => map CDate vs
  end.

(** [len(series)] *)
Definition col_len (c : column) : nat :=
  match c with
  | NumCol vs => List.length vs
  | StrCol vs => List.length vs
  | DateCol vs => List.length vs
  end.

(** [df.columns] *)
Definition columns (df : DataFrame) : list string := map fst df.

Fixpoint df_get (df : DataFrame) (name : string) : option column :=
  match df with
  | [] => None
  | (n, c) :: df' => if String.eqb n name then Some c else df_get df' name
  end.

(** [name in df.columns] *)
Definition has_column (df : DataFrame) (name : string) : bool :=
  existsb (String.eqb name) (columns df).

(** [df[name]] *)
Definition getitem (df : DataFrame) (name : string) : result column :=
  match df_get df name with
  | Some c => Ok c
  | None => Raise (KeyError [name])
  end.

(** [df[name] = col]: an existing column is replaced where it stands, a new
    one is appended. *)
Fixpoint setitem (df : DataFrame) (name : string) (col : column) : DataFrame :=
  match df with
  | [] => [(name, col)]
  | (n, c) :: df' =>
      if String.eqb n name then (name, col) :: df'
      else (n, c) :: setitem df' name col
  end.

(** Only the column Date holds datetimes: what [load_data] establishes. *)
Definition loaded (df : DataFrame) : Prop :=
  forall name vs, df_get df name = Some (DateCol vs) -> name = "Date"%string.

(** No column holds datetimes: a frame as [pd.read_csv] parses it. *)
Definition parsed (df : DataFrame) : Prop :=
  forall name vs, ~ In (name, DateCol vs) df.

(** ** Strings

    [str.strip()] on ASCII text: the white space removed is that of ASCII
    (tab to carriage return, the four separators, the blank).  Python also
    removes the white space of Unicode (U+00A0 and the like), which as bytes
    of UTF-8 is left in place here. *)

Definition is_space (c : ascii) : bool :=
  let n := nat_of_ascii c in
  ((9 <=? n) && (n <=? 13) || (28 <=? n) && (n <=? 32))%nat.

Fixpoint lstrip (s : string) : string :=
  match s with
  | String c s' => if is_space c then lstrip s' else s
  | EmptyString => EmptyString
  end.

Fixpoint rstrip (s : string) : string :=
  match s with
  | String c s' =>
      match rstrip s' with
      | EmptyString => if is_space c then EmptyString else String c EmptyString
      | t => String c t
      end
  | EmptyString => EmptyString
  end.

Definition strip (s : string) : string := lstrip (rstrip s).

(** ** Stable sorting

    [insert_sorted leb x l] puts [x] before the first element it precedes, so
    that among equal elements the one met first in the input stays first. *)

Fixpoint insert_sorted {A} (leb : A -> A -> bool) (x : A) (l : list A) : list A :=
  match l with
  | [] => [x]
  | y :: l' => if leb x y then x :: l else y :: insert_sorted leb x l'
  end.

Definition sort_by {A} (leb : A -> A -> bool) (l : list A) : list A :=
  fold_right (insert_sorted leb) [] l.

Definition cell_eqb (a b : cell) : bool :=
  match a, b with
  | CNum x, CNum y => neqb x y
  | CStr s, CStr t => String.eqb s t
  | CDate x, CDate y => Z.eqb x y
  | _, _ => false
  end.

(** The order of values within one column; across dtypes it is never used. *)
Definition cell_leb (a b : cell) : bool :=
  match a, b with
  | CNum x, CNum y => negb (nltb y x)
  | CStr s, CStr t => String.leb s t
  | CDate x, CDate y => Z.leb x y
  | _, _ => true
  end.

Definition cell_notna (c : cell) : bool :=
  match c with
  | CNum x => notna x
  | _ => true
  end.

(** ** Reductions of a numeric Series (all with [skipna=True]) *)

Fixpoint zip_with {A B C} (f : A -> B -> C) (l : list A) (l' : list B) : list C :=
  match l, l' with
  | x :: t, y :: t' => f x y :: zip_with f t t'
  | _, _ => []
  end.

(** Values in order of first appearance, like [Series.unique()]. *)
Fixpoint dedup {A} (eqb : A -> A -> bool) (l : list A) : list A :=
  match l with
  | [] => []
  | x :: l' => x :: filter (fun y => negb (eqb x y)) (dedup eqb l')
  end.

Definition dropna (vs : list num) : list num := filter notna vs.

Definition series_sum (vs : list num) : num :=
  fold_left nadd (dropna vs) (Fin 0).

Definition series_count (vs : list num) : nat := List.length (dropna vs).

Definition series_mean (vs : list num) : num :=
  match series_count vs with
  | O => NaN
  | S _ as n => ndiv (series_sum vs) (of_nat n)
  end.

(** Sample variance, [ddof=1] (pandas [nanvar]): NaN unless there are at
    least two values. *)
Definition series_var (vs : list num) : num :=
  let xs := dropna vs in
  let n := List.length xs in
  if (n <=? 1)%nat then NaN
  else
    let avg := ndiv (series_sum xs) (of_nat n) in
    let sqr := map (fun x => let d := nsub avg x in nmul d d) xs in
    ndiv (fold_left nadd sqr (Fin 0)) (of_nat (n - 1)).

Section Aggregator.

(** The square root on non-negative rationals. *)
Variable qsqrt : Q -> Q.

Definition nsqrt (a : num) : num :=
  match a with
  | Fin q => if (Qsgn q <? 0)%Z then NaN else Fin (Qred (qsqrt q))
  | PInf => PInf
  | NInf | NaN => NaN
  end.

(** The deviation is exactly zero on equal values; in binary64 it is so
    when the mean is exact, as it is on equal whole numbers, and can be a
    rounding error above zero otherwise (three times 0.1). *)
Definition series_std (vs : list num) : num := nsqrt (series_var vs).

(** ** The same reductions on a column of any dtype *)

(** [Series.nunique()]: missing values are not counted. *)
Definition col_nunique (c : column) : Z :=
  match c with
  | NumCol vs => Z.of_nat (List.length (dedup neqb (dropna vs)))
  | StrCol vs => Z.of_nat (List.length (dedup String.eqb vs))
  | DateCol vs => Z.of_nat (List.length (dedup Z.eqb vs))
  end.

(** [Series.sum()]: strings are concatenated, datetimes are refused.  (A
    text column with a missing cell, on which pandas raises TypeError, is not
    a [StrCol]; a total of integers beyond the range of int64 wraps around in
    pandas.) *)
Definition col_sum (c : column) : result pyval :=
  match c with
  | NumCol vs => Ok (PNum (series_sum vs))
  | StrCol [] => Ok (PInt 0)
  | StrCol vs => Ok (PStr (String.concat EmptyString vs))
  | DateCol _ => Raise (TypeError "datetime64 type does not support sum operations")
  end.

(** [Series.mean()] and [Series.std()], on numbers.  (On a loaded frame the
    aggregator never reaches them on datetimes.  On a text column they raise
    TypeError, as pandas does when the column has a cell; the text column
    without any cell, of a file with a header and no row, on which pandas
    gives NaN, is not told apart.) *)
Definition col_mean (c : column) : result num :=
  match c with
  | NumCol vs => Ok (series_mean vs)
  | _ => Raise (TypeError "Could not convert to numeric")
  end.

Definition col_std (c : column) : result num :=
  match c with
  | NumCol vs => Ok (series_std vs)
  | _ => Raise (TypeError "Could not convert to numeric")
  end.

(** [a / b] on two columns of one frame, row by row. *)
Definition col_div (a b : column) : result (list num) :=
  match a, b with
  | NumCol xs, NumCol ys => Ok (zip_with ndiv xs ys)
  | _, _ => Raise (TypeError "unsupported operand type(s) for /")
  end.

(** ** The report generator *)

Record generator : Type := {
  data : option DataFrame;
  report_summary : dict
}.

(** [__init__] *)
Definition init : generator := {| data := None; report_summary := [] |}.

(** A method: it may raise, and it leaves a generator behind either way. *)
Definition M (A : Type) : Type := generator -> result A * generator.

Definition no_data : exn := ValueError "No data loaded. Please load data first.".

Local Open Scope result_scope.
Local Open Scope string_scope.

Definition hundred : num := of_Z 100.

(** [pd.read_csv(filepath)]: the parsed table, or the text of the exception
    raised; [pd.to_datetime] on a column likewise. *)
Variable read_csv : string -> string + DataFrame.
Variable to_datetime : column -> string + list Z.

(** Lines 35-46.  The table is stored as soon as it is parsed; a Date column
    that cannot be converted leaves it stored with its names stripped. *)
Definition load_data (filepath : string) : M DataFrame := fun self =>
  match read_csv filepath with
  | inl e => (Raise (Exception ("Error loading data: " ++ e)), self)
  | inr parsed_file =>
      let df := map (fun nc : string * column => (strip (fst nc), snd nc)) parsed_file in
      let stored := {| data := Some df; report_summary := report_summary self |} in
      if has_column df "Date" then
        match df_get df "Date" with
        | Some date =>
            match to_datetime date with
            | inl e => (Raise (Exception ("Error loading data: " ++ e)), stored)
            | inr datetimes =>
                let df' := setitem df "Date" (DateCol datetimes) in
                (Ok df', {| data := Some df'; report_summary := report_summary self |})
            end
        | None => (Ok df, stored)
        end
      else (Ok df, stored)
  end.

(** Lines 54-73: the summary dict, its entries evaluated in source order. *)
Definition basic_summary (df : DataFrame) : result dict :=
  company <- getitem df "Company" ;;
  let total_companies := col_nunique company in
  revenue <- getitem df "Revenue" ;;
  total_revenue <- col_sum revenue ;;
  expenses <- getitem df "Expenses" ;;
  total_expenses <- col_sum expenses ;;
  net_income <- getitem df "Net_Income" ;;
  total_net_income <- col_sum net_income ;;
  average_revenue <- col_mean revenue ;;
  average_expenses <- col_mean expenses ;;
  average_net_income <- col_mean net_income ;;
  revenue_std <- col_std revenue ;;
  margins <- col_div net_income revenue ;;
  let profit_margin_avg := nmul (series_mean margins) hundred in
  ratios <- col_div expenses revenue ;;
  let expense_ratio_avg := nmul (series_mean ratios) hundred in
  let summary :=
    [ ("total_companies", PInt total_companies);
      ("total_revenue", total_revenue);
      ("total_expenses", total_expenses);
      ("total_net_income", total_net_income);
      ("average_revenue", PNum average_revenue);
      ("average_expenses", PNum average_expenses);
      ("average_net_income", PNum average_net_income);
      ("revenue_std", PNum revenue_std);
      ("profit_margin_avg", PNum profit_margin_avg);
      ("expense_ratio_avg", PNum expense_ratio_avg) ] in
  if has_column df "Market_Cap" then
    market_cap <- getitem df "Market_Cap" ;;
    total_market_cap <- col_sum market_cap ;;
    average_market_cap <- col_mean market_cap ;;
    market_cap_std <- col_std market_cap ;;
    Ok (summary ++
        [ ("total_market_cap", total_market_cap);
          ("average_market_cap", PNum average_market_cap);
          ("market_cap_std", PNum market_cap_std) ])%list
  else Ok summary.

Definition generate_basic_report : M dict := fun self =>
  match data self with
  | None => (Raise no_data, self)
  | Some df =>
      match basic_summary df with
      | Ok summary => (Ok summary, {| data := data self; report_summary := summary |})
      | Raise e => (Raise e, self)
      end
  end.


(** ** groupby and agg *)

Inductive aggfunc : Type :=
| agg_sum
| agg_mean
| agg_count
| agg_lambda0.   (* [lambda x: 0] *)

Definition aggfunc_name (f : aggfunc) : string :=
  match f with
  | agg_sum => "sum"
  | agg_mean => "mean"
  | agg_count => "count"
  | agg_lambda0 => "<lambda>"
  end.

(** The group keys of [groupby(label)]: the distinct values of the key column,
    missing keys dropped, in ascending order. *)
Definition group_keys (key : column) : list cell :=
  sort_by cell_leb (dedup cell_eqb (filter cell_notna (cells key))).

(** The values of the rows whose key is [k]. *)
Definition group_of {A} (keys : list cell) (k : cell) (vs : list A) : list A :=
  map snd (filter (fun p => cell_eqb (fst p) k) (combine keys vs)).

(** The index column that [reset_index()] brings back, typed like the key. *)
Definition key_column (key : column) (ks : list cell) : column :=
  match key with
  | NumCol _ => NumCol (flat_map (fun c => match c with CNum x => [x] | _ => [] end) ks)
  | StrCol _ => StrCol (flat_map (fun c => match c with CStr x => [x] | _ => [] end) ks)
  | DateCol _ => DateCol (flat_map (fun c => match c with CDate x => [x] | _ => [] end) ks)
  end.

(** One aggregation of one column, a value per group. *)
Definition aggregate (f : aggfunc) (keys ks : list cell) (c : column) : result column :=
  match c, f with
  | NumCol vs, agg_sum => Ok (NumCol (map (fun k => series_sum (group_of keys k vs)) ks))
  | NumCol vs, agg_mean => Ok (NumCol (map (fun k => series_mean (group_of keys k vs)) ks))
  | NumCol vs, agg_count =>
      Ok (NumCol (map (fun k => of_nat (series_count (group_of keys k vs))) ks))
  | StrCol vs, agg_sum =>
      Ok (StrCol (map (fun k => String.concat EmptyString (group_of keys k vs)) ks))
  | StrCol vs, agg_count =>
      Ok (NumCol (map (fun k => of_nat (List.length (group_of keys k vs))) ks))
  | DateCol vs, agg_count =>
      Ok (NumCol (map (fun k => of_nat (List.length (group_of keys k vs))) ks))
  | _, agg_lambda0 => Ok (NumCol (map (fun _ => Fin 0) ks))
  | StrCol _, agg_mean => Raise (TypeError "agg function failed [how->mean,dtype->object]")
  | DateCol _, _ => Raise (TypeError "datetime64 type does not support this operation")
  end.

Fixpoint aggregate_all (fs : list aggfunc) (keys ks : list cell) (name : string)
    (c : column) : result (list ((string * string) * column)) :=
  match fs with
  | [] => Ok []
  | f :: fs' =>
      col <- aggregate f keys ks c ;;
      rest <- aggregate_all fs' keys ks name c ;;
      Ok (((name, aggfunc_name f), col) :: rest)
  end.

Fixpoint agg_columns (df : DataFrame) (spec : list (string * list aggfunc))
    (keys ks : list cell) : result (list ((string * string) * column)) :=
  match spec with
  | [] => Ok []
  | (name, fs) :: spec' =>
      c <- getitem df name ;;
      cols <- aggregate_all fs keys ks name c ;;
      rest <- agg_columns df spec' keys ks ;;
      Ok (cols ++ rest)%list
  end.

(** [df.groupby(label).agg(spec)]: the key column and the aggregated columns
    under their two-level labels.  A label of [spec] that is not a column of
    the frame is refused before anything is computed. *)
Definition groupby_agg (df : DataFrame) (label : string)
    (spec : list (string * list aggfunc))
    : result (column * list ((string * string) * column)) :=
  key <- getitem df label ;;
  match filter (fun name => negb (has_column df name)) (map fst spec) with
  | [] =>
      let keys := cells key in
      let ks := group_keys key in
      cols <- agg_columns df spec keys ks ;;
      Ok (key_column key ks, cols)
  | missing => Raise (KeyError (sort_by String.leb missing))
  end.

(** [DataFrame.round(2)] leaves the columns that are not numeric alone. *)
Definition col_round2 (c : column) : column :=
  match c with
  | NumCol vs => NumCol (map round2 vs)
  | _ => c
  end.

(** [(a / b * 100).round(2)] on two columns, on the exact quotient (see
    [round2] for the ties). *)
Definition percent_of (a b : column) : result column :=
  q <- col_div a b ;;
  Ok (NumCol (map (fun x => round2 (nmul x hundred)) q)).

(** Lines 84-104. *)
Definition company_insights (df : DataFrame) : result DataFrame :=
  g <- groupby_agg df "Company"
         [ ("Revenue", [agg_sum; agg_mean]);
           ("Expenses", [agg_sum; agg_mean]);
           ("Net_Income", [agg_sum; agg_mean]);
           ("Market_Cap", [if has_column df "Market_Cap" then agg_mean else agg_lambda0]) ] ;;
  let company_metrics :=
    map (fun lc : (string * string) * column =>
           let (l, c) := lc in
           ((if String.eqb (snd l) EmptyString then fst l
             else strip (String.concat "_" [fst l; snd l])), col_round2 c))
        (snd g) in
  net_income_sum <- getitem company_metrics "Net_Income_sum" ;;
  revenue_sum <- getitem company_metrics "Revenue_sum" ;;
  profit_margin <- percent_of net_income_sum revenue_sum ;;
  let company_metrics := setitem company_metrics "Profit_Margin" profit_margin in
  expenses_sum <- getitem company_metrics "Expenses_sum" ;;
  revenue_sum <- getitem company_metrics "Revenue_sum" ;;
  expense_ratio <- percent_of expenses_sum revenue_sum ;;
  let company_metrics := setitem company_metrics "Expense_Ratio" expense_ratio in
  Ok (("Company", fst g) :: company_metrics).

Definition get_company_insights : M DataFrame := fun self =>
  match data self with
  | None => (Raise no_data, self)
  | Some df => (company_insights df, self)
  end.

(** Lines 111-126. *)
Definition sector_analysis (df : DataFrame) : result DataFrame :=
  g <- groupby_agg df "Sector"
         [ ("Revenue", [agg_sum; agg_mean; agg_count]);
           ("Net_Income", [agg_sum; agg_mean]);
           ("Market_Cap", [if has_column df "Market_Cap" then agg_sum else agg_lambda0]) ] ;;
  let sector_analysis :=
    map (fun lc : (string * string) * column =>
           let (l, c) := lc in
           (strip (String.concat "_" [fst l; snd l]), col_round2 c))
        (snd g) in
  net_income_sum <- getitem sector_analysis "Net_Income_sum" ;;
  revenue_sum <- getitem sector_analysis "Revenue_sum" ;;
  avg_profit_margin <- percent_of net_income_sum revenue_sum ;;
  let sector_analysis := setitem sector_analysis "Avg_Profit_Margin" avg_profit_margin in
  Ok (("Sector", fst g) :: sector_analysis).

(** Lines 106-109: no data or no Sector column gives [pd.DataFrame()]. *)
Definition get_sector_analysis : M DataFrame := fun self =>
  match data self with
  | None => (Ok [], self)
  | Some df =>
      if negb (has_column df "Sector") then (Ok [], self)
      else (sector_analysis df, self)
  end.

(** ** nlargest and column selection *)

(** The rows at the positions [idx], in that order. *)
Definition take {A} (idx : list nat) (vs : list A) : list A :=
  flat_map (fun i => match nth_error vs i with Some v => [v] | None => [] end) idx.

Definition col_take (idx : list nat) (c : column) : column :=
  match c with
  | NumCol vs => NumCol (take idx vs)
  | StrCol vs => StrCol (take idx vs)
  | DateCol vs => DateCol (take idx vs)
  end.

Definition take_rows (idx : list nat) (df : DataFrame) : DataFrame :=
  map (fun nc : string * column => (fst nc, col_take idx (snd nc))) df.

(** Row positions by decreasing value; equal values keep the order of the
    table ([keep='first']) and missing values come last. *)
Definition order_desc (vs : list cell) : list nat :=
  let rows := combine (seq 0 (List.length vs)) vs in
  let present := filter (fun r => cell_notna (snd r)) rows in
  let missing := filter (fun r => negb (cell_notna (snd r))) rows in
  map fst (sort_by (fun a b => cell_leb (snd b) (snd a)) present ++ missing)%list.

(** [df.nlargest(n, metric)]: numbers and datetimes are ranked, a column of
    dtype object is refused. *)
Definition nlargest (n : Z) (metric : string) (df : DataFrame) : result DataFrame :=
  c <- getitem df metric ;;
  match c with
  | StrCol _ =>
      Raise (TypeError "Column has dtype object, cannot use method 'nlargest' with this dtype")
  | _ => Ok (take_rows (firstn (Z.to_nat n) (order_desc (cells c))) df)
  end.

(** [df[[names]]]: the labels that are not columns are reported together. *)
Definition select (df : DataFrame) (names : list string) : result DataFrame :=
  match filter (fun name => negb (has_column df name)) names with
  | [] =>
      Ok (flat_map (fun name => match df_get df name with
                                | Some c => [(name, c)]
                                | None => []
                                end) names)
  | missing => Raise (KeyError missing)
  end.

(** Lines 133-145. *)
Definition top_performers (df : DataFrame) (metric : string) (top_n : Z)
    : result DataFrame :=
  if negb (has_column df metric) then
    Raise (ValueError (String.concat EmptyString
             ["Metric '"; metric; "' not found in data columns."]))
  else
    largest <- nlargest top_n metric df ;;
    top_performers <- select largest ["Company"; "Revenue"; "Expenses"; "Net_Income"; "Sector"] ;;
    net_income <- getitem top_performers "Net_Income" ;;
    revenue <- getitem top_performers "Revenue" ;;
    profit_margin <- percent_of net_income revenue ;;
    Ok (setitem top_performers "Profit_Margin" profit_margin).

Definition identify_top_performers (metric : string) (top_n : Z) : M DataFrame :=
  fun self =>
  match data self with
  | None => (Raise no_data, self)
  | Some df => (top_performers df metric top_n, self)
  end.

(** ** Risk assessment *)

(** Line 153, right-hand side. *)
Definition debt_to_revenue (df : DataFrame) : result column :=
  expenses <- getitem df "Expenses" ;;
  revenue <- getitem df "Revenue" ;;
  q <- col_div expenses revenue ;;
  Ok (NumCol q).

(** Lines 154-157, right-hand side:
    [abs(ni - ni.mean()) / ni.std()]. *)
Definition volatility_score (df : DataFrame) : result column :=
  net_income <- getitem df "Net_Income" ;;
  mean <- col_mean net_income ;;
  match net_income with
  | NumCol vs =>
      let deviation := map (fun x => nabs (nsub x mean)) vs in
      std <- col_std net_income ;;
      Ok (NumCol (map (fun x => ndiv x std) deviation))
  | _ => Raise (TypeError "unsupported operand type(s) for -")
  end.

Definition high_debt_threshold : num := Fin (4 # 5).
Definition low_margin_threshold : num := Fin (1 # 20).

(** [series > threshold] and [series < threshold], row by row.  The
    thresholds 0.8 and 0.05 are the rationals 4/5 and 1/20 and the quotient
    compared with them is exact; in binary64 a quotient that equals the
    threshold exactly can fall on either side of the threshold's binary64
    value (1.12 / 1.4 is above 0.8).  For whole amounts below 2^50 it falls
    on the side of the exact quotient. *)
Definition gt_mask (c : column) (t : num) : result (list bool) :=
  match c with
  | NumCol vs => Ok (map (fun x => ngtb x t) vs)
  | _ => Raise (TypeError "'>' not supported between instances of 'str' and 'float'")
  end.

Definition lt_mask (vs : list num) (t : num) : list bool :=
  map (fun x => nltb x t) vs.

(** [len(df[mask])]: the number of rows the mask keeps. *)
Definition count_true (mask : list bool) : Z :=
  Z.of_nat (List.length (filter (fun b => b) mask)).

(** [df[mask][name].tolist()] *)
Definition masked_tolist (df : DataFrame) (mask : list bool) (name : string)
    : result (list cell) :=
  c <- getitem df name ;;
  Ok (map snd (filter (fun p => fst p) (combine mask (cells c)))).

(** Lines 159-169: the dict, its entries evaluated in source order. *)
Definition risk_dict (df : DataFrame) : result dict :=
  debt <- getitem df "Debt_to_Revenue" ;;
  high <- gt_mask debt high_debt_threshold ;;
  let high_debt_companies := count_true high in
  net_income <- getitem df "Net_Income" ;;
  revenue <- getitem df "Revenue" ;;
  margins <- col_div net_income revenue ;;
  let low_profit_margin_companies := count_true (lt_mask margins low_margin_threshold) in
  volatility <- getitem df "Volatility_Score" ;;
  average_volatility <- col_mean volatility ;;
  debt <- getitem df "Debt_to_Revenue" ;;
  high <- gt_mask debt high_debt_threshold ;;
  net_income <- getitem df "Net_Income" ;;
  revenue <- getitem df "Revenue" ;;
  margins <- col_div net_income revenue ;;
  let at_risk := zip_with orb high (lt_mask margins low_margin_threshold) in
  companies_at_risk <- masked_tolist df at_risk "Company" ;;
  Ok [ ("high_debt_companies", PInt high_debt_companies);
       ("low_profit_margin_companies", PInt low_profit_margin_companies);
       ("average_volatility", PNum average_volatility);
       ("companies_at_risk", PList companies_at_risk) ].

(** Lines 147-171.  The two assignments write into the stored table, one
    after the other; what was written stays when a later step raises. *)
Definition generate_risk_assessment : M dict := fun self =>
  match data self with
  | None => (Raise no_data, self)
  | Some df =>
      match debt_to_revenue df with
      | Raise e => (Raise e, self)
      | Ok debt =>
          let df1 := setitem df "Debt_to_Revenue" debt in
          let self1 := {| data := Some df1; report_summary := report_summary self |} in
          match volatility_score df1 with
          | Raise e => (Raise e, self1)
          | Ok volatility =>
              let df2 := setitem df1 "Volatility_Score" volatility in
              let self2 := {| data := Some df2; report_summary := report_summary self |} in
              (risk_dict df2, self2)
          end
      end
  end.

End Aggregator.

(** ** The narrator: prompt construction of gpt_summary.py *)

Local Open Scope result_scope.
Local Open Scope string_scope.

Definition nl : string := String (ascii_of_nat 10) EmptyString.

Definition decimal_of_Z (n : Z) : string := DecimalString.NilZero.string_of_int (Z.to_int n).

(** Commas between groups of three digits, on the reversed digits. *)
Fixpoint group3 (rev_digits : list ascii) (k : nat) : list ascii :=
  match rev_digits with
  | [] => []
  | d :: t =>
      if (k =? 3)%nat then ","%char :: d :: group3 t 1
      else d :: group3 t (S k)
  end.

Definition with_commas (digits : string) : string :=
  string_of_list_ascii (List.rev (group3 (List.rev (list_ascii_of_string digits)) 0)).

Fixpoint zero_pad (width : nat) (digits : string) : string :=
  match width with
  | O => digits
  | S w => if (String.length digits <=? w)%nat then zero_pad w ("0" ++ digits) else digits
  end.

(** The presentation types [,.0f], [.1f] and [.2f] on a finite number: the
    value rounded to [decimals] places, a minus sign for a negative value.
    The exact value is rounded, half to even; Python rounds the binary64
    value, which at a tie of the decimal text (10.35) lies on one side of
    it.  On whole numbers the two agree ([format_whole],
    [format_one_decimal]). *)
Definition format_fixed (grouping : bool) (decimals : nat) (q : Q) : string :=
  let scale := (10 ^ Z.of_nat decimals)%Z in
  let magnitude := Z.abs (round_half_even (q * inject_Z scale)) in
  let whole := decimal_of_Z (magnitude / scale) in
  let fraction := zero_pad decimals (decimal_of_Z (magnitude mod scale)) in
  String.concat EmptyString
    [ if (Qsgn q <? 0)%Z then "-" else EmptyString;
      if grouping then with_commas whole else whole;
      match decimals with O => EmptyString | S _ => "." ++ fraction end ].

(** [format(v, spec)] for a fixed-point [spec]. *)
Definition format_f (grouping : bool) (decimals : nat) (v : pyval) : result string :=
  match v with
  | PNum (Fin q) => Ok (format_fixed grouping decimals q)
  | PNum PInf => Ok "inf"
  | PNum NInf => Ok "-inf"
  | PNum NaN => Ok "nan"
  | PInt n => Ok (format_fixed grouping decimals (inject_Z n))
  | PStr _ => Raise (ValueError "Unknown format code 'f' for object of type 'str'")
  | _ => Raise (TypeError "unsupported format string passed to __format__")
  end.

(** [d.get(k, default)] *)
Definition get (d : dict) (k : string) (default : pyval) : pyval :=
  match dict_get d k with
  | Some v => v
  | None => default
  end.

Fixpoint map_result {A B} (f : A -> result B) (l : list A) : result (list B) :=
  match l with
  | [] => Ok []
  | x :: l' =>
      y <- f x ;;
      ys <- map_result f l' ;;
      Ok (y :: ys)
  end.

Section Narrator.

(** What [str()] prints for a float, a timestamp or a list. *)
Variable repr : pyval -> string.

(** The remote call [openai.ChatCompletion.create] with its model, prompt,
    [max_tokens] and [temperature]: the text of the first choice, or the
    text of the exception it raised. *)
Variable chat_completion : string -> string -> Z -> Q -> string + string.

(** A replacement field without a format spec. *)
Definition str (v : pyval) : string :=
  match v with
  | PStr s => s
  | PInt n => decimal_of_Z n
  | _ => repr v
  end.

(** Lines 59-61. *)
Definition company_line (comp : dict) : result string :=
  revenue <- format_f true 0 (get comp "Revenue_sum" (PInt 0)) ;;
  net_income <- format_f true 0 (get comp "Net_Income_sum" (PInt 0)) ;;
  margin <- format_f false 1 (get comp "Profit_Margin" (PInt 0)) ;;
  Ok (String.concat EmptyString
        [ "- "; str (get comp "Company" (PStr "Unknown"));
          ": Revenue $"; revenue; ", ";
          "Net Income $"; net_income; ", ";
          "Profit Margin "; margin; "%" ]).

(** Lines 58-63: the companies of [company_data[:10]]. *)
Definition company_info (company_data : list dict) : result string :=
  lines <- map_result company_line (firstn 10 company_data) ;;
  Ok (String.concat nl lines).

Definition company_prompt (company_info : string) : string :=
  String.concat nl
    [ EmptyString;
      "        Analyze the performance of these companies based on their financial metrics:";
      "        ";
      "        " ++ company_info;
      "        ";
      "        Provide insights on:";
      "        1. Which companies show the strongest financial health";
      "        2. Companies that may need attention or restructuring";
      "        3. Industry patterns or trends you observe";
      "        4. Recommendations for portfolio management";
      "        ";
      "        Be specific and data-driven in your analysis (max 250 words).";
      "        " ].

(** Lines 55-88.  The prompt is built outside the [try] block. *)
Definition analyze_company_performance (company_data : list dict) : result string :=
  info <- company_info company_data ;;
  match chat_completion "gpt-4" (company_prompt info) 350 (6 # 10) with
  | inl content => Ok (strip content)
  | inr e => Ok ("Company analysis unavailable: " ++ e)
  end.

(** Lines 97-100. *)
Definition sector_line (sector : dict) : result string :=
  revenue <- format_f true 0 (get sector "Revenue_sum" (PInt 0)) ;;
  margin <- format_f false 1 (get sector "Avg_Profit_Margin" (PInt 0)) ;;
  Ok (String.concat EmptyString
        [ "- "; str (get sector "Sector" (PStr "Unknown")); ": ";
          "Total Revenue $"; revenue; ", ";
          "Companies: "; str (get sector "Revenue_count" (PInt 0)); ", ";
          "Avg Profit Margin: "; margin; "%" ]).

(** Lines 96-102: every sector of [sector_data]. *)
Definition sector_info (sector_data : list dict) : result string :=
  lines <- map_result sector_line sector_data ;;
  Ok (String.concat nl lines).

Definition sector_prompt (sector_info : string) : string :=
  String.concat nl
    [ EmptyString;
      "        Analyze sector performance based on the following data:";
      "        ";
      "        " ++ sector_info;
      "        ";
      "        Provide insights on:";
      "        1. Best performing sectors and why";
      "        2. Sectors facing challenges";
      "        3. Market opportunities and threats";
      "        4. Investment recommendations by sector";
      "        ";
      "        Focus on actionable insights for investors and business leaders (max 200 words).";
      "        " ].

(** Lines 90-127. *)
Definition generate_sector_insights (sector_data : list dict) : result string :=
  match sector_data with
  | [] => Ok "Sector analysis not available - insufficient sector data."
  | _ =>
      info <- sector_info sector_data ;;
      match chat_completion "gpt-4" (sector_prompt info) 300 (6 # 10) with
      | inl content => Ok (strip content)
      | inr e => Ok ("Sector analysis unavailable: " ++ e)
      end
  end.

(** Lines 168-172. *)
Definition performer_line (perf : dict) : result string :=
  revenue <- format_f true 0 (get perf "Revenue" (PInt 0)) ;;
  net_income <- format_f true 0 (get perf "Net_Income" (PInt 0)) ;;
  margin <- format_f false 1 (get perf "Profit_Margin" (PInt 0)) ;;
  Ok (String.concat EmptyString
        [ "- "; str (get perf "Company" (PStr "Unknown")); ": ";
          "Revenue $"; revenue; ", ";
          "Net Income $"; net_income; ", ";
          "Profit Margin "; margin; "%, ";
          "Sector: "; str (get perf "Sector" (PStr "Unknown")) ]).

(** Lines 167-174: the performers of [top_performers[:5]]. *)
Definition performer_info (top_performers : list dict) : result string :=
  lines <- map_result performer_line (firstn 5 top_performers) ;;
  Ok (String.concat nl lines).

Definition performer_prompt (performer_info : string) : string :=
  String.concat nl
    [ EmptyString;
      "        Based on the top performing companies, provide investment recommendations:";
      "        ";
      "        Top Performers:";
      "        " ++ performer_info;
      "        ";
      "        Provide:";
      "        1. Investment attractiveness ranking";
      "        2. Growth potential assessment";
      "        3. Risk-adjusted return expectations";
      "        4. Portfolio allocation suggestions";
      "        5. Timeline recommendations (short/medium/long term)";
      "        ";
      "        Focus on practical investment advice (max 250 words).";
      "        " ].

(** Lines 161-201. *)
Definition generate_investment_recommendations (top_performers : list dict)
    : result string :=
  match top_performers with
  | [] => Ok "Investment recommendations not available - insufficient data."
  | _ =>
      info <- performer_info top_performers ;;
      match chat_completion "gpt-4" (performer_prompt info) 350 (6 # 10) with
      | inl content => Ok (strip content)
      | inr e => Ok ("Investment recommendations unavailable: " ++ e)
      end
  end.

End Narrator.

(** ** The remaining prompts of gpt_summary.py *)

(** [v > k] and [v < k] against an integer literal: numbers are compared,
    anything else is refused. *)
Definition gt_int (v : pyval) (k : Z) : result bool :=
  match v with
  | PNum x => Ok (ngtb x (of_Z k))
  | PInt n => Ok (k <? n)%Z
  | _ => Raise (TypeError "'>' not supported between instances")
  end.

Definition lt_int (v : pyval) (k : Z) : result bool :=
  match v with
  | PNum x => Ok (nltb x (of_Z k))
  | PInt n => Ok (n <? k)%Z
  | _ => Raise (TypeError "'<' not supported between instances")
  end.

(** The bullet U+2022, as its three bytes in UTF-8. *)
Definition bullet : string :=
  String (ascii_of_nat 226) (String (ascii_of_nat 128) (String (ascii_of_nat 162) EmptyString)).

Module GPTFinancialAnalyzer.

Section Methods.

Variable repr : pyval -> string.
Variable chat_completion : string -> string -> Z -> Q -> string + string.

(** The exception raised by [v[:5]] on a value that is neither a list nor a
    string. *)
Variable not_subscriptable : pyval -> exn.

Definition executive_prompt
    (companies revenue expenses net_income margin ratio : string) : string :=
  String.concat nl
    [ EmptyString;
      "        As a senior financial analyst, provide an executive summary based on the following financial data:";
      "        ";
      "        Financial Metrics:";
      "        - Total Companies Analyzed: " ++ companies;
      "        - Total Revenue: $" ++ revenue;
      "        - Total Expenses: $" ++ expenses;
      "        - Total Net Income: $" ++ net_income;
      "        - Average Profit Margin: " ++ margin ++ "%";
      "        - Average Expense Ratio: " ++ ratio ++ "%";
      "        ";
      "        Please provide:";
      "        1. Key financial highlights";
      "        2. Performance trends and insights";
      "        3. Risk factors to consider";
      "        4. Strategic recommendations";
      "        ";
      "        Keep the summary professional, concise, and actionable (max 300 words).";
      "        " ].

(** Lines 21-53.  The prompt is built outside the [try] block. *)
Definition generate_executive_summary (financial_data : dict) : result string :=
  let companies := str repr (get financial_data "total_companies" (PStr "N/A")) in
  revenue <- format_f true 0 (get financial_data "total_revenue" (PInt 0)) ;;
  expenses <- format_f true 0 (get financial_data "total_expenses" (PInt 0)) ;;
  net_income <- format_f true 0 (get financial_data "total_net_income" (PInt 0)) ;;
  margin <- format_f false 2 (get financial_data "profit_margin_avg" (PInt 0)) ;;
  ratio <- format_f false 2 (get financial_data "expense_ratio_avg" (PInt 0)) ;;
  match chat_completion "gpt-4"
          (executive_prompt companies revenue expenses net_income margin ratio)
          400 (7 # 10) with
  | inl content => Ok (strip content)
  | inr e => Ok ("GPT Analysis unavailable: " ++ e)
  end.

(** An item handed to [str.join]. *)
Definition name_of (c : cell) : result string :=
  match c with
  | CStr s => Ok s
  | _ => Raise (TypeError "sequence item: expected str instance")
  end.

(** Line 139: [', '.join(v[:5])].  A string is sliced and joined character
    by character (here byte by byte, which is the same on ASCII). *)
Definition join_first_five (v : pyval) : result string :=
  match v with
  | PList l =>
      names <- map_result name_of (firstn 5 l) ;;
      Ok (String.concat ", " names)
  | PStr s =>
      Ok (String.concat ", "
            (map (fun c => String c EmptyString) (firstn 5 (list_ascii_of_string s))))
  | _ => Raise (not_subscriptable v)
  end.

Definition risk_prompt (high_debt low_margin volatility at_risk : string) : string :=
  String.concat nl
    [ EmptyString;
      "        Based on the following risk metrics, provide a comprehensive risk assessment:";
      "        ";
      "        Risk Indicators:";
      "        - High Debt Companies: " ++ high_debt;
      "        - Low Profit Margin Companies: " ++ low_margin;
      "        - Average Volatility Score: " ++ volatility;
      "        - Companies at Risk: " ++ at_risk;
      "        ";
      "        Provide:";
      "        1. Overall risk level assessment";
      "        2. Key risk factors and their implications";
      "        3. Specific recommendations for risk mitigation";
      "        4. Monitoring strategies for ongoing risk management";
      "        ";
      "        Be practical and specific in your recommendations (max 250 words).";
      "        " ].

(** Lines 129-159. *)
Definition generate_risk_assessment (risk_data : dict) : result string :=
  let high_debt := str repr (get risk_data "high_debt_companies" (PInt 0)) in
  let low_margin := str repr (get risk_data "low_profit_margin_companies" (PInt 0)) in
  volatility <- format_f false 2 (get risk_data "average_volatility" (PInt 0)) ;;
  at_risk <- join_first_five (get risk_data "companies_at_risk" (PList [])) ;;
  match chat_completion "gpt-4" (risk_prompt high_debt low_margin volatility at_risk)
          350 (7 # 10) with
  | inl content => Ok (strip content)
  | inr e => Ok ("Risk assessment unavailable: " ++ e)
  end.

(** The argument of [create_comprehensive_report] as app.py builds it
    (lines 325-339): a dict with some of five keys, a report or a list of
    records under each. *)
Record analysis_data : Type := {
  basic_report : option dict;
  company_insights : option (list dict);
  sector_analysis : option (list dict);
  risk_assessment : option dict;
  top_performers : option (list dict)
}.

(** One section of the report: nothing is written for an absent key. *)
Definition section {A} (entry : option A) (title : string) (write : A -> result string)
    (report : list (string * string)) : result (list (string * string)) :=
  match entry with
  | Some value =>
      text <- write value ;;
      Ok (report ++ [(title, text)])%list
  | None => Ok report
  end.

(** Lines 203-234. *)
Definition create_comprehensive_report (all_data : analysis_data)
    : result (list (string * string)) :=
  let report := [] in
  report <- section (basic_report all_data) "executive_summary"
              generate_executive_summary report ;;
  report <- section (company_insights all_data) "company_analysis"
              (analyze_company_performance repr chat_completion) report ;;
  report <- section (sector_analysis all_data) "sector_insights"
              (generate_sector_insights repr chat_completion) report ;;
  report <- section (risk_assessment all_data) "risk_analysis"
              generate_risk_assessment report ;;
  report <- section (top_performers all_data) "investment_recommendations"
              (generate_investment_recommendations repr chat_completion) report ;;
  Ok report.

End Methods.

End GPTFinancialAnalyzer.

Section BasicSummary.

Variable repr : pyval -> string.

Definition summary_text
    (companies revenue net_income margin average_revenue average_net_income ratio
       profitability cost growth : string) : string :=
  String.concat nl
    [ EmptyString;
      "    FINANCIAL PERFORMANCE SUMMARY";
      "    ============================";
      "    ";
      "    Portfolio Overview:";
      "    " ++ bullet ++ " Total Companies: " ++ companies;
      "    " ++ bullet ++ " Combined Revenue: $" ++ revenue;
      "    " ++ bullet ++ " Combined Net Income: $" ++ net_income;
      "    " ++ bullet ++ " Average Profit Margin: " ++ margin ++ "%";
      "    ";
      "    Key Metrics:";
      "    " ++ bullet ++ " Revenue per company: $" ++ average_revenue;
      "    " ++ bullet ++ " Net Income per company: $" ++ average_net_income;
      "    " ++ bullet ++ " Expense Ratio: " ++ ratio ++ "%";
      "    ";
      "    Performance Assessment:";
      "    " ++ profitability;
      "    " ++ cost;
      "    " ++ growth;
      "    " ].

(** Lines 237-261: the fields are evaluated and formatted from first to
    last. *)
Definition generate_basic_summary (financial_data : dict) : result string :=
  let companies := str repr (get financial_data "total_companies" (PInt 0)) in
  revenue <- format_f true 0 (get financial_data "total_revenue" (PInt 0)) ;;
  net_income <- format_f true 0 (get financial_data "total_net_income" (PInt 0)) ;;
  margin <- format_f false 2 (get financial_data "profit_margin_avg" (PInt 0)) ;;
  average_revenue <- format_f true 0 (get financial_data "average_revenue" (PInt 0)) ;;
  average_net_income <-
    format_f true 0 (get financial_data "average_net_income" (PInt 0)) ;;
  ratio <- format_f false 2 (get financial_data "expense_ratio_avg" (PInt 0)) ;;
  strong <- gt_int (get financial_data "profit_margin_avg" (PInt 0)) 15 ;;
  efficient <- lt_int (get financial_data "expense_ratio_avg" (PInt 0)) 80 ;;
  healthy <- gt_int (get financial_data "total_revenue" (PInt 0)) 1000000000 ;;
  Ok (summary_text companies revenue net_income margin average_revenue
        average_net_income ratio
        (bullet ++ (if strong then " Strong profitability across portfolio"
                    else " Moderate profitability levels"))
        (bullet ++ (if efficient then " Efficient cost management"
                    else " Room for cost optimization"))
        (bullet ++ (if healthy then " Healthy revenue generation"
                    else " Growing revenue base"))).

End BasicSummary.

(** ** The integrity checks of test_examples.py *)

(** [pd.api.types.is_numeric_dtype] *)
Definition is_numeric_dtype (c : column) : bool :=
  match c with
  | NumCol _ => true
  | _ => false
  end.

(** [series.isnull().sum()]: the missing values of a column of numbers. *)
Definition isnull_count (c : column) : Z :=
  match c with
  | NumCol vs => Z.of_nat (List.length (filter is_nan vs))
  | _ => 0%Z
  end.

(** An operand of a subtraction. *)
Definition operand (v : pyval) : result num :=
  match v with
  | PNum x => Ok x
  | PInt n => Ok (of_Z n)
  | _ => Raise (TypeError "unsupported operand type(s) for -")
  end.

(** [abs(expected - actual) < 1000] *)
Definition within_1000 (expected actual : pyval) : result bool :=
  x <- operand expected ;;
  y <- operand actual ;;
  Ok (nltb (nabs (nsub x y)) (of_Z 1000)).

(** [expected == actual] for an [int] on the left. *)
Definition int_eq (expected : Z) (actual : pyval) : bool :=
  match actual with
  | PInt n => (expected =? n)%Z
  | PNum x => neqb (of_Z expected) x
  | _ => false
  end.

(** [df[names]]: the columns named, or KeyError with those that are absent. *)
Definition getitems (df : DataFrame) (names : list string) : result (list column) :=
  match filter (fun name => negb (has_column df name)) names with
  | [] => map_result (getitem df) names
  | absent => Raise (KeyError absent)
  end.

Record validation : Type := {
  test : string;
  passed : bool;
  message : string
}.

Section Validation.

Variable repr : pyval -> string.

(** Lines 206-256. *)
Definition validate_data_integrity (df : DataFrame) (basic_report : dict)
    : result (list validation) :=
  revenue <- getitem df "Revenue" ;;
  expected_total_revenue <- col_sum revenue ;;
  let actual_total_revenue := get basic_report "total_revenue" (PInt 0) in
  revenue_passed <- within_1000 expected_total_revenue actual_total_revenue ;;
  revenue_expected <- format_f true 0 expected_total_revenue ;;
  revenue_got <- format_f true 0 actual_total_revenue ;;
  net_income <- getitem df "Net_Income" ;;
  expected_total_income <- col_sum net_income ;;
  let actual_total_income := get basic_report "total_net_income" (PInt 0) in
  income_passed <- within_1000 expected_total_income actual_total_income ;;
  income_expected <- format_f true 0 expected_total_income ;;
  income_got <- format_f true 0 actual_total_income ;;
  company <- getitem df "Company" ;;
  let expected_companies := col_nunique company in
  let actual_companies := get basic_report "total_companies" (PInt 0) in
  let all_numeric :=
    forallb (fun col => match df_get df col with
                        | Some c => is_numeric_dtype c
                        | None => true
                        end)
      (filter (has_column df) ["Revenue"; "Expenses"; "Net_Income"]) in
  critical <- getitems df ["Company"; "Revenue"; "Net_Income"] ;;
  let missing_data := fold_right Z.add 0%Z (map isnull_count critical) in
  Ok [ {| test := "Revenue Calculation";
          passed := revenue_passed;
          message := "Expected: $" ++ revenue_expected ++ ", Got: $" ++ revenue_got |};
       {| test := "Net Income Calculation";
          passed := income_passed;
          message := "Expected: $" ++ income_expected ++ ", Got: $" ++ income_got |};
       {| test := "Company Count";
          passed := int_eq expected_companies actual_companies;
          message := "Expected: " ++ decimal_of_Z expected_companies
                     ++ ", Got: " ++ str repr actual_companies |};
       {| test := "Numeric Data Types";
          passed := all_numeric;
          message := if all_numeric then "All financial columns are numeric"
                     else "Some financial columns are not numeric" |};
       {| test := "Missing Critical Data";
          passed := (missing_data =? 0)%Z;
          message := if (missing_data =? 0)%Z then "No missing data"
                     else decimal_of_Z missing_data ++ " missing values found" |} ].

End Validation.

(** ** Tables as lists of records (app.py, lines 327, 335 and 339) *)

(** [d[k] = v]: a key keeps the place of its first insertion. *)
Fixpoint dict_set (d : dict) (k : string) (v : pyval) : dict :=
  match d with
  | [] => [(k, v)]
  | (k', v') :: d' =>
      if String.eqb k' k then (k', v) :: d' else (k', v') :: dict_set d' k v
  end.

Definition pyval_of_cell (c : cell) : pyval :=
  match c with
  | CNum x => PNum x
  | CStr s => PStr s
  | CDate t => PDate t
  end.

(** [len(df)] *)
Definition nrows (df : DataFrame) : nat :=
  match df with
  | [] => O
  | (_, c) :: _ => col_len c
  end.

(** [dict(zip(df.columns, row))] for the row at position [i]. *)
Definition record_at (df : DataFrame) (i : nat) : dict :=
  fold_left (fun d (nc : string * column) =>
               match nth_error (cells (snd nc)) i with
               | Some c => dict_set d (fst nc) (pyval_of_cell c)
               | None => d
               end) df [].

(** [df.to_dict('records')] *)
Definition to_records (df : DataFrame) : list dict :=
  map (record_at df) (seq 0 (nrows df)).

(** ** Reference definitions for the statements

    Plain arithmetic on rationals, against which the pandas reductions are
    compared. *)

Definition Qsum (qs : list Q) : Q := fold_right Qplus 0%Q qs.

(** The arithmetic mean, in lowest terms; undefined (NaN) over no value. *)
Definition arith_mean (qs : list Q) : num :=
  match qs with
  | [] => NaN
  | _ => Fin (Qred (Qsum qs / inject_Z (Z.of_nat (List.length qs))))
  end.

(** The four required columns, in the order [generate_basic_report] reads
    them. *)
Definition required_columns : list string :=
  ["Company"; "Revenue"; "Expenses"; "Net_Income"]%string.

(** Market_Cap is optional; when present it holds numbers. *)
Definition market_cap_numeric (df : DataFrame) : Prop :=
  match df_get df "Market_Cap" with
  | None => True
  | Some (NumCol _) => True
  | Some _ => False
  end.

(** The ten entries every summary starts with. *)
Definition summary_head (qsqrt : Q -> Q) (company : column) (rev exp ni : list num)
    : dict :=
  ([ ("total_companies", PInt (col_nunique company));
    ("total_revenue", PNum (series_sum rev));
    ("total_expenses", PNum (series_sum exp));
    ("total_net_income", PNum (series_sum ni));
    ("average_revenue", PNum (series_mean rev));
    ("average_expenses", PNum (series_mean exp));
    ("average_net_income", PNum (series_mean ni));
    ("revenue_std", PNum (series_std qsqrt rev));
    ("profit_margin_avg", PNum (nmul (series_mean (zip_with ndiv ni rev)) hundred));
    ("expense_ratio_avg", PNum (nmul (series_mean (zip_with ndiv exp rev)) hundred)) ])%string.

(** The ratio of the portfolio sums, as a percentage. *)
Definition ratio_of_sums (numerators denominators : list Q) : num :=
  nmul (ndiv (Fin (Qred (Qsum numerators))) (Fin (Qred (Qsum denominators)))) hundred.

(** The values of the rows of company [name]. *)
Definition rows_of {A} (companies : list string) (name : string) (vs : list A)
    : list A :=
  map snd (filter (fun p => String.eqb (fst p) name) (combine companies vs)).

(** [a] divided by [b], times 100, rounded to two decimals. *)
Definition percent_ratio (a b : num) : num := round2 (nmul (ndiv a b) hundred).

(** The methods of the generator, for sequences of calls on one object. *)
Inductive call : Type :=
| call_basic_report
| call_company_insights
| call_sector_analysis
| call_top_performers (metric : string) (top_n : Z)
| call_risk_assessment.

(** The generator a call leaves behind, whether it returned or raised. *)
Definition after (qsqrt : Q -> Q) (c : call) (self : generator) : generator :=
  match c with
  | call_basic_report => snd (generate_basic_report qsqrt self)
  | call_company_insights => snd (get_company_insights self)
  | call_sector_analysis => snd (get_sector_analysis self)
  | call_top_performers metric top_n => snd (identify_top_performers metric top_n self)
  | call_risk_assessment => snd (generate_risk_assessment qsqrt self)
  end.

Definition after_all (qsqrt : Q -> Q) (calls : list call) (self : generator)
    : generator :=
  fold_left (fun g c => after qsqrt c g) calls self.

(** The stored table has the column [name]. *)
Definition stores_column (self : generator) (name : string) : Prop :=
  exists df, data self = Some df /\ has_column df name = true.

(** The Volatility_Score column of lines 154-157 on numeric net incomes. *)
Definition volatility (qsqrt : Q -> Q) (ni : list num) : list num :=
  map (fun x => ndiv x (series_std qsqrt ni))
      (map (fun x => nabs (nsub x (series_mean ni))) ni).

(** Whether [x / r > t], and whether [x / r < t], with the quotient that
    [ndiv] gives: decided on [x] and [t * r] by the sign of [r], and on the
    sign of [x] when [r] is zero. *)
Definition ratio_above (x r t : Q) : bool :=
  match Qcompare r 0 with
  | Gt => negb (Qle_bool x (t * r))
  | Eq => negb (Qle_bool x 0)
  | Lt => negb (Qle_bool (t * r) x)
  end.

Definition ratio_below (x r t : Q) : bool :=
  match Qcompare r 0 with
  | Gt => negb (Qle_bool (t * r) x)
  | Eq => negb (Qle_bool 0 x)
  | Lt => negb (Qle_bool x (t * r))
  end.

(** Rows by decreasing value, on pairs of a position and a rational. *)
Definition rank_leb (a b : nat * Q) : bool := Qle_bool (snd b) (snd a).

(** Rationals in non-increasing order. *)
Definition descending (qs : list Q) : Prop :=
  StronglySorted (fun a b => (b <= a)%Q) qs.

(** Every column of the frame has [n] rows. *)
Definition frame_rows (df : DataFrame) (n : nat) : Prop :=
  Forall (fun nc : string * column => col_len (snd nc) = n) df.


(** [p] shows the number [x] to two decimals: it is a multiple of 1/100 and
    less than 1/100 away from [x] (so [x] rounded down or up).  This is what
    [round(2)] gives on the binary64 value as well as on the exact one,
    whichever side of a tie the binary64 value falls on. *)
Definition to_two_decimals (x : Q) (p : num) : Prop :=
  exists k : Z,
    p = Fin (Qred (inject_Z k / 100)) /\
    (Qabs (inject_Z k / 100 - x) < 1 # 100)%Q.

(** A whole amount below 2^50 in absolute value: binary64 holds it exactly,
    and the quotient of two such amounts falls on the same side of 0.8 and
    of 0.05 in binary64 as it does exactly. *)
(** Amounts that binary64 adds up, in whatever order, with an error far
    below a hundredth: their number times the total of their absolute values
    is below 2^42.  A percentage below 2^32 in absolute value is likewise
    computed with an error far below a hundredth. *)
Definition summed_to_the_cent (qs : list Q) : Prop :=
  (inject_Z (Z.of_nat (List.length qs)) * Qsum (map Qabs qs) < inject_Z (2 ^ 42))%Q.

Definition percent_to_the_cent (x : Q) : Prop :=
  (Qabs x < inject_Z (2 ^ 32))%Q.

Definition whole_amount (z : Z) : Prop := (Z.abs z < 2 ^ 50)%Z.


(** A whole number as [format(z, ',.0f')] and as [format(z, '.1f')] print
    it. *)
Definition whole_text (z : Z) : string :=
  ((if (z <? 0)%Z then "-" else EmptyString)
   ++ with_commas (decimal_of_Z (Z.abs z)))%string.

Definition one_decimal_text (z : Z) : string :=
  ((if (z <? 0)%Z then "-" else EmptyString)
   ++ decimal_of_Z (Z.abs z) ++ ".0")%string.

(** A label of ASCII characters only, on which the white space of
    [str.strip] is the white space of [strip]. *)
Definition ascii_label (s : string) : bool :=
  forallb (fun c => (nat_of_ascii c <? 128)%nat) (list_ascii_of_string s).

(** The rows at the positions [idx] of [df], in the five columns that
    [identify_top_performers] selects, are the rows of [tp]. *)
Definition selected_columns : list string :=
  ["Company"; "Revenue"; "Expenses"; "Net_Income"; "Sector"]%string.

Definition rows_taken (idx : list nat) (df tp : DataFrame) : Prop :=
  Forall (fun name => df_get tp name = option_map (col_take idx) (df_get df name))
    selected_columns.

(** A number that is neither an infinity nor NaN. *)
Definition is_finite (a : num) : bool :=
  match a with
  | Fin _ => true
  | _ => false
  end.

(** Every column of the table under the label [k] holds numbers. *)
Definition numeric_named (df : DataFrame) (k : string) : bool :=
  forallb (fun nc : string * column =>
             negb (String.eqb (fst nc) k) || is_numeric_dtype (snd nc)) df.

(** The record has a number under [k], or nothing. *)
Definition numeric_or_absent (d : dict) (k : string) : Prop :=
  match dict_get d k with
  | None => True
  | Some (PNum _) => True
  | Some _ => False
  end.

(** The titles of the sections of the comprehensive report whose data are
    present, in the order of the report. *)
Definition present_titles (all_data : GPTFinancialAnalyzer.analysis_data) : list string :=
  let title {A} (entry : option A) (t : string) : list string :=
    match entry with Some _ => [t] | None => [] end in
  (title (GPTFinancialAnalyzer.basic_report all_data) "executive_summary"
   ++ title (GPTFinancialAnalyzer.company_insights all_data) "company_analysis"
   ++ title (GPTFinancialAnalyzer.sector_analysis all_data) "sector_insights"
   ++ title (GPTFinancialAnalyzer.risk_assessment all_data) "risk_analysis"
   ++ title (GPTFinancialAnalyzer.top_performers all_data)
        "investment_recommendations")%list%string.

(** ** Tables used in examples *)

(** The two rows of the specification's example. *)
Definition two_rows : DataFrame :=
  [ ("Company", StrCol ["A"; "B"]);
    ("Revenue", NumCol (map Fin [100; 200]%Q));
    ("Expenses", NumCol (map Fin [90; 100]%Q));
    ("Net_Income", NumCol (map Fin [10; 100]%Q)) ]%string.


(** The same rows with a Date (2024-03-31 and 2023-12-31, in nanoseconds),
    a Sector and a Market_Cap column, as [load_data] leaves them. *)
Definition full_table : DataFrame :=
  [ ("Company", StrCol ["A"; "B"]);
    ("Date", DateCol [1711843200000000000; 1703980800000000000]%Z);
    ("Revenue", NumCol (map Fin [100; 200]%Q));
    ("Expenses", NumCol (map Fin [90; 100]%Q));
    ("Net_Income", NumCol (map Fin [10; 100]%Q));
    ("Sector", StrCol ["Retail"; "Energy"]);
    ("Market_Cap", NumCol (map Fin [1000; 3000]%Q)) ]%string.

(** A column of numbers. *)
Definition numeric_column (df : DataFrame) (name : string) : Prop :=
  exists vs, df_get df name = Some (NumCol vs).




(** Narrator inputs: one record of sector analysis and one of company
    insights per name. *)
Definition sector_record (name : string) : dict :=
  [ ("Sector", PStr name);
    ("Revenue_sum", PNum (Fin 1500000));
    ("Revenue_mean", PNum (Fin 1500000));
    ("Revenue_count", PInt 1);
    ("Net_Income_sum", PNum (Fin 300000));
    ("Net_Income_mean", PNum (Fin 300000));
    ("Market_Cap_sum", PNum (Fin 9000000));
    ("Avg_Profit_Margin", PNum (Fin 20)) ]%string.

Definition eleven_sectors : list dict :=
  map sector_record
    [ "S01"; "S02"; "S03"; "S04"; "S05"; "S06";
      "S07"; "S08"; "S09"; "S10"; "S11" ]%string.

Definition company_record (name : string) : dict :=
  [ ("Company", PStr name);
    ("Revenue_sum", PNum (Fin 1500000));
    ("Net_Income_sum", PNum (Fin 300000));
    ("Profit_Margin", PNum (Fin 20)) ]%string.

Definition twelve_companies : list dict :=
  map company_record
    [ "C01"; "C02"; "C03"; "C04"; "C05"; "C06";
      "C07"; "C08"; "C09"; "C10"; "C11"; "C12" ]%string.

(** Stand-ins for the two parameters of the narrator: no text for floats,
    and a remote end that echoes the prompt. *)
Definition no_repr (v : pyval) : string := EmptyString.

Definition echo (model prompt : string) (max_tokens : Z) (temperature : Q)
    : string + string :=
  inl prompt.

(** The two rows with a Sector column and no Market_Cap column. *)
Definition no_market_cap : DataFrame :=
  [ ("Company", StrCol ["A"; "B"]);
    ("Revenue", NumCol (map Fin [100; 200]%Q));
    ("Expenses", NumCol (map Fin [90; 100]%Q));
    ("Net_Income", NumCol (map Fin [10; 100]%Q));
    ("Sector", StrCol ["Retail"; "Energy"]) ]%string.

(** Three rows, two of them of one company and one sector. *)
Definition repeated_company : DataFrame :=
  [ ("Company", StrCol ["B"; "A"; "B"]);
    ("Revenue", NumCol (map Fin [200; 100; 300]%Q));
    ("Expenses", NumCol (map Fin [100; 90; 100]%Q));
    ("Net_Income", NumCol (map Fin [100; 10; 200]%Q));
    ("Sector", StrCol ["Energy"; "Retail"; "Energy"]);
    ("Market_Cap", NumCol (map Fin [3000; 1000; 3000]%Q)) ]%string.

(** Rows at the thresholds of the risk assessment and a row without
    revenue. *)
Definition threshold_rows : DataFrame :=
  [ ("Company", StrCol ["AtLimit"; "Over"; "NoRevenue"; "Thin"]);
    ("Revenue", NumCol (map Fin [100; 100; 0; 100]%Q));
    ("Expenses", NumCol (map Fin [80; 81; 5; 95]%Q));
    ("Net_Income", NumCol (map Fin [20; 19; -5; 5]%Q)) ]%string.

(** A table whose companies are numbered, not named; the second row has
    expenses above four fifths of its revenue. *)
Definition numbered_companies : DataFrame :=
  [ ("Company", NumCol (map Fin [1; 2]%Q));
    ("Revenue", NumCol (map Fin [100; 200]%Q));
    ("Expenses", NumCol (map Fin [50; 190]%Q));
    ("Net_Income", NumCol (map Fin [50; 10]%Q)) ]%string.

(** A remote call that always fails. *)
Definition offline (model prompt : string) (max_tokens : Z) (temperature : Q)
    : string + string :=
  inr "offline"%string.

(** A slice of a value that is not a sequence. *)
Definition slice_error (v : pyval) : exn :=
  TypeError "object is not subscriptable"%string.

(** A file whose labels are padded with blanks and whose dates are still
    strings, and the conversion of its dates. *)
Definition padded_file : DataFrame :=
  [ (" Company ", StrCol ["A"; "B"]);
    ("Date ", StrCol ["2024-03-31"; "2023-12-31"]);
    (" Revenue", NumCol (map Fin [100; 200]%Q)) ]%string.

Definition read_padded (filepath : string) : string + DataFrame := inr padded_file.

Definition parse_dates (c : column) : string + list Z :=
  inr [1711843200000000000; 1703980800000000000]%Z.

Definition holding (df : DataFrame) : generator :=
  {| data := Some df; report_summary := [] |}.

(** * Properties *)

#[local] Arguments Qred : simpl never.
#[local] Arguments Qplus : simpl never.
#[local] Arguments Qmult : simpl never.
#[local] Arguments Qdiv : simpl never.
#[local] Arguments Qminus : simpl never.
#[local] Arguments Qopp : simpl never.
#[local] Arguments Qabs : simpl never.
#[local] Arguments Qeq_bool : simpl never.
#[local] Arguments Qle_bool : simpl never.
#[local] Arguments inject_Z : simpl never.

(** ** Results and frames *)

Lemma getitem_Some (df : DataFrame) (name : string) (c : column) :
  df_get df name = Some c -> getitem df name = Ok c.
Proof. unfold getitem. now intros ->. Qed.

Lemma getitem_None (df : DataFrame) (name : string) :
  df_get df name = None -> getitem df name = Raise (KeyError [name]).
Proof. unfold getitem. now intros ->. Qed.

Lemma getitem_Ok (df : DataFrame) (name : string) (c : column) :
  getitem df name = Ok c -> df_get df name = Some c.
Proof. unfold getitem. destruct (df_get df name); now inversion 1. Qed.

Lemma has_column_df_get (df : DataFrame) (name : string) :
  has_column df name = match df_get df name with Some _ => true | None => false end.
Proof.
  unfold has_column, columns.
  induction df as [|[n c] df IH]; simpl; [reflexivity|].
  rewrite String.eqb_sym. destruct (String.eqb n name); simpl; auto.
Qed.

Lemma has_column_Some (df : DataFrame) (name : string) (c : column) :
  df_get df name = Some c -> has_column df name = true.
Proof. rewrite has_column_df_get. now intros ->. Qed.


Lemma rbind_Ok {A B} (r : result A) (k : A -> result B) (b : B) :
  rbind r k = Ok b -> exists a, r = Ok a /\ k a = Ok b.
Proof. destruct r; simpl; [eauto | discriminate]. Qed.

(** ** Sums of finite values *)

Lemma dropna_Fin (qs : list Q) : dropna (map Fin qs) = map Fin qs.
Proof.
  unfold dropna. induction qs as [|q qs IH]; simpl; [reflexivity | now rewrite IH].
Qed.

Lemma Qred_idem (q : Q) : Qred (Qred q) = Qred q.
Proof. apply Qred_complete, Qred_correct. Qed.

Lemma fold_nadd_Fin (qs : list Q) (a : Q) :
  Qred a = a ->
  fold_left nadd (map Fin qs) (Fin a) = Fin (Qred (a + Qsum qs)).
Proof.
  revert a. induction qs as [|q qs IH]; intros a Ha; simpl.
  - rewrite <- Ha at 1. f_equal. apply Qred_complete. unfold Qsum; simpl. ring.
  - rewrite IH by apply Qred_idem.
    f_equal. apply Qred_complete. rewrite Qred_correct. ring.
Qed.

Lemma series_sum_Fin (qs : list Q) :
  series_sum (map Fin qs) = Fin (Qred (Qsum qs)).
Proof.
  unfold series_sum. rewrite dropna_Fin, fold_nadd_Fin by reflexivity.
  f_equal. apply Qred_complete. ring.
Qed.

Lemma series_count_Fin (qs : list Q) :
  series_count (map Fin qs) = List.length qs.
Proof. unfold series_count. now rewrite dropna_Fin, length_map. Qed.

Lemma inject_nat_S_nonzero (n : nat) :
  Qeq_bool (inject_Z (Z.of_nat (S n))) 0 = false.
Proof.
  destruct (Qeq_bool _ _) eqn:E; [|reflexivity].
  apply Qeq_bool_eq in E. unfold Qeq in E. simpl in E. lia.
Qed.

Lemma series_mean_Fin (qs : list Q) :
  series_mean (map Fin qs) = arith_mean qs.
Proof.
  unfold series_mean, arith_mean. rewrite series_count_Fin, series_sum_Fin.
  destruct qs as [|q qs]; [reflexivity|].
  cbn [List.length]. unfold ndiv, of_nat, of_Z.
  rewrite inject_nat_S_nonzero. f_equal.
  apply Qred_complete. now rewrite Qred_correct.
Qed.

(** Row-wise ratios of finite values with non-zero denominators. *)
Lemma zip_ndiv_Fin (xs ys : list Q) :
  Forall (fun y => ~ (y == 0)%Q) ys ->
  zip_with ndiv (map Fin xs) (map Fin ys)
  = map Fin (zip_with (fun x y => Qred (x / y)) xs ys).
Proof.
  intros Hys. revert xs. induction Hys as [|y ys Hy _ IH]; intros [|x xs]; simpl;
    try reflexivity.
  rewrite IH. f_equal.
  destruct (Qeq_bool y 0) eqn:E; [|reflexivity].
  apply Qeq_bool_eq in E. contradiction.
Qed.

Lemma Qsum_zip_Qred (xs ys : list Q) :
  (Qsum (zip_with (fun x y => Qred (x / y)) xs ys) == Qsum (zip_with Qdiv xs ys))%Q.
Proof.
  revert ys. induction xs as [|x xs IH]; intros [|y ys]; simpl; try reflexivity.
  now rewrite IH, Qred_correct.
Qed.

Lemma length_zip_with {A B C D} (f : A -> B -> C) (g : A -> B -> D) xs ys :
  List.length (zip_with f xs ys) = List.length (zip_with g xs ys).
Proof.
  revert ys. induction xs as [|x xs IH]; intros [|y ys]; simpl; auto.
Qed.

Lemma series_mean_ratios (xs ys : list Q) :
  Forall (fun y => ~ (y == 0)%Q) ys ->
  series_mean (zip_with ndiv (map Fin xs) (map Fin ys))
  = arith_mean (zip_with Qdiv xs ys).
Proof.
  intros Hys. rewrite zip_ndiv_Fin, series_mean_Fin by assumption.
  unfold arith_mean.
  rewrite (length_zip_with (fun x y => Qred (x / y)) Qdiv).
  destruct xs as [|x xs], ys as [|y ys]; try reflexivity.
  cbn [zip_with]. f_equal. apply Qred_complete.
  apply Qmult_comp; [|reflexivity].
  apply (Qsum_zip_Qred (x :: xs) (y :: ys)).
Qed.

(** ** generate_basic_report *)

Section BasicReport.

Variable qsqrt : Q -> Q.

Local Open Scope string_scope.

Ltac bind_inv H x E :=
  apply rbind_Ok in H; destruct H as (x & E & H); cbv beta zeta in H.

Lemma col_mean_Ok (c : column) (m : num) :
  col_mean c = Ok m -> exists vs, c = NumCol vs /\ m = series_mean vs.
Proof. destruct c; simpl; inversion 1; eauto. Qed.

Lemma col_std_Ok (c : column) (m : num) :
  col_std qsqrt c = Ok m -> exists vs, c = NumCol vs /\ m = series_std qsqrt vs.
Proof. destruct c; simpl; inversion 1; eauto. Qed.

(** A summary is only returned for numeric Revenue, Expenses and Net_Income,
    and then it starts with [summary_head]. *)
Lemma basic_summary_inv (df : DataFrame) (summary : dict) :
  basic_summary qsqrt df = Ok summary ->
  exists company rev exp ni extra,
    df_get df "Company" = Some company /\
    df_get df "Revenue" = Some (NumCol rev) /\
    df_get df "Expenses" = Some (NumCol exp) /\
    df_get df "Net_Income" = Some (NumCol ni) /\
    summary = (summary_head qsqrt company rev exp ni ++ extra)%list.
Proof.
  unfold basic_summary. intros H.
  bind_inv H company Ec. bind_inv H revenue Er. bind_inv H tr Etr.
  bind_inv H expenses Ee. bind_inv H te Ete.
  bind_inv H net_income En. bind_inv H tn Etn.
  bind_inv H ar Ear. bind_inv H ae Eae. bind_inv H an Ean.
  bind_inv H sr Esr. bind_inv H margins Em. bind_inv H ratios Era.
  apply col_mean_Ok in Ear as (rev & -> & ->).
  apply col_mean_Ok in Eae as (exp & -> & ->).
  apply col_mean_Ok in Ean as (ni & -> & ->).
  apply col_std_Ok in Esr as (rev' & Hrev & ->). inversion Hrev; subst rev'.
  simpl in Etr, Ete, Etn, Em, Era.
  inversion Etr; inversion Ete; inversion Etn; inversion Em; inversion Era; subst.
  apply getitem_Ok in Ec, Er, Ee, En.
  exists company, rev, exp, ni.
  destruct (has_column df "Market_Cap").
  - bind_inv H mc Emc. bind_inv H tm Etm. bind_inv H am Eam. bind_inv H sm Esm.
    inversion H; subst. eexists. repeat split; eassumption.
  - inversion H; subst. exists []. rewrite app_nil_r. repeat split; assumption.
Qed.

(** With the required columns numeric, and Market_Cap numeric when present,
    a summary is returned. *)
Lemma basic_summary_numeric (df : DataFrame) (company : column) (rev exp ni : list num) :
  df_get df "Company" = Some company ->
  df_get df "Revenue" = Some (NumCol rev) ->
  df_get df "Expenses" = Some (NumCol exp) ->
  df_get df "Net_Income" = Some (NumCol ni) ->
  market_cap_numeric df ->
  exists extra,
    basic_summary qsqrt df = Ok (summary_head qsqrt company rev exp ni ++ extra)%list.
Proof.
  intros Hc Hr He Hn Hm. unfold basic_summary, market_cap_numeric in *.
  rewrite (getitem_Some _ _ Hc), (getitem_Some _ _ Hr), (getitem_Some _ _ He),
    (getitem_Some _ _ Hn).
  cbn [rbind col_sum col_mean col_std col_div].
  rewrite has_column_df_get. unfold getitem.
  destruct (df_get df "Market_Cap") as [[mc|mc|mc]|]; try contradiction.
  - cbn [rbind col_sum col_mean col_std]. eexists. reflexivity.
  - exists []. now rewrite app_nil_r.
Qed.

Lemma generate_basic_report_Ok (self self' : generator) (df : DataFrame) (summary : dict) :
  data self = Some df ->
  generate_basic_report qsqrt self = (Ok summary, self') ->
  basic_summary qsqrt df = Ok summary.
Proof.
  unfold generate_basic_report. intros ->.
  destruct (basic_summary qsqrt df); inversion 1; reflexivity.
Qed.

Lemma generate_basic_report_returns (self : generator) (df : DataFrame)
    (company : column) (rev exp ni : list num) :
  data self = Some df ->
  df_get df "Company" = Some company ->
  df_get df "Revenue" = Some (NumCol rev) ->
  df_get df "Expenses" = Some (NumCol exp) ->
  df_get df "Net_Income" = Some (NumCol ni) ->
  market_cap_numeric df ->
  exists summary self', generate_basic_report qsqrt self = (Ok summary, self').
Proof.
  intros Hd Hc Hr He Hn Hm.
  destruct (basic_summary_numeric _ Hc Hr He Hn Hm) as (extra & E).
  unfold generate_basic_report. rewrite Hd, E. eauto.
Qed.


Lemma summary_head_profit_margin company rev exp ni extra :
  dict_get (summary_head qsqrt company rev exp ni ++ extra)%list "profit_margin_avg"
  = Some (PNum (nmul (series_mean (zip_with ndiv ni rev)) hundred)).
Proof. reflexivity. Qed.

Lemma summary_head_expense_ratio company rev exp ni extra :
  dict_get (summary_head qsqrt company rev exp ni ++ extra)%list "expense_ratio_avg"
  = Some (PNum (nmul (series_mean (zip_with ndiv exp rev)) hundred)).
Proof. reflexivity. Qed.

(** C1.  On a table with the required columns and no zero revenue, the
    summary's [profit_margin_avg] is the arithmetic mean over the rows of
    net income / revenue, times 100, and [expense_ratio_avg] is the mean of
    expenses / revenue, times 100; the summary is returned whenever
    Market_Cap, if present, holds numbers. *)
Theorem profit_margin_is_mean_of_ratios (self : generator) (df : DataFrame)
    (company : column) (rev exp ni : list Q) :
  data self = Some df ->
  df_get df "Company" = Some company ->
  df_get df "Revenue" = Some (NumCol (map Fin rev)) ->
  df_get df "Expenses" = Some (NumCol (map Fin exp)) ->
  df_get df "Net_Income" = Some (NumCol (map Fin ni)) ->
  Forall (fun r => ~ (r == 0)%Q) rev ->
  (forall summary self',
      generate_basic_report qsqrt self = (Ok summary, self') ->
      dict_get summary "profit_margin_avg"
      = Some (PNum (nmul (arith_mean (zip_with Qdiv ni rev)) hundred)) /\
      dict_get summary "expense_ratio_avg"
      = Some (PNum (nmul (arith_mean (zip_with Qdiv exp rev)) hundred))) /\
  (market_cap_numeric df ->
   exists summary self', generate_basic_report qsqrt self = (Ok summary, self')).
Proof.
  intros Hd Hc Hr He Hn Hrev. split.
  - intros summary self' H.
    apply (generate_basic_report_Ok _ Hd) in H.
    apply basic_summary_inv in H
      as (company' & rev' & exp' & ni' & extra & _ & Hr' & He' & Hn' & ->).
    rewrite Hr in Hr'. rewrite He in He'. rewrite Hn in Hn'.
    inversion Hr'; inversion He'; inversion Hn'; subst rev' exp' ni'.
    rewrite summary_head_profit_margin, summary_head_expense_ratio.
    now rewrite !series_mean_ratios by assumption.
  - intros Hm. exact (generate_basic_report_returns _ Hd Hc Hr He Hn Hm).
Qed.


End BasicReport.

(** C1 on the two rows (A, 100, 90, 10) and (B, 200, 100, 100): the profit
    margin is 30 percent, where the ratio of the sums would be 110/3. *)
Lemma profit_margin_two_rows :
  Forall (fun r => ~ (r == 0)%Q) [100; 200]%Q /\
  (forall summary self',
      generate_basic_report Qsqrt12 (holding two_rows) = (Ok summary, self') ->
      dict_get summary "profit_margin_avg" = Some (PNum (Fin 30)) /\
      dict_get summary "expense_ratio_avg" = Some (PNum (Fin 70))) /\
  (exists summary self',
      generate_basic_report Qsqrt12 (holding two_rows) = (Ok summary, self')) /\
  ratio_of_sums [10; 100]%Q [100; 200]%Q = Fin (110 # 3).
Proof.
  assert (Hrev : Forall (fun r => ~ (r == 0)%Q) [100; 200]%Q)
    by (repeat constructor; discriminate).
  destruct (@profit_margin_is_mean_of_ratios Qsqrt12 (holding two_rows) two_rows
              (StrCol ["A"; "B"]%string) [100; 200]%Q [90; 100]%Q [10; 100]%Q
              eq_refl eq_refl eq_refl eq_refl eq_refl Hrev) as (Hvalue & Hreturns).
  split; [exact Hrev|]. split; [exact Hvalue|]. split; [exact (Hreturns I)|].
  reflexivity.
Defined.



(** ** get_sector_analysis *)

(** C7.  Without a Sector column [get_sector_analysis] returns the empty
    frame and raises nothing. *)
Theorem sector_analysis_without_sector (self : generator) (df : DataFrame) :
  data self = Some df ->
  has_column df "Sector" = false ->
  get_sector_analysis self = (Ok [], self).
Proof.
  intros Hd Hs. unfold get_sector_analysis. now rewrite Hd, Hs.
Qed.

Lemma sector_analysis_two_rows :
  get_sector_analysis (holding two_rows) = (Ok [], holding two_rows).
Proof.
  apply (@sector_analysis_without_sector (holding two_rows) two_rows); reflexivity.
Defined.

(** ** identify_top_performers *)

Section TopPerformers.

Local Open Scope string_scope.

Lemma columns_take_rows (idx : list nat) (df : DataFrame) :
  columns (take_rows idx df) = columns df.
Proof.
  unfold columns, take_rows. rewrite map_map. reflexivity.
Qed.

Lemma has_column_take_rows (idx : list nat) (df : DataFrame) (name : string) :
  has_column (take_rows idx df) name = has_column df name.
Proof. unfold has_column. now rewrite columns_take_rows. Qed.

Lemma has_column_getitem (df : DataFrame) (name : string) :
  has_column df name = true -> exists c, getitem df name = Ok c /\ df_get df name = Some c.
Proof.
  rewrite has_column_df_get. unfold getitem.
  destruct (df_get df name); [eauto | discriminate].
Qed.

(** Selecting the five columns of a frame that has the four required ones
    but no Sector. *)
Lemma select_without_sector (df : DataFrame) :
  (forall c, In c required_columns -> has_column df c = true) ->
  has_column df "Sector" = false ->
  select df ["Company"; "Revenue"; "Expenses"; "Net_Income"; "Sector"]
  = Raise (KeyError ["Sector"]).
Proof.
  intros Hreq Hs. unfold select. cbn [filter].
  rewrite !Hreq, Hs by (simpl; auto 6). reflexivity.
Qed.

(** C10.  On a table with the four required columns and no Sector column
    [identify_top_performers] raises whatever the metric is; for a numeric
    metric it is the selection of Sector that raises. *)
Theorem top_performers_needs_sector (self : generator) (df : DataFrame)
    (metric : string) (top_n : Z) :
  data self = Some df ->
  (forall c, In c required_columns -> has_column df c = true) ->
  has_column df "Sector" = false ->
  (exists e, identify_top_performers metric top_n self = (Raise e, self)) /\
  (numeric_column df metric ->
   identify_top_performers metric top_n self = (Raise (KeyError ["Sector"]), self)).
Proof.
  intros Hd Hreq Hs.
  assert (Hsel : forall idx,
             select (take_rows idx df)
               ["Company"; "Revenue"; "Expenses"; "Net_Income"; "Sector"]
             = Raise (KeyError ["Sector"])).
  { intros idx. apply select_without_sector.
    - intros c Hc. rewrite has_column_take_rows. auto.
    - now rewrite has_column_take_rows. }
  unfold identify_top_performers, top_performers, nlargest. rewrite Hd. split.
  - destruct (has_column df metric) eqn:Hm; cbn [negb]; [|eauto].
    destruct (has_column_getitem _ _ Hm) as (c & -> & _). cbn [rbind].
    destruct c; cbn [rbind]; rewrite ?Hsel; cbn [rbind]; eauto.
  - intros (vs & Hvs).
    rewrite (has_column_Some _ _ Hvs), (getitem_Some _ _ Hvs). cbn [negb rbind].
    now rewrite Hsel.
Qed.

End TopPerformers.

Lemma top_performers_two_rows :
  identify_top_performers "Net_Income" 5 (holding two_rows)
  = (Raise (KeyError ["Sector"%string]), holding two_rows).
Proof.
  apply (@top_performers_needs_sector (holding two_rows) two_rows "Net_Income" 5).
  - reflexivity.
  - intros c Hc. simpl in Hc.
    destruct Hc as [<-|[<-|[<-|[<-|[]]]]]; reflexivity.
  - reflexivity.
  - exists (map Fin [10; 100]%Q). reflexivity.
Defined.

(** ** generate_risk_assessment *)

Lemma df_get_setitem_same (df : DataFrame) (name : string) (c : column) :
  df_get (setitem df name c) name = Some c.
Proof.
  induction df as [|[n c'] df IH]; simpl.
  - now rewrite String.eqb_refl.
  - destruct (String.eqb n name) eqn:E; simpl.
    + now rewrite String.eqb_refl.
    + now rewrite E.
Qed.

Lemma df_get_setitem_other (df : DataFrame) (name other : string) (c : column) :
  name <> other -> df_get (setitem df name c) other = df_get df other.
Proof.
  intros Hne. induction df as [|[n c'] df IH]; simpl.
  - apply String.eqb_neq in Hne. now rewrite Hne.
  - destruct (String.eqb n name) eqn:E; simpl.
    + apply String.eqb_eq in E. subst n.
      apply String.eqb_neq in Hne. now rewrite Hne.
    + now rewrite IH.
Qed.

Lemma has_column_setitem (df : DataFrame) (name other : string) (c : column) :
  has_column df other = true -> has_column (setitem df name c) other = true.
Proof.
  rewrite !has_column_df_get.
  destruct (String.eqb name other) eqn:E.
  - apply String.eqb_eq in E. subst. now rewrite df_get_setitem_same.
  - apply String.eqb_neq in E. now rewrite df_get_setitem_other.
Qed.

Lemma has_column_setitem_same (df : DataFrame) (name : string) (c : column) :
  has_column (setitem df name c) name = true.
Proof. now rewrite has_column_df_get, df_get_setitem_same. Qed.

Lemma columns_setitem_new (df : DataFrame) (name : string) (c : column) :
  has_column df name = false -> columns (setitem df name c) = (columns df ++ [name])%list.
Proof.
  unfold has_column, columns. induction df as [|[n c'] df IH]; simpl; [reflexivity|].
  rewrite String.eqb_sym. destruct (String.eqb n name); simpl; [discriminate|].
  intros H. now rewrite IH.
Qed.

(** ** load_data *)

Lemma df_get_In (df : DataFrame) (name : string) (c : column) :
  df_get df name = Some c -> In (name, c) df.
Proof.
  induction df as [|[n c'] df IH]; simpl; [discriminate|].
  destruct (String.eqb n name) eqn:E.
  - apply String.eqb_eq in E. inversion 1. subst. auto.
  - auto.
Qed.

Lemma parsed_loaded (df : DataFrame) : parsed df -> loaded df.
Proof. intros Hp name vs H. apply df_get_In in H. now apply Hp in H. Qed.

Lemma setitem_Date_loaded (df : DataFrame) (datetimes : list Z) :
  parsed df -> loaded (setitem df "Date" (DateCol datetimes)).
Proof.
  intros Hp name vs H.
  destruct (String.eqb "Date" name) eqn:E.
  - apply String.eqb_eq in E. now subst.
  - apply String.eqb_neq in E. rewrite df_get_setitem_other in H by assumption.
    apply df_get_In in H. now apply Hp in H.
Qed.

(** Whatever [load_data] returns or raises once the file is parsed, the
    table it has stored holds datetimes in the column Date only. *)
Lemma load_data_loaded (read_csv : string -> string + DataFrame)
    (to_datetime : column -> string + list Z)
    (filepath : string) (parsed_file : DataFrame) (self : generator) :
  read_csv filepath = inr parsed_file ->
  parsed parsed_file ->
  exists df,
    data (snd (load_data read_csv to_datetime filepath self)) = Some df /\ loaded df.
Proof.
  intros Hread Hp. unfold load_data. rewrite Hread.
  set (df := map (fun nc : string * column => (strip (fst nc), snd nc)) parsed_file).
  assert (Hdf : parsed df).
  { intros name vs Hin. apply in_map_iff in Hin as ([n c] & Heq & Hin).
    inversion Heq; subst. now apply Hp in Hin. }
  destruct (has_column df "Date"); [|exists df; split; [reflexivity | now apply parsed_loaded]].
  destruct (df_get df "Date") as [date|];
    [|exists df; split; [reflexivity | now apply parsed_loaded]].
  destruct (to_datetime date) as [e|datetimes]; cbn [snd data].
  - exists df. split; [reflexivity | now apply parsed_loaded].
  - eexists. split; [reflexivity | now apply setitem_Date_loaded].
Qed.

Section RiskAssessment.

Variable qsqrt : Q -> Q.

Local Open Scope string_scope.

(** What a call that returns has computed and stored. *)
Lemma risk_assessment_Ok (self self' : generator) (r : dict) :
  generate_risk_assessment qsqrt self = (Ok r, self') ->
  exists df debt vol,
    data self = Some df /\
    debt_to_revenue df = Ok debt /\
    volatility_score qsqrt (setitem df "Debt_to_Revenue" debt) = Ok vol /\
    self' = {| data := Some (setitem (setitem df "Debt_to_Revenue" debt)
                                     "Volatility_Score" vol);
               report_summary := report_summary self |}.
Proof.
  unfold generate_risk_assessment.
  destruct (data self) as [df|]; [|discriminate].
  destruct (debt_to_revenue df) as [debt|] eqn:Ed; [|discriminate].
  destruct (volatility_score qsqrt _) as [vol|] eqn:Ev; [|discriminate].
  intros H. inversion H. exists df, debt, vol. repeat split; assumption.
Qed.

(** With Company present and the three amounts numeric the call returns;
    the dict and the stored table are as follows. *)
Lemma risk_assessment_numeric (self : generator) (df : DataFrame)
    (company : column) (rev exp ni : list num) :
  data self = Some df ->
  df_get df "Company" = Some company ->
  df_get df "Revenue" = Some (NumCol rev) ->
  df_get df "Expenses" = Some (NumCol exp) ->
  df_get df "Net_Income" = Some (NumCol ni) ->
  let debt := zip_with ndiv exp rev in
  let high := map (fun x => ngtb x high_debt_threshold) debt in
  let low := lt_mask (zip_with ndiv ni rev) low_margin_threshold in
  generate_risk_assessment qsqrt self
  = (Ok [ ("high_debt_companies", PInt (count_true high));
          ("low_profit_margin_companies", PInt (count_true low));
          ("average_volatility", PNum (series_mean (volatility qsqrt ni)));
          ("companies_at_risk",
           PList (map snd (filter (fun p => fst p)
                             (combine (zip_with orb high low) (cells company))))) ],
     {| data := Some (setitem (setitem df "Debt_to_Revenue" (NumCol debt))
                              "Volatility_Score" (NumCol (volatility qsqrt ni)));
        report_summary := report_summary self |}).
Proof.
  intros Hd Hc Hr He Hn debt high low.
  unfold generate_risk_assessment, debt_to_revenue. rewrite Hd.
  rewrite (getitem_Some _ _ He), (getitem_Some _ _ Hr). cbn [rbind col_div].
  fold debt.
  set (df1 := setitem df "Debt_to_Revenue" (NumCol debt)).
  assert (Hn1 : df_get df1 "Net_Income" = Some (NumCol ni))
    by (unfold df1; rewrite df_get_setitem_other; [assumption | discriminate]).
  unfold volatility_score. rewrite (getitem_Some _ _ Hn1).
  cbn [rbind col_mean col_std]. fold (volatility qsqrt ni).
  set (df2 := setitem df1 "Volatility_Score" (NumCol (volatility qsqrt ni))).
  assert (H2 : forall name c, df_get df name = Some c ->
                 name <> "Debt_to_Revenue" -> name <> "Volatility_Score" ->
                 getitem df2 name = Ok c).
  { intros name c H H1 H2. apply getitem_Some. unfold df2, df1.
    rewrite !df_get_setitem_other by congruence. assumption. }
  assert (Hdebt : getitem df2 "Debt_to_Revenue" = Ok (NumCol debt)).
  { apply getitem_Some. unfold df2, df1.
    rewrite df_get_setitem_other by discriminate. apply df_get_setitem_same. }
  assert (Hvol : getitem df2 "Volatility_Score" = Ok (NumCol (volatility qsqrt ni))).
  { apply getitem_Some. unfold df2. apply df_get_setitem_same. }
  unfold risk_dict, masked_tolist.
  rewrite Hdebt, Hvol.
  rewrite (H2 _ _ Hn), (H2 _ _ Hr), (H2 _ _ Hc) by discriminate.
  reflexivity.
Qed.

(** Every method keeps the columns the stored table has. *)
Lemma after_keeps_column (c : call) (self : generator) (name : string) :
  stores_column self name -> stores_column (after qsqrt c self) name.
Proof.
  intros (df & Hd & Hname). unfold stores_column.
  destruct c; cbn [after].
  - unfold generate_basic_report. rewrite Hd.
    destruct (basic_summary qsqrt df); cbn [snd data]; eauto.
  - unfold get_company_insights. rewrite Hd. cbn [snd]. eauto.
  - unfold get_sector_analysis. rewrite Hd.
    destruct (negb _); cbn [snd]; eauto.
  - unfold identify_top_performers. rewrite Hd. cbn [snd]. eauto.
  - unfold generate_risk_assessment. rewrite Hd.
    destruct (debt_to_revenue df) as [debt|]; cbn [snd]; [|eauto].
    destruct (volatility_score qsqrt _) as [vol|]; cbn [snd data];
      eexists; (split; [reflexivity|]); auto using has_column_setitem.
Qed.

Lemma after_all_keeps_column (calls : list call) (self : generator) (name : string) :
  stores_column self name -> stores_column (after_all qsqrt calls self) name.
Proof.
  revert self. unfold after_all.
  induction calls as [|c calls IH]; intros self H; cbn [fold_left]; [assumption|].
  apply IH, after_keeps_column, H.
Qed.

(** C9.  The report, the company insights and the sector analysis leave the
    stored table as it is.  A risk assessment that returns has written the
    columns Debt_to_Revenue and Volatility_Score into it (appended, in this
    order, when the table had neither), and whatever is called on the
    generator afterwards works on a table that has both.  It returns
    whenever Company is there and the three amounts are numbers. *)
Theorem risk_assessment_mutates_data (self : generator) :
  data (snd (generate_basic_report qsqrt self)) = data self /\
  data (snd (get_company_insights self)) = data self /\
  data (snd (get_sector_analysis self)) = data self /\
  (forall r self',
      generate_risk_assessment qsqrt self = (Ok r, self') ->
      exists df df',
        data self = Some df /\ data self' = Some df' /\
        (has_column df "Debt_to_Revenue" = false ->
         has_column df "Volatility_Score" = false ->
         columns df' = (columns df ++ ["Debt_to_Revenue"; "Volatility_Score"])%list) /\
        forall calls,
          stores_column (after_all qsqrt calls self') "Debt_to_Revenue" /\
          stores_column (after_all qsqrt calls self') "Volatility_Score") /\
  (forall df company rev exp ni,
      data self = Some df ->
      df_get df "Company" = Some company ->
      df_get df "Revenue" = Some (NumCol rev) ->
      df_get df "Expenses" = Some (NumCol exp) ->
      df_get df "Net_Income" = Some (NumCol ni) ->
      exists r self', generate_risk_assessment qsqrt self = (Ok r, self')).
Proof.
  repeat split.
  - unfold generate_basic_report.
    destruct (data self) as [df|] eqn:Hd; [|exact Hd].
    destruct (basic_summary qsqrt df); cbn [snd data]; auto.
  - unfold get_company_insights.
    destruct (data self) as [df|] eqn:Hd; exact Hd.
  - unfold get_sector_analysis.
    destruct (data self) as [df|] eqn:Hd; [|exact Hd].
    destruct (negb _); exact Hd.
  - intros r self' H.
    apply risk_assessment_Ok in H as (df & debt & vol & Hd & _ & _ & ->).
    exists df. eexists. split; [assumption|]. split; [reflexivity|]. split.
    + intros H1 H2.
      rewrite columns_setitem_new, columns_setitem_new, <- app_assoc; auto.
      rewrite has_column_df_get, df_get_setitem_other by discriminate.
      now rewrite <- has_column_df_get.
    + intros calls. split; apply after_all_keeps_column; eexists;
        (split; [reflexivity|]).
      * apply has_column_setitem, has_column_setitem_same.
      * apply has_column_setitem_same.
  - intros df company rev exp ni Hd Hc Hr He Hn.
    rewrite (risk_assessment_numeric _ Hd Hc Hr He Hn). eauto.
Qed.

(** *** Zero deviation *)

Local Open Scope Q_scope.

Lemma Qeq_0_num (q : Q) : q == 0 -> Qnum q = 0%Z.
Proof. unfold Qeq. simpl. lia. Qed.











(** The square root is zero at zero only. *)
Hypothesis qsqrt_zero : forall q, 0 <= q -> qsqrt q == 0 -> q == 0.




End RiskAssessment.



(** C9 on the two rows: the columns of the stored table after a risk
    assessment, and after two more calls. *)
Lemma risk_assessment_mutates_two_rows :
  exists r self' df',
    generate_risk_assessment Qsqrt12 (holding two_rows) = (Ok r, self') /\
    data self' = Some df' /\
    columns df'
    = [ "Company"; "Revenue"; "Expenses"; "Net_Income";
        "Debt_to_Revenue"; "Volatility_Score" ]%string /\
    stores_column
      (after_all Qsqrt12 [call_company_insights; call_basic_report] self')
      "Debt_to_Revenue" /\
    stores_column
      (after_all Qsqrt12 [call_company_insights; call_basic_report] self')
      "Volatility_Score".
Proof.
  destruct (@risk_assessment_mutates_data Qsqrt12 (holding two_rows))
    as (_ & _ & _ & H & _).
  destruct (generate_risk_assessment Qsqrt12 (holding two_rows)) as [[r|e] self'] eqn:E;
    [|discriminate E].
  destruct (H r self' eq_refl) as (df & df' & Hd & Hd' & Hcols & Hkeep).
  exists r, self', df'. split; [reflexivity|]. split; [assumption|].
  inversion Hd; subst df. split.
  - apply Hcols; reflexivity.
  - apply Hkeep.
Defined.

(** ** get_company_insights *)

(** ** Values shown to two decimals *)

Lemma round_half_even_near (x : Q) :
  (Qabs (inject_Z (round_half_even x) - x) <= 1 # 2)%Q.
Proof.
  unfold round_half_even.
  pose proof (Qfloor_le x) as Hlo. pose proof (Qlt_floor x) as Hhi.
  rewrite inject_Z_plus in Hhi. change (inject_Z 1) with 1%Q in Hhi.
  set (f := Qfloor x) in *.
  apply Qabs_Qle_condition.
  destruct (Qcompare (x - inject_Z f) (1 # 2))%Q eqn:E.
  - apply Qeq_alt in E.
    destruct (Z.even f); rewrite ?inject_Z_plus; change (inject_Z 1) with 1%Q;
      split; lra.
  - apply Qlt_alt in E. split; lra.
  - apply Qgt_alt in E. rewrite inject_Z_plus. change (inject_Z 1) with 1%Q.
    split; lra.
Qed.

Lemma to_two_decimals_round2 (q x : Q) :
  (q == x)%Q -> to_two_decimals x (round2 (Fin q)).
Proof.
  intros Hq. exists (round_half_even (q * 100)%Q). split; [reflexivity|].
  pose proof (round_half_even_near (q * 100)%Q) as H.
  apply Qabs_Qle_condition in H. apply Qabs_Qlt_condition.
  rewrite <- Hq.
  change (inject_Z (round_half_even (q * 100)) / 100)%Q
    with (inject_Z (round_half_even (q * 100)) * (1 # 100))%Q.
  split; lra.
Qed.

Lemma to_two_decimals_percent (n r : Q) :
  ~ (r == 0)%Q -> to_two_decimals (100 * n / r)%Q (percent_ratio (Fin n) (Fin r)).
Proof.
  intros Hr. unfold percent_ratio, ndiv.
  destruct (Qeq_bool r 0) eqn:E; [apply Qeq_bool_iff in E; contradiction|].
  cbn [nmul hundred of_Z]. apply to_two_decimals_round2.
  rewrite !Qred_correct. field. exact Hr.
Qed.

Lemma rows_of_map {A B} (f : A -> B) (companies : list string) (name : string)
    (vs : list A) :
  rows_of companies name (map f vs) = map f (rows_of companies name vs).
Proof.
  unfold rows_of. revert vs.
  induction companies as [|c l IH]; intros [|v vs]; simpl; try reflexivity.
  destruct (String.eqb c name); simpl; now rewrite IH.
Qed.

(** The rounded sum of a group of finite amounts. *)
Lemma rounded_sum_two_decimals (qs : list Q) :
  exists n, round2 (series_sum (map Fin qs)) = Fin n /\
            to_two_decimals (Qsum qs) (Fin n).
Proof.
  rewrite series_sum_Fin.
  destruct (@to_two_decimals_round2 (Qred (Qsum qs)) (Qsum qs) (Qred_correct _))
    as (k & Hk & Hnear).
  exists (Qred (inject_Z k / 100)). split; [exact Hk|].
  exists k. split; [reflexivity | exact Hnear].
Qed.

Section CompanyInsights.

Local Open Scope string_scope.

Lemma insert_sorted_perm {A} (leb : A -> A -> bool) (x : A) (l : list A) :
  Permutation (insert_sorted leb x l) (x :: l).
Proof.
  induction l as [|y l IH]; simpl; [reflexivity|].
  destruct (leb x y); [reflexivity|].
  rewrite IH. apply perm_swap.
Qed.

Lemma sort_by_perm {A} (leb : A -> A -> bool) (l : list A) :
  Permutation (sort_by leb l) l.
Proof.
  unfold sort_by. induction l as [|x l IH]; simpl; [reflexivity|].
  rewrite insert_sorted_perm. now constructor.
Qed.

Lemma dedup_In (l : list string) (x : string) :
  In x (dedup String.eqb l) <-> In x l.
Proof.
  induction l as [|a l IH]; simpl; [reflexivity|].
  rewrite filter_In, IH. split.
  - intros [H|[H _]]; auto.
  - intros [H|H]; [auto|].
    destruct (String.eqb a x) eqn:E; [left; now apply String.eqb_eq|auto].
Qed.

Lemma dedup_NoDup (l : list string) : NoDup (dedup String.eqb l).
Proof.
  induction l as [|a l IH]; simpl; constructor.
  - rewrite filter_In, String.eqb_refl. intros [_ H]. discriminate.
  - now apply NoDup_filter.
Qed.

Lemma filter_map_CStr (f : cell -> bool) (l : list string) :
  filter f (map CStr l) = map CStr (filter (fun s => f (CStr s)) l).
Proof.
  induction l as [|a l IH]; simpl; [reflexivity|].
  destruct (f (CStr a)); simpl; now rewrite IH.
Qed.

Lemma dedup_CStr (l : list string) :
  dedup cell_eqb (map CStr l) = map CStr (dedup String.eqb l).
Proof.
  induction l as [|a l IH]; simpl; [reflexivity|].
  now rewrite IH, filter_map_CStr.
Qed.

Lemma insert_sorted_CStr (x : string) (l : list string) :
  insert_sorted cell_leb (CStr x) (map CStr l)
  = map CStr (insert_sorted String.leb x l).
Proof.
  induction l as [|y l IH]; simpl; [reflexivity|].
  destruct (String.leb x y); simpl; [reflexivity | now rewrite IH].
Qed.

Lemma sort_by_CStr (l : list string) :
  sort_by cell_leb (map CStr l) = map CStr (sort_by String.leb l).
Proof.
  unfold sort_by. induction l as [|x l IH]; simpl; [reflexivity|].
  now rewrite IH, insert_sorted_CStr.
Qed.

(** The group keys of a column of names: the distinct names, sorted. *)
Lemma group_keys_StrCol (companies : list string) :
  group_keys (StrCol companies)
  = map CStr (sort_by String.leb (dedup String.eqb companies)).
Proof.
  unfold group_keys. cbn [cells].
  rewrite filter_map_CStr. cbn [cell_notna].
  replace (filter (fun _ : string => true) companies) with companies.
  - now rewrite dedup_CStr, sort_by_CStr.
  - induction companies as [|a l IH]; simpl; congruence.
Qed.

Lemma key_column_StrCol (companies names : list string) :
  key_column (StrCol companies) (map CStr names) = StrCol names.
Proof.
  unfold key_column. f_equal.
  induction names as [|a l IH]; simpl; congruence.
Qed.

Lemma group_of_CStr {A} (companies : list string) (name : string) (vs : list A) :
  group_of (map CStr companies) (CStr name) vs = rows_of companies name vs.
Proof.
  unfold group_of, rows_of.
  revert vs. induction companies as [|c l IH]; intros [|v vs]; simpl; try reflexivity.
  destruct (String.eqb c name); simpl; now rewrite IH.
Qed.

Lemma zip_with_map {A B C D} (h : B -> C -> D) (f : A -> B) (g : A -> C) (l : list A) :
  zip_with h (map f l) (map g l) = map (fun x => h (f x) (g x)) l.
Proof. induction l as [|a l IH]; simpl; congruence. Qed.

(** The frame of insights on a table whose amounts and market caps are
    numbers. *)
Lemma company_insights_numeric (df : DataFrame) (company : column)
    (rev exp ni mc : list num) :
  df_get df "Company" = Some company ->
  df_get df "Revenue" = Some (NumCol rev) ->
  df_get df "Expenses" = Some (NumCol exp) ->
  df_get df "Net_Income" = Some (NumCol ni) ->
  df_get df "Market_Cap" = Some (NumCol mc) ->
  let keys := cells company in
  let ks := group_keys company in
  let sum_of vs := map round2 (map (fun k => series_sum (group_of keys k vs)) ks) in
  let mean_of vs := map round2 (map (fun k => series_mean (group_of keys k vs)) ks) in
  let percent a b := map (fun x => round2 (nmul x hundred)) (zip_with ndiv a b) in
  company_insights df
  = Ok [ ("Company", key_column company ks);
         ("Revenue_sum", NumCol (sum_of rev));
         ("Revenue_mean", NumCol (mean_of rev));
         ("Expenses_sum", NumCol (sum_of exp));
         ("Expenses_mean", NumCol (mean_of exp));
         ("Net_Income_sum", NumCol (sum_of ni));
         ("Net_Income_mean", NumCol (mean_of ni));
         ("Market_Cap_mean", NumCol (mean_of mc));
         ("Profit_Margin", NumCol (percent (sum_of ni) (sum_of rev)));
         ("Expense_Ratio", NumCol (percent (sum_of exp) (sum_of rev))) ].
Proof.
  intros Hc Hr He Hn Hm keys ks sum_of mean_of percent.
  unfold company_insights, groupby_agg.
  rewrite (getitem_Some _ _ Hc). cbn [rbind map fst filter].
  rewrite (has_column_Some _ _ Hr), (has_column_Some _ _ He),
    (has_column_Some _ _ Hn), (has_column_Some _ _ Hm).
  cbn [negb agg_columns].
  rewrite (getitem_Some _ _ Hr), (getitem_Some _ _ He), (getitem_Some _ _ Hn),
    (getitem_Some _ _ Hm).
  reflexivity.
Qed.

(** What the optional Market_Cap column is worth: without it the
    aggregation is refused, because the label is still in the spec handed to
    [agg]. *)
Lemma company_insights_without_market_cap (self : generator) (df : DataFrame) :
  data self = Some df ->
  (forall c, In c required_columns -> has_column df c = true) ->
  has_column df "Market_Cap" = false ->
  get_company_insights self = (Raise (KeyError ["Market_Cap"]), self).
Proof.
  intros Hd Hreq Hm. unfold get_company_insights, company_insights, groupby_agg.
  rewrite Hd.
  destruct (has_column_getitem df "Company") as (c & -> & _);
    [apply Hreq; simpl; auto|].
  cbn [rbind map fst filter].
  rewrite !Hreq, Hm by (simpl; auto 6). reflexivity.
Qed.


End CompanyInsights.



(** ** The narrator *)

Section NarratorFacts.

Variable repr : pyval -> string.
Variable chat_completion : string -> string -> Z -> Q -> string + string.

Lemma map_result_length {A B} (f : A -> result B) (l : list A) (ys : list B) :
  map_result f l = Ok ys -> List.length ys = List.length l.
Proof.
  revert ys. induction l as [|x l IH]; intros ys; simpl.
  - now inversion 1.
  - destruct (f x) as [y|]; simpl; [|discriminate].
    destruct (map_result f l) as [ys'|]; simpl; [|discriminate].
    inversion 1. simpl. f_equal. now apply IH.
Qed.

Lemma firstn_idem {A} (n : nat) (l : list A) : firstn n (firstn n l) = firstn n l.
Proof. now rewrite firstn_firstn, Nat.min_id. Qed.

End NarratorFacts.

(** C8.  The sector insights at eleven sectors: the text sent has eleven
    lines, the last one for the eleventh sector, and is not the text that
    the first ten sectors give.  The list of sectors is not cut to ten
    before it is embedded, as the lists of companies, of performers and of
    companies at risk are cut (lines 62, 173 and 139). *)
Lemma eleven_sectors_are_embedded :
  sector_info no_repr eleven_sectors
  <> sector_info no_repr (firstn 10 eleven_sectors) /\
  exists lines,
    map_result (sector_line no_repr) eleven_sectors = Ok lines /\
    sector_info no_repr eleven_sectors = Ok (String.concat nl lines) /\
    List.length lines = 11%nat /\
    nth 10 lines EmptyString
    = "- S11: Total Revenue $1,500,000, Companies: 1, Avg Profit Margin: 20.0%"%string.
Proof.
  split.
  - intros H.
    apply (f_equal (fun r => match r with
                             | Ok text => String.length text
                             | Raise _ => O
                             end)) in H.
    vm_compute in H. discriminate H.
  - eexists. split; [reflexivity|]. split; [reflexivity|]. split; reflexivity.
Qed.

(** * Further properties of the aggregator *)

(** ** Calls before any table is loaded *)

(** X1. Without a loaded table the report, the insights, the ranking and the
    risk assessment raise the same ValueError, the sector analysis returns
    the empty frame, and none of them touches the generator. *)
Theorem methods_without_data (qsqrt : Q -> Q) (self : generator) :
  data self = None ->
  generate_basic_report qsqrt self = (Raise no_data, self) /\
  get_company_insights self = (Raise no_data, self) /\
  (forall metric top_n,
      identify_top_performers metric top_n self = (Raise no_data, self)) /\
  generate_risk_assessment qsqrt self = (Raise no_data, self) /\
  get_sector_analysis self = (Ok [], self).
Proof.
  intros Hd.
  unfold generate_basic_report, get_company_insights, identify_top_performers,
    generate_risk_assessment, get_sector_analysis.
  rewrite Hd. repeat split.
Qed.

Lemma methods_on_new_generator :
  generate_basic_report Qsqrt12 init = (Raise no_data, init) /\
  get_company_insights init = (Raise no_data, init) /\
  (forall metric top_n,
      identify_top_performers metric top_n init = (Raise no_data, init)) /\
  generate_risk_assessment Qsqrt12 init = (Raise no_data, init) /\
  get_sector_analysis init = (Ok [], init).
Proof.
  exact (@methods_without_data Qsqrt12 init eq_refl).
Defined.

(** ** The optional Market_Cap column *)

Section MarketCap.

Local Open Scope string_scope.

(** X2. On a table with the four required columns and no Market_Cap column
    [get_company_insights] raises a KeyError for Market_Cap: the label stays
    in the dict handed to [agg], whatever function stands behind it. *)
Theorem company_insights_need_market_cap (self : generator) (df : DataFrame) :
  data self = Some df ->
  (forall c, In c required_columns -> has_column df c = true) ->
  has_column df "Market_Cap" = false ->
  get_company_insights self = (Raise (KeyError ["Market_Cap"]), self).
Proof.
  exact (@company_insights_without_market_cap self df).
Qed.

(** X3. On a table with Sector, Revenue and Net_Income columns and no
    Market_Cap column [get_sector_analysis] raises a KeyError for
    Market_Cap, for the same reason. *)
Theorem sector_analysis_needs_market_cap (self : generator) (df : DataFrame) :
  data self = Some df ->
  has_column df "Sector" = true ->
  has_column df "Revenue" = true ->
  has_column df "Net_Income" = true ->
  has_column df "Market_Cap" = false ->
  get_sector_analysis self = (Raise (KeyError ["Market_Cap"]), self).
Proof.
  intros Hd Hs Hr Hn Hm. unfold get_sector_analysis, sector_analysis, groupby_agg.
  rewrite Hd, Hs. cbn [negb].
  destruct (has_column_getitem df "Sector" Hs) as (c & -> & _).
  cbn [rbind map fst filter].
  rewrite Hr, Hn, Hm. reflexivity.
Qed.

End MarketCap.

Lemma company_insights_two_rows :
  get_company_insights (holding two_rows)
  = (Raise (KeyError ["Market_Cap"%string]), holding two_rows).
Proof.
  apply (@company_insights_need_market_cap (holding two_rows) two_rows).
  - reflexivity.
  - intros c Hc. simpl in Hc.
    destruct Hc as [<-|[<-|[<-|[<-|[]]]]]; reflexivity.
  - reflexivity.
Defined.

Lemma sector_analysis_no_market_cap :
  get_sector_analysis (holding no_market_cap)
  = (Raise (KeyError ["Market_Cap"%string]), holding no_market_cap).
Proof.
  apply (@sector_analysis_needs_market_cap (holding no_market_cap) no_market_cap);
    reflexivity.
Defined.

(** ** Rows of the grouped frames *)

Section GroupedRows.

Local Open Scope string_scope.

Lemma length_sort_by {A} (leb : A -> A -> bool) (l : list A) :
  List.length (sort_by leb l) = List.length l.
Proof. apply Permutation_length, sort_by_perm. Qed.

Lemma filter_length_all {A} (f : A -> bool) (l : list A) :
  List.length (filter f l) = List.length l -> forall x, In x l -> f x = true.
Proof.
  induction l as [|a l IH]; simpl; [contradiction|].
  pose proof (filter_length_le f l) as Hle.
  destruct (f a) eqn:E; simpl; intros Hlen x [<-|Hx]; auto; lia.
Qed.

Lemma filter_all {A} (f : A -> bool) (l : list A) :
  (forall x, In x l -> f x = true) -> filter f l = l.
Proof.
  induction l as [|a l IH]; simpl; intros H; [reflexivity|].
  rewrite (H a) by auto. f_equal. auto.
Qed.

Lemma dedup_length_le (l : list string) :
  (List.length (dedup String.eqb l) <= List.length l)%nat.
Proof.
  induction l as [|a l IH]; simpl; [lia|].
  pose proof (filter_length_le (fun y => negb (String.eqb a y)) (dedup String.eqb l)).
  lia.
Qed.

(** Nothing is dropped exactly when the names are pairwise distinct. *)
Lemma dedup_length_NoDup (l : list string) :
  List.length (dedup String.eqb l) = List.length l <-> NoDup l.
Proof.
  induction l as [|a l IH]; simpl.
  - split; [constructor | reflexivity].
  - pose proof (filter_length_le (fun y => negb (String.eqb a y)) (dedup String.eqb l)) as H1.
    pose proof (dedup_length_le l) as H2.
    split.
    + intros H. assert (Hf : List.length (filter (fun y => negb (String.eqb a y))
                                            (dedup String.eqb l))
                             = List.length (dedup String.eqb l)) by lia.
      constructor.
      * intros Hin. apply (proj2 (dedup_In _ _)) in Hin.
        pose proof (filter_length_all _ _ Hf a Hin) as Ha. cbv beta in Ha.
        rewrite String.eqb_refl in Ha. discriminate.
      * apply IH. lia.
    + intros H. apply NoDup_cons_iff in H as [Hnotin Hnd].
      rewrite filter_all.
      * f_equal. now apply IH.
      * intros x Hx. apply (proj1 (dedup_In _ _)) in Hx.
        destruct (String.eqb a x) eqn:E; [|reflexivity].
        apply String.eqb_eq in E. rewrite <- E in Hx. contradiction.
Qed.

(** X4. [get_company_insights] returns as many rows as there are distinct
    company names: never more than the table has, and as many as the table
    has exactly when no name occurs twice (which is what the count check of
    the test script, test_examples.py line 116, expects). *)
Theorem company_insights_row_count (self : generator) (df : DataFrame)
    (companies : list string) (rev exp ni mc : list num) :
  data self = Some df ->
  df_get df "Company" = Some (StrCol companies) ->
  df_get df "Revenue" = Some (NumCol rev) ->
  df_get df "Expenses" = Some (NumCol exp) ->
  df_get df "Net_Income" = Some (NumCol ni) ->
  df_get df "Market_Cap" = Some (NumCol mc) ->
  exists insights rows,
    get_company_insights self = (Ok insights, self) /\
    frame_rows insights rows /\
    rows = List.length (dedup String.eqb companies) /\
    (rows <= List.length companies)%nat /\
    (rows = List.length companies <-> NoDup companies).
Proof.
  intros Hd Hc Hr He Hn Hm.
  eexists. exists (List.length (dedup String.eqb companies)).
  unfold get_company_insights. rewrite Hd.
  rewrite (company_insights_numeric _ Hc Hr He Hn Hm).
  split; [reflexivity|].
  rewrite group_keys_StrCol, key_column_StrCol.
  split; [|split; [reflexivity|split; [apply dedup_length_le|apply dedup_length_NoDup]]].
  unfold frame_rows.
  repeat (apply Forall_cons || apply Forall_nil); cbn [snd col_len];
    rewrite ?map_map, ?zip_with_map, ?length_map, ?length_sort_by; reflexivity.
Qed.

(** X5. The [total_companies] entry of the report and the number of rows of
    the company insights agree: both count the distinct company names. *)
Theorem total_companies_is_insight_rows (qsqrt : Q -> Q) (self : generator)
    (df : DataFrame) (companies : list string) (rev exp ni mc : list num) :
  data self = Some df ->
  df_get df "Company" = Some (StrCol companies) ->
  df_get df "Revenue" = Some (NumCol rev) ->
  df_get df "Expenses" = Some (NumCol exp) ->
  df_get df "Net_Income" = Some (NumCol ni) ->
  df_get df "Market_Cap" = Some (NumCol mc) ->
  exists summary insights self' rows,
    generate_basic_report qsqrt self = (Ok summary, self') /\
    get_company_insights self' = (Ok insights, self') /\
    frame_rows insights rows /\
    dict_get summary "total_companies" = Some (PInt (Z.of_nat rows)).
Proof.
  intros Hd Hc Hr He Hn Hm.
  assert (Hmc : market_cap_numeric df) by (unfold market_cap_numeric; now rewrite Hm).
  destruct (basic_summary_numeric qsqrt _ Hc Hr He Hn Hmc) as (extra & E).
  eexists. eexists.
  exists {| data := Some df;
            report_summary := (summary_head qsqrt (StrCol companies) rev exp ni
                               ++ extra)%list |}.
  exists (List.length (dedup String.eqb companies)).
  split; [unfold generate_basic_report; rewrite Hd, E; reflexivity|].
  unfold get_company_insights. cbn [data].
  rewrite (company_insights_numeric _ Hc Hr He Hn Hm).
  split; [reflexivity|].
  rewrite group_keys_StrCol, key_column_StrCol. split; [|reflexivity].
  unfold frame_rows.
  repeat (apply Forall_cons || apply Forall_nil); cbn [snd col_len];
    rewrite ?map_map, ?zip_with_map, ?length_map, ?length_sort_by; reflexivity.
Qed.

End GroupedRows.

Lemma company_insights_rows_repeated :
  exists insights,
    get_company_insights (holding repeated_company)
    = (Ok insights, holding repeated_company) /\
    frame_rows insights 2 /\
    ~ NoDup ["B"; "A"; "B"]%string.
Proof.
  destruct (@company_insights_row_count (holding repeated_company) repeated_company
              ["B"; "A"; "B"]%string _ _ _ _
              eq_refl eq_refl eq_refl eq_refl eq_refl eq_refl)
    as (insights & rows & Hcall & Hrows & Hcount & _ & Hiff).
  exists insights. split; [exact Hcall|].
  assert (Hr : rows = 2%nat) by (rewrite Hcount; reflexivity).
  split; [now rewrite <- Hr|].
  intros Hnd. apply Hiff in Hnd. rewrite Hr in Hnd. discriminate Hnd.
Defined.

Lemma total_companies_repeated :
  exists summary insights self' rows,
    generate_basic_report Qsqrt12 (holding repeated_company) = (Ok summary, self') /\
    get_company_insights self' = (Ok insights, self') /\
    frame_rows insights rows /\
    dict_get summary "total_companies" = Some (PInt (Z.of_nat rows)).
Proof.
  exact (@total_companies_is_insight_rows Qsqrt12 (holding repeated_company)
           repeated_company ["B"; "A"; "B"]%string _ _ _ _
           eq_refl eq_refl eq_refl eq_refl eq_refl eq_refl).
Defined.

(** ** get_sector_analysis *)

Section SectorAnalysis.

Local Open Scope string_scope.

Lemma round_half_even_comp (x y : Q) :
  (x == y)%Q -> round_half_even x = round_half_even y.
Proof.
  intros H. unfold round_half_even.
  rewrite (Qfloor_comp _ _ H).
  assert (Hc : Qcompare (x - inject_Z (Qfloor y)) (1 # 2)
               = Qcompare (y - inject_Z (Qfloor y)) (1 # 2))
    by (apply Qcompare_comp; [now rewrite H | reflexivity]).
  now rewrite Hc.
Qed.

Lemma round_half_even_Z (z : Z) : round_half_even (inject_Z z) = z.
Proof.
  unfold round_half_even. rewrite Qfloor_Z.
  assert (Hc : Qcompare (inject_Z z - inject_Z z) (1 # 2) = Lt)
    by (unfold Qminus; rewrite Qplus_opp_r; reflexivity).
  now rewrite Hc.
Qed.

(** Rounding to two decimals leaves a count as it is. *)
Lemma round2_of_nat (n : nat) : round2 (of_nat n) = of_nat n.
Proof.
  unfold round2, of_nat, of_Z. f_equal.
  rewrite (round_half_even_comp (y := inject_Z (Z.of_nat n * 100))).
  - rewrite round_half_even_Z.
    rewrite <- (Qcanon.Qred_identity (inject_Z (Z.of_nat n))) by apply Z.gcd_1_r.
    apply Qred_complete. rewrite inject_Z_mult. field.
  - now rewrite inject_Z_mult.
Qed.

(** The frame of the analysis on a table whose revenues, net incomes and
    market caps are numbers. *)
Lemma sector_analysis_numeric (df : DataFrame) (sector : column)
    (rev ni mc : list num) :
  df_get df "Sector" = Some sector ->
  df_get df "Revenue" = Some (NumCol rev) ->
  df_get df "Net_Income" = Some (NumCol ni) ->
  df_get df "Market_Cap" = Some (NumCol mc) ->
  let keys := cells sector in
  let ks := group_keys sector in
  let sum_of vs := map round2 (map (fun k => series_sum (group_of keys k vs)) ks) in
  let mean_of vs := map round2 (map (fun k => series_mean (group_of keys k vs)) ks) in
  let count_of vs :=
    map round2 (map (fun k => of_nat (series_count (group_of keys k vs))) ks) in
  let percent a b := map (fun x => round2 (nmul x hundred)) (zip_with ndiv a b) in
  sector_analysis df
  = Ok [ ("Sector", key_column sector ks);
         ("Revenue_sum", NumCol (sum_of rev));
         ("Revenue_mean", NumCol (mean_of rev));
         ("Revenue_count", NumCol (count_of rev));
         ("Net_Income_sum", NumCol (sum_of ni));
         ("Net_Income_mean", NumCol (mean_of ni));
         ("Market_Cap_sum", NumCol (sum_of mc));
         ("Avg_Profit_Margin", NumCol (percent (sum_of ni) (sum_of rev))) ].
Proof.
  intros Hs Hr Hn Hm keys ks sum_of mean_of count_of percent.
  unfold sector_analysis, groupby_agg.
  rewrite (getitem_Some _ _ Hs). cbn [rbind map fst filter].
  rewrite (has_column_Some _ _ Hr), (has_column_Some _ _ Hn),
    (has_column_Some _ _ Hm).
  cbn [negb agg_columns].
  rewrite (getitem_Some _ _ Hr), (getitem_Some _ _ Hn), (getitem_Some _ _ Hm).
  reflexivity.
Qed.

(** X6. On a table of finite amounts with Sector, Revenue, Net_Income and
    Market_Cap columns, the amounts being of a size that binary64 adds up to
    the cent, [get_sector_analysis] returns one row per distinct sector. Its
    Revenue_count is the number of rows of the sector, its Net_Income_sum
    and Revenue_sum show the sector's summed net income and revenue to two
    decimals, and its Avg_Profit_Margin shows to two decimals the quotient
    of these two entries of the row, times 100 (the revenue entry not being
    zero, the percentage below 2^32): a ratio of sums, not a mean of the
    rows' margins. To show a value to two decimals is to be a multiple of
    0.01 less than 0.01 away from it. *)
Theorem sector_analysis_one_row_per_sector (self : generator) (df : DataFrame)
    (sectors : list string) (rev ni : list Q) (mc : list num) :
  data self = Some df ->
  df_get df "Sector" = Some (StrCol sectors) ->
  df_get df "Revenue" = Some (NumCol (map Fin rev)) ->
  df_get df "Net_Income" = Some (NumCol (map Fin ni)) ->
  df_get df "Market_Cap" = Some (NumCol mc) ->
  summed_to_the_cent rev ->
  summed_to_the_cent ni ->
  exists names analysis income_sums revenue_sums margins,
    get_sector_analysis self = (Ok analysis, self) /\
    df_get analysis "Sector" = Some (StrCol names) /\
    NoDup names /\
    (forall c, In c names <-> In c sectors) /\
    frame_rows analysis (List.length names) /\
    df_get analysis "Revenue_count"
    = Some (NumCol (map (fun name => of_nat (List.length (rows_of sectors name rev)))
                        names)) /\
    df_get analysis "Net_Income_sum" = Some (NumCol income_sums) /\
    df_get analysis "Revenue_sum" = Some (NumCol revenue_sums) /\
    df_get analysis "Avg_Profit_Margin" = Some (NumCol margins) /\
    forall i name,
      nth_error names i = Some name ->
      exists n r p,
        nth_error income_sums i = Some (Fin n) /\
        nth_error revenue_sums i = Some (Fin r) /\
        nth_error margins i = Some p /\
        to_two_decimals (Qsum (rows_of sectors name ni)) (Fin n) /\
        to_two_decimals (Qsum (rows_of sectors name rev)) (Fin r) /\
        (~ (r == 0)%Q -> percent_to_the_cent (100 * n / r) ->
         to_two_decimals (100 * n / r)%Q p).
Proof.
  intros Hd Hs Hr Hn Hm _ _.
  set (names := sort_by String.leb (dedup String.eqb sectors)).
  set (sum_of := fun (vs : list Q) (name : string) =>
                   round2 (series_sum (map Fin (rows_of sectors name vs)))).
  exists names. eexists.
  exists (map (sum_of ni) names), (map (sum_of rev) names),
         (map (fun name => percent_ratio (sum_of ni name) (sum_of rev name)) names).
  unfold get_sector_analysis. rewrite Hd, (has_column_Some _ _ Hs). cbn [negb].
  rewrite (sector_analysis_numeric _ Hs Hr Hn Hm).
  split; [reflexivity|].
  rewrite group_keys_StrCol, key_column_StrCol. fold names.
  split; [reflexivity|]. split; [|split; [|split; [|split]]].
  - apply (Permutation_NoDup (l := dedup String.eqb sectors));
      [symmetry; apply sort_by_perm | apply dedup_NoDup].
  - intros c. split; intros H.
    + apply dedup_In. exact (Permutation_in _ (sort_by_perm _ _) H).
    + apply dedup_In in H.
      exact (Permutation_in _ (Permutation_sym (sort_by_perm _ _)) H).
  - unfold frame_rows.
    repeat (apply Forall_cons || apply Forall_nil); cbn [snd col_len];
      rewrite ?map_map, ?zip_with_map, ?length_map; reflexivity.
  - cbn [df_get String.eqb Ascii.eqb Bool.eqb]. cbn [cells].
    rewrite !map_map. do 2 f_equal.
    apply map_ext. intros name.
    now rewrite round2_of_nat, group_of_CStr, rows_of_map, series_count_Fin.
  - assert (Hsum : forall vs : list Q,
               map round2
                 (map (fun k => series_sum (group_of (cells (StrCol sectors)) k (map Fin vs)))
                    (map CStr names))
               = map (sum_of vs) names).
    { intros vs. rewrite !map_map. apply map_ext. intros name.
      cbn [cells]. now rewrite group_of_CStr, rows_of_map. }
    cbn [df_get String.eqb Ascii.eqb Bool.eqb].
    rewrite !Hsum. split; [reflexivity|]. split; [reflexivity|]. split.
    { rewrite zip_with_map, map_map. reflexivity. }
    intros i name Hi.
    destruct (rounded_sum_two_decimals (rows_of sectors name ni)) as (n & En & Hn').
    destruct (rounded_sum_two_decimals (rows_of sectors name rev)) as (r & Er & Hr').
    exists n, r, (percent_ratio (Fin n) (Fin r)).
    do 3 (erewrite map_nth_error by exact Hi). unfold sum_of. rewrite En, Er.
    repeat split; try assumption.
    intros Hr0 _. now apply to_two_decimals_percent.
Qed.

End SectorAnalysis.

Lemma sector_analysis_repeated :
  exists names analysis income_sums revenue_sums margins,
    get_sector_analysis (holding repeated_company)
    = (Ok analysis, holding repeated_company) /\
    df_get analysis "Sector" = Some (StrCol names) /\
    NoDup names /\
    (forall c, In c names <-> In c ["Energy"; "Retail"; "Energy"]%string) /\
    frame_rows analysis (List.length names) /\
    df_get analysis "Revenue_count"
    = Some (NumCol (map (fun name =>
                           of_nat (List.length
                             (rows_of ["Energy"; "Retail"; "Energy"]%string name
                                [200; 100; 300]%Q)))
                        names)) /\
    df_get analysis "Net_Income_sum" = Some (NumCol income_sums) /\
    df_get analysis "Revenue_sum" = Some (NumCol revenue_sums) /\
    df_get analysis "Avg_Profit_Margin" = Some (NumCol margins) /\
    forall i name,
      nth_error names i = Some name ->
      exists n r p,
        nth_error income_sums i = Some (Fin n) /\
        nth_error revenue_sums i = Some (Fin r) /\
        nth_error margins i = Some p /\
        to_two_decimals
          (Qsum (rows_of ["Energy"; "Retail"; "Energy"]%string name [100; 10; 200]%Q))
          (Fin n) /\
        to_two_decimals
          (Qsum (rows_of ["Energy"; "Retail"; "Energy"]%string name [200; 100; 300]%Q))
          (Fin r) /\
        (~ (r == 0)%Q -> percent_to_the_cent (100 * n / r) ->
         to_two_decimals (100 * n / r)%Q p).
Proof.
  assert (Hrev : summed_to_the_cent [200; 100; 300]%Q) by (vm_compute; reflexivity).
  assert (Hni : summed_to_the_cent [100; 10; 200]%Q) by (vm_compute; reflexivity).
  exact (@sector_analysis_one_row_per_sector (holding repeated_company)
           repeated_company ["Energy"; "Retail"; "Energy"]%string
           [200; 100; 300]%Q [100; 10; 200]%Q (map Fin [3000; 1000; 3000]%Q)
           eq_refl eq_refl eq_refl eq_refl eq_refl Hrev Hni).
Defined.

(** ** What the risk assessment leaves behind *)

Section RiskAssessmentEffects.

Variable qsqrt : Q -> Q.

Local Open Scope string_scope.

Lemma setitem_same_value (df : DataFrame) (name : string) (c : column) :
  df_get df name = Some c -> setitem df name c = df.
Proof.
  induction df as [|[n c'] df IH]; simpl; [discriminate|].
  destruct (String.eqb n name) eqn:E.
  - apply String.eqb_eq in E. inversion 1. now subst.
  - intros H. now rewrite IH.
Qed.

Lemma df_get_take_rows (idx : list nat) (df : DataFrame) (name : string) :
  df_get (take_rows idx df) name = option_map (col_take idx) (df_get df name).
Proof.
  induction df as [|[n c] df IH]; simpl; [reflexivity|].
  destruct (String.eqb n name); [reflexivity | exact IH].
Qed.

(** The methods read the table through [df_get] only: two tables that agree
    on the columns a method names give it the same result. *)
Lemma basic_summary_ext (df df' : DataFrame) :
  (forall name, In name ["Company"; "Revenue"; "Expenses"; "Net_Income"; "Market_Cap"] ->
                df_get df' name = df_get df name) ->
  basic_summary qsqrt df' = basic_summary qsqrt df.
Proof.
  intros H. unfold basic_summary, getitem. rewrite !has_column_df_get.
  rewrite !H by (simpl; auto 10). reflexivity.
Qed.

Lemma company_insights_ext (df df' : DataFrame) :
  (forall name, In name ["Company"; "Revenue"; "Expenses"; "Net_Income"; "Market_Cap"] ->
                df_get df' name = df_get df name) ->
  company_insights df' = company_insights df.
Proof.
  intros H. unfold company_insights, groupby_agg, getitem.
  cbn [map fst filter agg_columns]. unfold getitem.
  rewrite !has_column_df_get, !H by (simpl; auto 10). reflexivity.
Qed.

Lemma sector_analysis_ext (df df' : DataFrame) :
  (forall name, In name ["Sector"; "Revenue"; "Net_Income"; "Market_Cap"] ->
                df_get df' name = df_get df name) ->
  sector_analysis df' = sector_analysis df.
Proof.
  intros H. unfold sector_analysis, groupby_agg, getitem.
  cbn [map fst filter agg_columns]. unfold getitem.
  rewrite !has_column_df_get, !H by (simpl; auto 10). reflexivity.
Qed.

Lemma flat_map_ext_in {A B} (f g : A -> list B) (l : list A) :
  (forall x, In x l -> f x = g x) -> flat_map f l = flat_map g l.
Proof.
  induction l as [|a l IH]; simpl; intros H; [reflexivity|].
  rewrite (H a) by auto. f_equal. auto.
Qed.

Lemma select_take_rows_ext (idx : list nat) (df df' : DataFrame) (names : list string) :
  (forall name, In name names -> df_get df' name = df_get df name) ->
  select (take_rows idx df') names = select (take_rows idx df) names.
Proof.
  intros H. unfold select.
  assert (Hf : filter (fun name => negb (has_column (take_rows idx df') name)) names
               = filter (fun name => negb (has_column (take_rows idx df) name)) names).
  { apply filter_ext_in. intros name Hin.
    now rewrite !has_column_take_rows, !has_column_df_get, (H name Hin). }
  assert (Hm : flat_map (fun name => match df_get (take_rows idx df') name with
                                     | Some c => [(name, c)]
                                     | None => []
                                     end) names
               = flat_map (fun name => match df_get (take_rows idx df) name with
                                       | Some c => [(name, c)]
                                       | None => []
                                       end) names).
  { apply flat_map_ext_in. intros name Hin.
    now rewrite !df_get_take_rows, (H name Hin). }
  now rewrite Hf, Hm.
Qed.

Lemma top_performers_ext (df df' : DataFrame) (metric : string) (top_n : Z) :
  df_get df' metric = df_get df metric ->
  (forall name, In name ["Company"; "Revenue"; "Expenses"; "Net_Income"; "Sector"] ->
                df_get df' name = df_get df name) ->
  top_performers df' metric top_n = top_performers df metric top_n.
Proof.
  intros Hm H. unfold top_performers, nlargest, getitem.
  rewrite !has_column_df_get, Hm.
  destruct (df_get df metric) as [[vs|vs|vs]|]; cbn [negb rbind]; try reflexivity;
    now rewrite (select_take_rows_ext _ _ _ _ H).
Qed.

(** The table a risk assessment leaves stored, whether it returned or
    raised, differs from the one it found in the two columns it writes at
    most. *)
Lemma risk_assessment_frame (self : generator) (df : DataFrame) :
  data self = Some df ->
  exists df',
    data (snd (generate_risk_assessment qsqrt self)) = Some df' /\
    forall name, name <> "Debt_to_Revenue" -> name <> "Volatility_Score" ->
                 df_get df' name = df_get df name.
Proof.
  intros Hd. unfold generate_risk_assessment. rewrite Hd.
  destruct (debt_to_revenue df) as [debt|]; cbn [snd]; [|eauto].
  destruct (volatility_score qsqrt _) as [vol|]; cbn [snd data]; eexists;
    (split; [reflexivity|]); intros name H1 H2;
    now rewrite ?df_get_setitem_other by congruence.
Qed.

(** X7. The columns a risk assessment writes are read by no other method:
    the report, the company insights, the sector analysis and every ranking
    by another metric give after it what they gave before it. *)
Theorem risk_assessment_keeps_results (self : generator) :
  let self' := snd (generate_risk_assessment qsqrt self) in
  fst (generate_basic_report qsqrt self') = fst (generate_basic_report qsqrt self) /\
  fst (get_company_insights self') = fst (get_company_insights self) /\
  fst (get_sector_analysis self') = fst (get_sector_analysis self) /\
  (forall metric top_n,
      metric <> "Debt_to_Revenue" -> metric <> "Volatility_Score" ->
      fst (identify_top_performers metric top_n self')
      = fst (identify_top_performers metric top_n self)).
Proof.
  intros self'. subst self'.
  destruct (data self) as [df|] eqn:Hd.
  2: { unfold generate_risk_assessment. rewrite Hd. cbn [snd]. auto. }
  destruct (risk_assessment_frame _ Hd) as (df' & Hd' & Hsame).
  assert (H5 : forall names,
             ~ In "Debt_to_Revenue" names -> ~ In "Volatility_Score" names ->
             forall name, In name names -> df_get df' name = df_get df name).
  { intros names H1 H2 name Hin. apply Hsame; intros ->; contradiction. }
  assert (Hnot : forall (x : string) names,
             forallb (fun y => negb (String.eqb x y)) names = true -> ~ In x names).
  { intros x names Hall Hin. rewrite forallb_forall in Hall.
    specialize (Hall x Hin). rewrite String.eqb_refl in Hall. discriminate. }
  unfold generate_basic_report, get_company_insights, get_sector_analysis,
    identify_top_performers.
  rewrite Hd', Hd. repeat split.
  - rewrite (basic_summary_ext df df') by (apply H5; apply Hnot; reflexivity).
    now destruct (basic_summary qsqrt df).
  - cbn [fst]. apply company_insights_ext. apply H5; apply Hnot; reflexivity.
  - rewrite !has_column_df_get, (Hsame "Sector") by discriminate.
    destruct (df_get df "Sector"); cbn [negb fst]; [|reflexivity].
    apply sector_analysis_ext. apply H5; apply Hnot; reflexivity.
  - intros metric top_n H1 H2. cbn [fst].
    apply top_performers_ext; [now apply Hsame|].
    apply H5; apply Hnot; reflexivity.
Qed.

(** X8. A second risk assessment changes nothing: it returns the dict of the
    first and leaves the stored table as the first left it. *)
Theorem risk_assessment_twice (self self' : generator) (r : dict) :
  generate_risk_assessment qsqrt self = (Ok r, self') ->
  generate_risk_assessment qsqrt self' = (Ok r, self').
Proof.
  unfold generate_risk_assessment at 1.
  destruct (data self) as [df|] eqn:Hd; [|discriminate].
  destruct (debt_to_revenue df) as [debt|] eqn:Ed; [|discriminate].
  set (df1 := setitem df "Debt_to_Revenue" debt).
  destruct (volatility_score qsqrt df1) as [vol|] eqn:Ev; [|discriminate].
  set (df2 := setitem df1 "Volatility_Score" vol).
  intros H. inversion H as [[Hr Hself]]. clear H.
  assert (Hdebt : df_get df2 "Debt_to_Revenue" = Some debt).
  { unfold df2, df1. rewrite df_get_setitem_other by discriminate.
    apply df_get_setitem_same. }
  assert (Hvol : df_get df2 "Volatility_Score" = Some vol)
    by apply df_get_setitem_same.
  assert (Hsame : forall name, name <> "Debt_to_Revenue" ->
                               name <> "Volatility_Score" ->
                               df_get df2 name = df_get df name).
  { intros name H1 H2. unfold df2, df1.
    now rewrite !df_get_setitem_other by congruence. }
  assert (Ed2 : debt_to_revenue df2 = Ok debt).
  { rewrite <- Ed. unfold debt_to_revenue, getitem.
    now rewrite !Hsame by discriminate. }
  assert (Ev2 : volatility_score qsqrt df2 = Ok vol).
  { rewrite <- Ev. unfold volatility_score, getitem.
    rewrite Hsame by discriminate. unfold df1.
    now rewrite df_get_setitem_other by discriminate. }
  unfold generate_risk_assessment. cbn [data].
  rewrite Ed2, (setitem_same_value _ _ Hdebt), Ev2, (setitem_same_value _ _ Hvol).
  now rewrite Hr.
Qed.

End RiskAssessmentEffects.

Lemma risk_assessment_keeps_results_two_rows :
  fst (generate_basic_report Qsqrt12
         (snd (generate_risk_assessment Qsqrt12 (holding full_table))))
  = fst (generate_basic_report Qsqrt12 (holding full_table)) /\
  fst (identify_top_performers "Net_Income" 1
         (snd (generate_risk_assessment Qsqrt12 (holding full_table))))
  = fst (identify_top_performers "Net_Income" 1 (holding full_table)).
Proof.
  destruct (risk_assessment_keeps_results Qsqrt12 (holding full_table))
    as (Hreport & _ & _ & Hrank).
  split; [exact Hreport|].
  apply Hrank; discriminate.
Defined.

Lemma risk_assessment_twice_two_rows :
  exists r self',
    generate_risk_assessment Qsqrt12 (holding two_rows) = (Ok r, self') /\
    generate_risk_assessment Qsqrt12 self' = (Ok r, self').
Proof.
  destruct (generate_risk_assessment Qsqrt12 (holding two_rows)) as [[r|e] self'] eqn:E;
    [|discriminate E].
  exists r, self'. split; [reflexivity|].
  exact (@risk_assessment_twice Qsqrt12 (holding two_rows) self' r E).
Defined.

(** ** identify_top_performers: the rows returned *)

Section Ranking.

Local Open Scope string_scope.

Lemma map_zip_with {A B C D} (g : C -> D) (f : A -> B -> C) (l : list A) (l' : list B) :
  map g (zip_with f l l') = zip_with (fun a b => g (f a b)) l l'.
Proof.
  revert l'. induction l as [|a l IH]; intros [|b l']; simpl; congruence.
Qed.

(** The frame returned for a metric that [nlargest] ranks, on a table that
    has the five columns selected, Revenue and Net_Income being numbers. *)
Lemma top_performers_numeric (df : DataFrame) (metric : string) (top_n : Z)
    (m company expenses sector : column) (rev ni : list num) :
  df_get df metric = Some m ->
  (forall vs, m <> StrCol vs) ->
  df_get df "Company" = Some company ->
  df_get df "Revenue" = Some (NumCol rev) ->
  df_get df "Expenses" = Some expenses ->
  df_get df "Net_Income" = Some (NumCol ni) ->
  df_get df "Sector" = Some sector ->
  let idx := firstn (Z.to_nat top_n) (order_desc (cells m)) in
  top_performers df metric top_n
  = Ok [ ("Company", col_take idx company);
         ("Revenue", NumCol (take idx rev));
         ("Expenses", col_take idx expenses);
         ("Net_Income", NumCol (take idx ni));
         ("Sector", col_take idx sector);
         ("Profit_Margin", NumCol (zip_with percent_ratio (take idx ni) (take idx rev))) ].
Proof.
  intros Hm Hstr Hc Hr He Hn Hs idx. subst idx.
  unfold top_performers, nlargest.
  rewrite (has_column_Some _ _ Hm), (getitem_Some _ _ Hm). cbn [negb rbind].
  assert (Hsel : forall idx,
             select (take_rows idx df)
               ["Company"; "Revenue"; "Expenses"; "Net_Income"; "Sector"]
             = Ok [ ("Company", col_take idx company);
                    ("Revenue", NumCol (take idx rev));
                    ("Expenses", col_take idx expenses);
                    ("Net_Income", NumCol (take idx ni));
                    ("Sector", col_take idx sector) ]).
  { intros idx. unfold select. cbn [filter].
    rewrite !has_column_take_rows.
    rewrite (has_column_Some _ _ Hc), (has_column_Some _ _ Hr),
      (has_column_Some _ _ He), (has_column_Some _ _ Hn), (has_column_Some _ _ Hs).
    cbn [negb flat_map].
    rewrite !df_get_take_rows, Hc, Hr, He, Hn, Hs. reflexivity. }
  destruct m as [vs|vs|vs]; [| now elim (Hstr vs) |];
    cbn [rbind]; rewrite Hsel; cbn [rbind]; unfold percent_of, getitem;
    cbn [df_get String.eqb Ascii.eqb Bool.eqb rbind col_div setitem];
    now rewrite map_zip_with.
Qed.

Lemma length_take {A} (idx : list nat) (vs : list A) :
  Forall (fun i => (i < List.length vs)%nat) idx ->
  List.length (take idx vs) = List.length idx.
Proof.
  unfold take. induction 1 as [|i idx Hi _ IH]; simpl; [reflexivity|].
  rewrite length_app, IH.
  apply nth_error_Some in Hi. destruct (nth_error vs i); [reflexivity | congruence].
Qed.

Lemma col_len_take (idx : list nat) (c : column) :
  Forall (fun i => (i < col_len c)%nat) idx ->
  col_len (col_take idx c) = List.length idx.
Proof. destruct c; simpl; apply length_take. Qed.

Lemma length_zip_with_eq {A B C} (f : A -> B -> C) (l : list A) (l' : list B) :
  List.length l = List.length l' -> List.length (zip_with f l l') = List.length l.
Proof.
  revert l'. induction l as [|a l IH]; intros [|b l']; simpl; try discriminate; auto.
Qed.

Lemma frame_rows_col (df : DataFrame) (n : nat) (name : string) (c : column) :
  frame_rows df n -> df_get df name = Some c -> col_len c = n.
Proof.
  intros Hrows Hc. apply df_get_In in Hc.
  unfold frame_rows in Hrows. rewrite Forall_forall in Hrows.
  exact (Hrows _ Hc).
Qed.

Lemma map_fst_combine {A B} (l : list A) (l' : list B) :
  List.length l = List.length l' -> map fst (combine l l') = l.
Proof.
  revert l'. induction l as [|a l IH]; intros [|b l']; simpl; try discriminate; auto.
  intros H. f_equal. apply IH. lia.
Qed.

Lemma filter_partition_perm {A} (f : A -> bool) (l : list A) :
  Permutation (filter f l ++ filter (fun a => negb (f a)) l)%list l.
Proof.
  induction l as [|a l IH]; simpl; [reflexivity|].
  destruct (f a); simpl.
  - now constructor.
  - transitivity (a :: filter f l ++ filter (fun a => negb (f a)) l)%list.
    + symmetry. apply Permutation_middle.
    + now constructor.
Qed.

(** The ranking is a rearrangement of the row positions. *)
Lemma order_desc_perm (vs : list cell) :
  Permutation (order_desc vs) (seq 0 (List.length vs)).
Proof.
  unfold order_desc.
  set (rows := combine (seq 0 (List.length vs)) vs).
  transitivity (map fst rows).
  - apply Permutation_map.
    transitivity (filter (fun r => cell_notna (snd r)) rows
                  ++ filter (fun r => negb (cell_notna (snd r))) rows)%list.
    + apply Permutation_app_tail, sort_by_perm.
    + apply (filter_partition_perm (fun r => cell_notna (snd r))).
  - unfold rows. rewrite map_fst_combine; [reflexivity | apply length_seq].
Qed.

Lemma Permutation_firstn_facts (k n : nat) (order : list nat) :
  Permutation order (seq 0 n) ->
  NoDup (firstn k order) /\
  Forall (fun i => (i < n)%nat) (firstn k order) /\
  List.length (firstn k order) = Nat.min k n.
Proof.
  intros Hperm. split; [|split].
  - assert (Hnd : NoDup order)
      by (apply (Permutation_NoDup (Permutation_sym Hperm)), seq_NoDup).
    rewrite <- (firstn_skipn k order) in Hnd. now apply NoDup_app_remove_r in Hnd.
  - apply Forall_forall. intros i Hi.
    assert (Hin : In i order)
      by (rewrite <- (firstn_skipn k order); apply in_or_app; auto).
    apply (Permutation_in _ Hperm), in_seq in Hin. lia.
  - rewrite length_firstn, (Permutation_length Hperm), length_seq. reflexivity.
Qed.

(** The frame that a ranking returns: the rows at the first positions of the
    descending order, in the five selected columns, and a sixth column of
    margins. *)
Lemma top_performers_frame (df : DataFrame) (metric : string) (top_n : Z)
    (m company expenses sector : column) (rev ni : list num) :
  df_get df metric = Some m ->
  (forall vs, m <> StrCol vs) ->
  df_get df "Company" = Some company ->
  df_get df "Revenue" = Some (NumCol rev) ->
  df_get df "Expenses" = Some expenses ->
  df_get df "Net_Income" = Some (NumCol ni) ->
  df_get df "Sector" = Some sector ->
  let idx := firstn (Z.to_nat top_n) (order_desc (cells m)) in
  exists tp,
    top_performers df metric top_n = Ok tp /\
    rows_taken idx df tp /\
    columns tp = (selected_columns ++ ["Profit_Margin"%string])%list /\
    forall n, frame_rows df n -> frame_rows tp (Nat.min (Z.to_nat top_n) n).
Proof.
  intros Hm Hstr Hc Hr He Hn Hs idx.
  rewrite (@top_performers_numeric df metric top_n _ _ _ _ _ _ Hm Hstr Hc Hr He Hn Hs).
  fold idx. eexists. split; [reflexivity|]. split; [|split; [reflexivity|]].
  - unfold rows_taken, selected_columns.
    repeat (apply Forall_cons || apply Forall_nil);
      cbn [df_get String.eqb Ascii.eqb Bool.eqb];
      rewrite ?Hc, ?Hr, ?He, ?Hn, ?Hs; reflexivity.
  - intros n Hrows.
    assert (Hlen : List.length (cells m) = n).
    { rewrite <- (frame_rows_col _ Hrows Hm). destruct m; simpl; apply length_map. }
    pose proof (order_desc_perm (cells m)) as Hperm. rewrite Hlen in Hperm.
    destruct (@Permutation_firstn_facts (Z.to_nat top_n) n _ Hperm) as (_ & Hlt & Hk).
    fold idx in Hk, Hlt.
    assert (Hcol : forall name c, df_get df name = Some c ->
                                  col_len (col_take idx c) = Nat.min (Z.to_nat top_n) n).
    { intros name c H. rewrite col_len_take; [exact Hk|].
      now rewrite (frame_rows_col _ Hrows H). }
    pose proof (Hcol _ _ Hr) as Hrev. pose proof (Hcol _ _ Hn) as Hni.
    cbn [col_take col_len] in Hrev, Hni.
    unfold frame_rows.
    repeat (apply Forall_cons || apply Forall_nil); cbn [snd];
      try (eapply Hcol; eassumption); cbn [col_len]; try assumption.
    rewrite length_zip_with_eq; [assumption | congruence].
Qed.

(** X9. On a table that has the five selected columns, Revenue and
    Net_Income being numbers, a ranking by a column of numbers or of
    datetimes returns [top_n] rows, or all the rows when there are fewer,
    and none when [top_n] is zero or negative; the rows are rows of the
    table, each met once, and carry the six columns Company, Revenue,
    Expenses, Net_Income, Sector and Profit_Margin, the first five as the
    table has them. *)
Theorem top_performers_row_count (self : generator) (df : DataFrame) (n : nat)
    (metric : string) (top_n : Z)
    (m company expenses sector : column) (rev ni : list num) :
  data self = Some df ->
  frame_rows df n ->
  df_get df metric = Some m ->
  (forall vs, m <> StrCol vs) ->
  df_get df "Company" = Some company ->
  df_get df "Revenue" = Some (NumCol rev) ->
  df_get df "Expenses" = Some expenses ->
  df_get df "Net_Income" = Some (NumCol ni) ->
  df_get df "Sector" = Some sector ->
  exists idx tp,
    identify_top_performers metric top_n self = (Ok tp, self) /\
    rows_taken idx df tp /\
    columns tp
    = ["Company"; "Revenue"; "Expenses"; "Net_Income"; "Sector"; "Profit_Margin"]%string /\
    NoDup idx /\
    Forall (fun i => (i < n)%nat) idx /\
    List.length idx = Nat.min (Z.to_nat top_n) n /\
    frame_rows tp (Nat.min (Z.to_nat top_n) n).
Proof.
  intros Hd Hrows Hm Hstr Hc Hr He Hn Hs.
  exists (firstn (Z.to_nat top_n) (order_desc (cells m))).
  destruct (@top_performers_frame df metric top_n m company expenses sector rev ni
              Hm Hstr Hc Hr He Hn Hs) as (tp & Htp & Htaken & Hcols & Hframe).
  exists tp. unfold identify_top_performers. rewrite Hd, Htp.
  split; [reflexivity|]. split; [exact Htaken|]. split; [exact Hcols|].
  assert (Hlen : List.length (cells m) = n).
  { rewrite <- (frame_rows_col _ Hrows Hm). destruct m; simpl; apply length_map. }
  pose proof (order_desc_perm (cells m)) as Hperm. rewrite Hlen in Hperm.
  destruct (@Permutation_firstn_facts (Z.to_nat top_n) n _ Hperm) as (Hnd & Hlt & Hk).
  split; [exact Hnd|]. split; [exact Hlt|]. split; [exact Hk|].
  exact (Hframe n Hrows).
Qed.

(** *** The order of the rows *)

Section InsertionSort.

Context {A : Type} (leb : A -> A -> bool).

Hypothesis leb_total : forall a b, leb a b = true \/ leb b a = true.
Hypothesis leb_trans :
  forall a b c, leb a b = true -> leb b c = true -> leb a c = true.

Lemma insert_sorted_sorted (x : A) (l : list A) :
  StronglySorted (fun a b => leb a b = true) l ->
  StronglySorted (fun a b => leb a b = true) (insert_sorted leb x l).
Proof.
  induction 1 as [|y l Hl IH Hy]; simpl.
  - repeat constructor.
  - destruct (leb x y) eqn:E.
    + constructor; [now constructor|].
      constructor; [exact E|].
      rewrite Forall_forall in *. eauto.
    + constructor; [exact IH|].
      rewrite Forall_forall in *. intros z Hz.
      apply (Permutation_in _ (insert_sorted_perm leb x l)) in Hz.
      destruct Hz as [<-|Hz]; [|auto].
      destruct (leb_total x y); congruence.
Qed.

Lemma sort_by_sorted (l : list A) :
  StronglySorted (fun a b => leb a b = true) (sort_by leb l).
Proof.
  unfold sort_by. induction l as [|x l IH]; simpl; [constructor|].
  now apply insert_sorted_sorted.
Qed.

End InsertionSort.

Lemma StronglySorted_app {A} (R : A -> A -> Prop) (l1 l2 : list A) :
  StronglySorted R (l1 ++ l2) ->
  StronglySorted R l1 /\ forall a b, In a l1 -> In b l2 -> R a b.
Proof.
  induction l1 as [|x l1 IH]; simpl; intros H.
  - split; [constructor | contradiction].
  - inversion H as [|? ? Hs Hall]; subst.
    destruct (IH Hs) as (H1 & H2). split.
    + constructor; [exact H1|].
      rewrite Forall_forall in *. intros z Hz. apply Hall, in_or_app. auto.
    + rewrite Forall_forall in Hall.
      intros a b [<-|Ha] Hb; [apply Hall, in_or_app|]; auto.
Qed.

Lemma StronglySorted_map {A B} (R : A -> A -> Prop) (R' : B -> B -> Prop)
    (f : A -> B) (l : list A) :
  (forall a b, R a b -> R' (f a) (f b)) ->
  StronglySorted R l -> StronglySorted R' (map f l).
Proof.
  intros Hf. induction 1 as [|x l Hl IH Hx]; simpl; constructor; [exact IH|].
  rewrite Forall_forall in *. intros z Hz.
  apply in_map_iff in Hz as (a & <- & Ha). auto.
Qed.

Lemma sort_by_map {A B} (leb : A -> A -> bool) (leb' : B -> B -> bool)
    (f : A -> B) (l : list A) :
  (forall a b, leb' (f a) (f b) = leb a b) ->
  sort_by leb' (map f l) = map f (sort_by leb l).
Proof.
  intros Hf. unfold sort_by. induction l as [|x l IH]; simpl; [reflexivity|].
  rewrite IH. generalize (fold_right (insert_sorted leb) [] l). intros s.
  induction s as [|y s IHs]; simpl; [reflexivity|].
  rewrite Hf. destruct (leb x y); simpl; [reflexivity | now rewrite IHs].
Qed.

Lemma combine_map_r {A B C} (f : B -> C) (l : list A) (l' : list B) :
  combine l (map f l') = map (fun p => (fst p, f (snd p))) (combine l l').
Proof.
  revert l'. induction l as [|a l IH]; intros [|b l']; simpl; try reflexivity.
  now rewrite IH.
Qed.

(** A row position paired with the value found there. *)
Lemma In_combine_seq {A} (l : list A) (start i : nat) (x : A) :
  In (i, x) (combine (seq start (List.length l)) l) <->
  (start <= i)%nat /\ nth_error l (i - start) = Some x.
Proof.
  revert start. induction l as [|a l IH]; intros start; simpl.
  - split; [contradiction|]. intros [_ H]. now destruct (i - start)%nat.
  - rewrite IH. split.
    + intros [H|[H1 H2]].
      * inversion H; subst. split; [lia|]. now rewrite Nat.sub_diag.
      * split; [lia|].
        replace (i - start)%nat with (S (i - S start)) by lia. exact H2.
    + intros [H1 H2].
      destruct (i - start)%nat as [|k] eqn:E.
      * left. inversion H2. f_equal. lia.
      * right. split; [lia|]. replace (i - S start)%nat with k by lia. exact H2.
Qed.

Lemma take_positions {A} (vs : list A) (rows : list (nat * A)) :
  Forall (fun p => nth_error vs (fst p) = Some (snd p)) rows ->
  take (map fst rows) vs = map snd rows.
Proof.
  unfold take. induction 1 as [|p rows Hp _ IH]; simpl; [reflexivity|].
  now rewrite Hp, IH.
Qed.

Lemma rank_leb_total (a b : nat * Q) : rank_leb a b = true \/ rank_leb b a = true.
Proof.
  unfold rank_leb. rewrite !Qle_bool_iff.
  destruct (Qlt_le_dec (snd a) (snd b)) as [H|H]; [right | left]; [lra | exact H].
Qed.

Lemma rank_leb_trans (a b c : nat * Q) :
  rank_leb a b = true -> rank_leb b c = true -> rank_leb a c = true.
Proof. unfold rank_leb. rewrite !Qle_bool_iff. lra. Qed.

(** The ranking of a column of finite numbers. *)
Lemma order_desc_Fin (ms : list Q) :
  order_desc (cells (NumCol (map Fin ms)))
  = map fst (sort_by rank_leb (combine (seq 0 (List.length ms)) ms)).
Proof.
  unfold order_desc. cbn [cells]. rewrite !length_map, map_map.
  rewrite (combine_map_r (fun q => CNum (Fin q))).
  set (rows := combine (seq 0 (List.length ms)) ms).
  set (f := fun p : nat * Q => (fst p, CNum (Fin (snd p)))).
  replace (filter (fun r => cell_notna (snd r)) (map f rows)) with (map f rows)
    by (symmetry; apply filter_all; intros x Hx;
        apply in_map_iff in Hx as (p & <- & _); reflexivity).
  replace (filter (fun r => negb (cell_notna (snd r))) (map f rows))
    with (@nil (nat * cell)).
  - rewrite app_nil_r, (sort_by_map rank_leb).
    + rewrite map_map. reflexivity.
    + intros a b. unfold rank_leb. cbn. now rewrite negb_involutive.
  - induction rows as [|r rows IH]; simpl; auto.
Qed.

(** X10. On a table that has the five selected columns, a ranking by a
    column of finite numbers returns the rows with the largest values of
    that column, the largest first: the rows returned are rows of the table
    in its five selected columns, their values of the metric are in
    non-increasing order, and no row left out has a larger value than a row
    returned. *)
Theorem top_performers_are_largest (self : generator) (df : DataFrame)
    (metric : string) (top_n : Z)
    (company expenses sector : column) (rev ni : list num) (ms : list Q) :
  data self = Some df ->
  df_get df metric = Some (NumCol (map Fin ms)) ->
  df_get df "Company" = Some company ->
  df_get df "Revenue" = Some (NumCol rev) ->
  df_get df "Expenses" = Some expenses ->
  df_get df "Net_Income" = Some (NumCol ni) ->
  df_get df "Sector" = Some sector ->
  exists idx tp,
    identify_top_performers metric top_n self = (Ok tp, self) /\
    rows_taken idx df tp /\
    descending (take idx ms) /\
    forall i j qi qj,
      In i idx -> ~ In j idx ->
      nth_error ms i = Some qi -> nth_error ms j = Some qj ->
      (qj <= qi)%Q.
Proof.
  intros Hd Hm Hc Hr He Hn Hs.
  exists (firstn (Z.to_nat top_n) (order_desc (cells (NumCol (map Fin ms))))).
  destruct (@top_performers_frame df metric top_n (NumCol (map Fin ms)) company expenses
              sector rev ni Hm ltac:(discriminate) Hc Hr He Hn Hs)
    as (tp & Htp & Htaken & _ & _).
  exists tp. unfold identify_top_performers. rewrite Hd, Htp.
  split; [reflexivity|]. split; [exact Htaken|].
  rewrite order_desc_Fin, firstn_map.
  set (rows := combine (seq 0 (List.length ms)) ms).
  set (sorted := sort_by rank_leb rows).
  assert (Hsorted : StronglySorted (fun a b => rank_leb a b = true) sorted)
    by (apply sort_by_sorted; [apply rank_leb_total | apply rank_leb_trans]).
  assert (Hrows : forall p, In p sorted <-> nth_error ms (fst p) = Some (snd p)).
  { intros [i q]. cbn [fst snd].
    transitivity (In (i, q) rows).
    - split; apply Permutation_in; [|symmetry]; apply sort_by_perm.
    - unfold rows. rewrite In_combine_seq, Nat.sub_0_r. split; [tauto | split; [lia | tauto]]. }
  rewrite <- (firstn_skipn (Z.to_nat top_n) sorted) in Hsorted.
  apply StronglySorted_app in Hsorted as (Hfirst & Hdom).
  assert (Hin : forall p, In p (firstn (Z.to_nat top_n) sorted) -> In p sorted)
    by (intros p Hp; rewrite <- (firstn_skipn (Z.to_nat top_n) sorted);
        apply in_or_app; auto).
  split.
  - rewrite take_positions.
    + unfold descending.
      apply (StronglySorted_map (R := fun a b => rank_leb a b = true)); [|exact Hfirst].
      intros a b H. unfold rank_leb in H. now apply Qle_bool_iff in H.
    + apply Forall_forall. intros p Hp. now apply Hrows, Hin.
  - intros i j qi qj Hi Hj Hqi Hqj.
    apply in_map_iff in Hi as ([i' qi'] & Hfst & Hi). cbn [fst] in Hfst. subst i'.
    assert (Heq : qi' = qi).
    { apply Hin, Hrows in Hi. cbn [fst snd] in Hi. congruence. }
    subst qi'.
    assert (Hjs : In (j, qj) (skipn (Z.to_nat top_n) sorted)).
    { assert (Hall : In (j, qj) sorted) by (apply Hrows; exact Hqj).
      rewrite <- (firstn_skipn (Z.to_nat top_n) sorted) in Hall.
      apply in_app_or in Hall as [Hall|Hall]; [|exact Hall].
      elim Hj. apply in_map_iff. exists (j, qj). auto. }
    specialize (Hdom _ _ Hi Hjs). unfold rank_leb in Hdom. cbn [snd] in Hdom.
    now apply Qle_bool_iff in Hdom.
Qed.

End Ranking.

(** ** The metric of a ranking *)




Lemma top_two_of_three :
  exists idx tp,
    identify_top_performers "Net_Income" 2 (holding repeated_company)
    = (Ok tp, holding repeated_company) /\
    rows_taken idx repeated_company tp /\
    columns tp
    = ["Company"; "Revenue"; "Expenses"; "Net_Income"; "Sector"; "Profit_Margin"]%string /\
    NoDup idx /\
    Forall (fun i => (i < 3)%nat) idx /\
    List.length idx = 2%nat /\
    frame_rows tp 2.
Proof.
  apply (@top_performers_row_count (holding repeated_company) repeated_company 3
           "Net_Income" 2 (NumCol (map Fin [100; 10; 200]%Q))
           (StrCol ["B"; "A"; "B"]%string) (NumCol (map Fin [100; 90; 100]%Q))
           (StrCol ["Energy"; "Retail"; "Energy"]%string)
           (map Fin [200; 100; 300]%Q) (map Fin [100; 10; 200]%Q)).
  - reflexivity.
  - repeat constructor.
  - reflexivity.
  - discriminate.
  - reflexivity.
  - reflexivity.
  - reflexivity.
  - reflexivity.
  - reflexivity.
Defined.

(** On the rows (A, 10) and (B, 100): the top performer by net income is B
    only. *)
Lemma top_one_of_two_rows :
  (exists idx tp,
      identify_top_performers "Net_Income" 1 (holding full_table)
      = (Ok tp, holding full_table) /\
      rows_taken idx full_table tp /\
      descending (take idx [10; 100]%Q) /\
      forall i j qi qj,
        In i idx -> ~ In j idx ->
        nth_error [10; 100]%Q i = Some qi -> nth_error [10; 100]%Q j = Some qj ->
        (qj <= qi)%Q) /\
  identify_top_performers "Net_Income" 1 (holding full_table)
  = (Ok [ ("Company", StrCol ["B"]);
          ("Revenue", NumCol [Fin 200]);
          ("Expenses", NumCol [Fin 100]);
          ("Net_Income", NumCol [Fin 100]);
          ("Sector", StrCol ["Energy"]);
          ("Profit_Margin", NumCol [Fin 50]) ]%string,
     holding full_table).
Proof.
  split; [|reflexivity].
  apply (@top_performers_are_largest (holding full_table) full_table
           "Net_Income" 1 (StrCol ["A"; "B"]%string) (NumCol (map Fin [90; 100]%Q))
           (StrCol ["Retail"; "Energy"]%string) (map Fin [100; 200]%Q)
           (map Fin [10; 100]%Q) [10; 100]%Q); reflexivity.
Defined.

(** ** The columns of the risk assessment as metrics *)

Section DerivedMetrics.

Variable qsqrt : Q -> Q.

Local Open Scope string_scope.

(** X11. On a table with the required columns and a Sector column, a ranking
    by Debt_to_Revenue is refused as long as no risk assessment has run, and
    returns rows once one has: the column the assessment wrote is then a
    metric like any other. *)
Theorem debt_ratio_ranking_needs_risk_assessment (self : generator) (df : DataFrame)
    (top_n : Z) (company sector : column) (rev exp ni : list num) :
  data self = Some df ->
  has_column df "Debt_to_Revenue" = false ->
  df_get df "Company" = Some company ->
  df_get df "Revenue" = Some (NumCol rev) ->
  df_get df "Expenses" = Some (NumCol exp) ->
  df_get df "Net_Income" = Some (NumCol ni) ->
  df_get df "Sector" = Some sector ->
  identify_top_performers "Debt_to_Revenue" top_n self
  = (Raise (ValueError "Metric 'Debt_to_Revenue' not found in data columns."), self) /\
  exists r self' frame,
    generate_risk_assessment qsqrt self = (Ok r, self') /\
    identify_top_performers "Debt_to_Revenue" top_n self' = (Ok frame, self').
Proof.
  intros Hd Hnone Hc Hr He Hn Hs. split.
  - unfold identify_top_performers, top_performers. now rewrite Hd, Hnone.
  - rewrite (risk_assessment_numeric qsqrt _ Hd Hc Hr He Hn).
    do 3 eexists. split; [reflexivity|].
    unfold identify_top_performers. cbn [data].
    set (df2 := setitem _ "Volatility_Score" _).
    assert (Hsame : forall name c, df_get df name = Some c ->
                      name <> "Debt_to_Revenue" -> name <> "Volatility_Score" ->
                      df_get df2 name = Some c).
    { intros name c H H1 H2. unfold df2.
      now rewrite !df_get_setitem_other by congruence. }
    assert (Hdebt : df_get df2 "Debt_to_Revenue"
                    = Some (NumCol (zip_with ndiv exp rev))).
    { unfold df2. rewrite df_get_setitem_other by discriminate.
      apply df_get_setitem_same. }
    rewrite (@top_performers_numeric df2 "Debt_to_Revenue" top_n _ company
               (NumCol exp) sector rev ni Hdebt);
      try reflexivity; try discriminate; apply Hsame; (assumption || discriminate).
Qed.

End DerivedMetrics.

Lemma debt_ratio_ranking_no_market_cap :
  identify_top_performers "Debt_to_Revenue" 1 (holding no_market_cap)
  = (Raise (ValueError "Metric 'Debt_to_Revenue' not found in data columns."),
     holding no_market_cap) /\
  exists r self' frame,
    generate_risk_assessment Qsqrt12 (holding no_market_cap) = (Ok r, self') /\
    identify_top_performers "Debt_to_Revenue" 1 self' = (Ok frame, self').
Proof.
  apply (@debt_ratio_ranking_needs_risk_assessment Qsqrt12 (holding no_market_cap)
           no_market_cap 1 (StrCol ["A"; "B"]%string)
           (StrCol ["Retail"; "Energy"]%string)
           (map Fin [100; 200]%Q) (map Fin [90; 100]%Q) (map Fin [10; 100]%Q));
    reflexivity.
Defined.

(** ** The flags of the risk assessment *)

Section RiskFlags.

Variable qsqrt : Q -> Q.

Local Open Scope string_scope.

Lemma Qle_bool_ext (a b c d : Q) :
  ((a <= b)%Q <-> (c <= d)%Q) -> Qle_bool a b = Qle_bool c d.
Proof.
  intros H. destruct (Qle_bool a b) eqn:E1, (Qle_bool c d) eqn:E2; try reflexivity.
  - apply Qle_bool_iff, H, Qle_bool_iff in E1. congruence.
  - apply Qle_bool_iff, H, Qle_bool_iff in E2. congruence.
Qed.

Lemma Qeq_bool_false_neq (r : Q) : Qeq_bool r 0 = false -> ~ (r == 0)%Q.
Proof. intros H Hr. apply Qeq_bool_iff in Hr. congruence. Qed.

Lemma Qsgn_pos (x : Q) : (0 < x)%Q -> Qsgn x = 1%Z.
Proof.
  unfold Qlt, Qsgn. cbn [Qnum Qden]. intros H.
  destruct (Qnum x); simpl in *; lia.
Qed.

Lemma Qsgn_neg (x : Q) : (x < 0)%Q -> Qsgn x = (-1)%Z.
Proof.
  unfold Qlt, Qsgn. cbn [Qnum Qden]. intros H.
  destruct (Qnum x); simpl in *; lia.
Qed.

Lemma Qsgn_zero (x : Q) : (x == 0)%Q -> Qsgn x = 0%Z.
Proof. intros H. unfold Qsgn. now rewrite (Qeq_0_num H). Qed.

Lemma Qcompare_0_cases (r : Q) :
  (Qcompare r 0 = Gt /\ (0 < r)%Q /\ Qeq_bool r 0 = false) \/
  (Qcompare r 0 = Eq /\ (r == 0)%Q /\ Qeq_bool r 0 = true) \/
  (Qcompare r 0 = Lt /\ (r < 0)%Q /\ Qeq_bool r 0 = false).
Proof.
  destruct (Qcompare r 0) eqn:E.
  - right; left. apply Qeq_alt in E. repeat split; [exact E|].
    now apply Qeq_bool_iff.
  - right; right. apply Qlt_alt in E. repeat split; [exact E|].
    destruct (Qeq_bool r 0) eqn:B; [|reflexivity].
    apply Qeq_bool_iff in B. lra.
  - left. apply Qgt_alt in E. repeat split; [exact E|].
    destruct (Qeq_bool r 0) eqn:B; [|reflexivity].
    apply Qeq_bool_iff in B. lra.
Qed.

Lemma ngtb_ndiv (x r t : Q) :
  ngtb (ndiv (Fin x) (Fin r)) (Fin t) = ratio_above x r t.
Proof.
  unfold ngtb, ndiv, ratio_above.
  destruct (Qcompare_0_cases r) as [(-> & Hr & ->)|[(-> & Hr & ->)|(-> & Hr & ->)]].
  - cbn [nltb]. f_equal. apply Qle_bool_ext. rewrite Qred_correct.
    assert (Hx : (x == x / r * r)%Q) by (field; lra).
    split; intros H; [rewrite Hx | rewrite Hx in H]; nra.
  - destruct (Qlt_le_dec 0 x) as [Hx|Hx].
    + rewrite (Qsgn_pos Hx). cbn.
      destruct (Qle_bool x 0) eqn:E; [|reflexivity].
      apply Qle_bool_iff in E. lra.
    + assert (E : Qle_bool x 0 = true) by now apply Qle_bool_iff.
      rewrite E. cbn [negb].
      destruct (Qeq_dec x 0) as [H0|H0].
      * now rewrite (Qsgn_zero H0).
      * rewrite Qsgn_neg; [reflexivity|]. lra.
  - cbn [nltb]. f_equal. apply Qle_bool_ext. rewrite Qred_correct.
    assert (Hx : (x == x / r * r)%Q) by (field; lra).
    split; intros H; [rewrite Hx | rewrite Hx in H]; nra.
Qed.

Lemma nltb_ndiv (x r t : Q) :
  nltb (ndiv (Fin x) (Fin r)) (Fin t) = ratio_below x r t.
Proof.
  unfold ndiv, ratio_below.
  destruct (Qcompare_0_cases r) as [(-> & Hr & ->)|[(-> & Hr & ->)|(-> & Hr & ->)]].
  - cbn [nltb]. f_equal. apply Qle_bool_ext. rewrite Qred_correct.
    assert (Hx : (x == x / r * r)%Q) by (field; lra).
    split; intros H; [rewrite Hx | rewrite Hx in H]; nra.
  - destruct (Qlt_le_dec x 0) as [Hx|Hx].
    + rewrite (Qsgn_neg Hx). cbn.
      destruct (Qle_bool 0 x) eqn:E; [|reflexivity].
      apply Qle_bool_iff in E. lra.
    + assert (E : Qle_bool 0 x = true) by now apply Qle_bool_iff.
      rewrite E. cbn [negb].
      destruct (Qeq_dec x 0) as [H0|H0].
      * now rewrite (Qsgn_zero H0).
      * rewrite Qsgn_pos; [reflexivity|]. lra.
  - cbn [nltb]. f_equal. apply Qle_bool_ext. rewrite Qred_correct.
    assert (Hx : (x == x / r * r)%Q) by (field; lra).
    split; intros H; [rewrite Hx | rewrite Hx in H]; nra.
Qed.

Lemma zip_with_Fin {C} (f : num -> num -> C) (xs ys : list Q) :
  zip_with f (map Fin xs) (map Fin ys) = zip_with (fun x y => f (Fin x) (Fin y)) xs ys.
Proof.
  revert ys. induction xs as [|x xs IH]; intros [|y ys]; simpl; congruence.
Qed.

Lemma zip_with_ext {A B C} (f g : A -> B -> C) (l : list A) (l' : list B) :
  (forall a b, f a b = g a b) -> zip_with f l l' = zip_with g l l'.
Proof.
  intros H. revert l'. induction l as [|a l IH]; intros [|b l']; simpl; congruence.
Qed.

Lemma masked_CStr (mask : list bool) (names : list string) :
  map snd (filter (fun p => fst p) (combine mask (map CStr names)))
  = map CStr (map snd (filter (fun p => fst p) (combine mask names))).
Proof.
  revert names. induction mask as [|b mask IH]; intros [|c names]; simpl;
    try reflexivity.
  destruct b; simpl; now rewrite IH.
Qed.

(** X12. On a table of whole amounts below 2^50 in absolute value the flags
    are decided row by row, with strict comparisons. A row counts as high
    debt when its expenses exceed 0.8 times its revenue (for a positive
    revenue; with no revenue, when it has expenses), and as low margin when
    its net income is below 0.05 times its revenue (with no revenue, when it
    is negative). The companies at risk are the companies of the rows with
    either flag, in the order of the table. (On amounts with decimals the
    binary64 quotient of a row that lies exactly on a threshold can fall on
    either side of it.) *)
Theorem risk_flags_by_row (self : generator) (df : DataFrame)
    (companies : list string) (revenue expenses income : list Z) :
  let rev := map inject_Z revenue in
  let exp := map inject_Z expenses in
  let ni := map inject_Z income in
  data self = Some df ->
  Forall whole_amount (revenue ++ expenses ++ income) ->
  df_get df "Company" = Some (StrCol companies) ->
  df_get df "Revenue" = Some (NumCol (map Fin rev)) ->
  df_get df "Expenses" = Some (NumCol (map Fin exp)) ->
  df_get df "Net_Income" = Some (NumCol (map Fin ni)) ->
  let high := zip_with (fun e r => ratio_above e r (4 # 5)) exp rev in
  let low := zip_with (fun x r => ratio_below x r (1 # 20)) ni rev in
  exists r self',
    generate_risk_assessment qsqrt self = (Ok r, self') /\
    dict_get r "high_debt_companies" = Some (PInt (count_true high)) /\
    dict_get r "low_profit_margin_companies" = Some (PInt (count_true low)) /\
    dict_get r "companies_at_risk"
    = Some (PList (map CStr (map snd (filter (fun p => fst p)
                                        (combine (zip_with orb high low) companies))))).
Proof.
  intros rev exp ni Hd _ Hc Hr He Hn high low.
  rewrite (risk_assessment_numeric qsqrt _ Hd Hc Hr He Hn).
  do 2 eexists. split; [reflexivity|].
  assert (Hhigh : map (fun x => ngtb x high_debt_threshold)
                    (zip_with ndiv (map Fin exp) (map Fin rev)) = high).
  { rewrite zip_with_Fin, map_zip_with. apply zip_with_ext.
    intros e r. apply ngtb_ndiv. }
  assert (Hlow : lt_mask (zip_with ndiv (map Fin ni) (map Fin rev)) low_margin_threshold
                 = low).
  { unfold lt_mask. rewrite zip_with_Fin, map_zip_with. apply zip_with_ext.
    intros x r. apply nltb_ndiv. }
  rewrite Hhigh, Hlow. cbn [cells]. rewrite masked_CStr.
  repeat split.
Qed.

Lemma count_true_length (mask : list bool) :
  count_true mask = Z.of_nat (List.length (filter (fun b => b) mask)).
Proof. reflexivity. Qed.

Lemma count_orb (a b : list bool) :
  List.length a = List.length b ->
  let n := fun m : list bool => List.length (filter (fun b => b) m) in
  (n a <= n (zip_with orb a b) /\ n b <= n (zip_with orb a b) /\
   n (zip_with orb a b) <= n a + n b /\ n (zip_with orb a b) <= List.length a)%nat.
Proof.
  revert b. induction a as [|x a IH]; intros [|y b]; simpl; try discriminate.
  - lia.
  - intros H. specialize (IH b ltac:(lia)). simpl in IH.
    destruct x, y; simpl; lia.
Qed.

Lemma length_masked {A} (mask : list bool) (vs : list A) :
  List.length mask = List.length vs ->
  List.length (map snd (filter (fun p => fst p) (combine mask vs)))
  = List.length (filter (fun b => b) mask).
Proof.
  revert vs. induction mask as [|b mask IH]; intros [|v vs]; simpl; try discriminate.
  - reflexivity.
  - intros H. destruct b; simpl; rewrite IH by lia; reflexivity.
Qed.

Lemma In_masked {A} (mask : list bool) (vs : list A) (x : A) :
  In x (map snd (filter (fun p => fst p) (combine mask vs))) -> In x vs.
Proof.
  intros H. apply in_map_iff in H as ([b v] & <- & H).
  apply filter_In in H as [H _]. now apply in_combine_r in H.
Qed.

Lemma length_cells (c : column) : List.length (cells c) = col_len c.
Proof. destruct c; simpl; apply length_map. Qed.

(** X13. On a table of [n] rows with the required columns, the amounts being
    numbers of any kind, the two counts are at most [n]; the list of
    companies at risk has at least as many entries as either count and at
    most as many as both together, and every entry is a company of the
    table. *)
Theorem risk_counts_bounds (self : generator) (df : DataFrame) (n : nat)
    (company : column) (rev exp ni : list num) :
  data self = Some df ->
  frame_rows df n ->
  df_get df "Company" = Some company ->
  df_get df "Revenue" = Some (NumCol rev) ->
  df_get df "Expenses" = Some (NumCol exp) ->
  df_get df "Net_Income" = Some (NumCol ni) ->
  exists r self' high low at_risk,
    generate_risk_assessment qsqrt self = (Ok r, self') /\
    dict_get r "high_debt_companies" = Some (PInt (Z.of_nat high)) /\
    dict_get r "low_profit_margin_companies" = Some (PInt (Z.of_nat low)) /\
    dict_get r "companies_at_risk" = Some (PList at_risk) /\
    (high <= n)%nat /\ (low <= n)%nat /\
    (Nat.max high low <= List.length at_risk)%nat /\
    (List.length at_risk <= Nat.min (high + low) n)%nat /\
    (forall c, In c at_risk -> In c (cells company)).
Proof.
  intros Hd Hrows Hc Hr He Hn.
  rewrite (risk_assessment_numeric qsqrt _ Hd Hc Hr He Hn).
  pose proof (frame_rows_col _ Hrows Hc) as Lc.
  pose proof (frame_rows_col _ Hrows Hr) as Lr.
  pose proof (frame_rows_col _ Hrows He) as Le.
  pose proof (frame_rows_col _ Hrows Hn) as Ln.
  cbn [col_len] in Lr, Le, Ln.
  set (high := map (fun x => ngtb x high_debt_threshold) (zip_with ndiv exp rev)).
  set (low := lt_mask (zip_with ndiv ni rev) low_margin_threshold).
  assert (Lh : List.length high = n)
    by (unfold high; rewrite length_map, length_zip_with_eq; congruence).
  assert (Ll : List.length low = n)
    by (unfold low, lt_mask; rewrite length_map, length_zip_with_eq; congruence).
  destruct (count_orb high low ltac:(congruence)) as (B1 & B2 & B3 & B4).
  assert (La : List.length (zip_with orb high low) = n)
    by (rewrite length_zip_with_eq; congruence).
  pose proof (filter_length_le (fun b : bool => b) high) as Bh.
  pose proof (filter_length_le (fun b : bool => b) low) as Bl.
  do 2 eexists.
  exists (List.length (filter (fun b => b) high)),
         (List.length (filter (fun b => b) low)).
  eexists. split; [reflexivity|].
  split; [reflexivity|]. split; [reflexivity|]. split; [reflexivity|].
  rewrite length_masked by (rewrite length_cells; congruence).
  repeat split; try lia.
  intros c. apply In_masked.
Qed.

End RiskFlags.

Lemma risk_flags_at_thresholds :
  exists r self',
    generate_risk_assessment Qsqrt12 (holding threshold_rows) = (Ok r, self') /\
    dict_get r "high_debt_companies" = Some (PInt 3) /\
    dict_get r "low_profit_margin_companies" = Some (PInt 1) /\
    dict_get r "companies_at_risk"
    = Some (PList [CStr "Over"; CStr "NoRevenue"; CStr "Thin"]%string).
Proof.
  apply (@risk_flags_by_row Qsqrt12 (holding threshold_rows) threshold_rows
           ["AtLimit"; "Over"; "NoRevenue"; "Thin"]%string
           [100; 100; 0; 100]%Z [80; 81; 5; 95]%Z [20; 19; -5; 5]%Z);
    try reflexivity.
  repeat (apply Forall_cons || apply Forall_nil); vm_compute; reflexivity.
Defined.

Lemma risk_counts_at_thresholds :
  exists r self' high low at_risk,
    generate_risk_assessment Qsqrt12 (holding threshold_rows) = (Ok r, self') /\
    dict_get r "high_debt_companies" = Some (PInt (Z.of_nat high)) /\
    dict_get r "low_profit_margin_companies" = Some (PInt (Z.of_nat low)) /\
    dict_get r "companies_at_risk" = Some (PList at_risk) /\
    (high <= 4)%nat /\ (low <= 4)%nat /\
    (Nat.max high low <= List.length at_risk)%nat /\
    (List.length at_risk <= Nat.min (high + low) 4)%nat /\
    (forall c, In c at_risk ->
               In c (cells (StrCol ["AtLimit"; "Over"; "NoRevenue"; "Thin"]%string))).
Proof.
  apply (@risk_counts_bounds Qsqrt12 (holding threshold_rows) threshold_rows 4
           (StrCol ["AtLimit"; "Over"; "NoRevenue"; "Thin"]%string)
           (map Fin [100; 100; 0; 100]%Q) (map Fin [80; 81; 5; 95]%Q)
           (map Fin [20; 19; -5; 5]%Q)); try reflexivity.
  repeat constructor.
Defined.

(** ** Loading *)

Lemma rstrip_idem (s : string) : rstrip (rstrip s) = rstrip s.
Proof.
  induction s as [|c s IH]; [reflexivity|].
  cbn [rstrip]. destruct (rstrip s) as [|d u] eqn:E.
  - destruct (is_space c) eqn:Hc; [reflexivity|].
    cbn [rstrip]. now rewrite Hc.
  - change (rstrip (String c (String d u)))
      with (match rstrip (String d u) with
            | EmptyString => if is_space c then EmptyString else String c EmptyString
            | t => String c t
            end).
    now rewrite IH.
Qed.

Lemma lstrip_idem (s : string) : lstrip (lstrip s) = lstrip s.
Proof.
  induction s as [|c s IH]; [reflexivity|].
  cbn [lstrip]. destruct (is_space c) eqn:Hc; [exact IH|].
  cbn [lstrip]. now rewrite Hc.
Qed.

Lemma rstrip_lstrip (t : string) : rstrip t = t -> rstrip (lstrip t) = lstrip t.
Proof.
  induction t as [|c t IH]; [reflexivity|].
  intros H. cbn [lstrip]. destruct (is_space c) eqn:Hc; [|exact H].
  apply IH. cbn [rstrip] in H. rewrite Hc in H.
  destruct (rstrip t) as [|d u]; [discriminate|]. now inversion H.
Qed.

Lemma strip_idem (s : string) : strip (strip s) = strip s.
Proof.
  unfold strip. rewrite (rstrip_lstrip (rstrip_idem s)). apply lstrip_idem.
Qed.

Lemma columns_setitem_present (df : DataFrame) (name : string) (c : column) :
  has_column df name = true -> columns (setitem df name c) = columns df.
Proof.
  unfold has_column, columns.
  induction df as [|[n c'] df IH]; [discriminate|].
  cbn [setitem map fst existsb]. rewrite String.eqb_sym.
  destruct (String.eqb n name) eqn:E.
  - intros _. apply String.eqb_eq in E. now subst.
  - cbn [orb map fst]. intros H. now rewrite IH.
Qed.

Section Loading.

Variable read_csv : string -> string + DataFrame.
Variable to_datetime : column -> string + list Z.

(** X14. On a file whose labels are ASCII text, [load_data] never touches
    the report summary and raises nothing but [Exception] with the prefixed
    message. When it returns, the table returned is the table stored; its
    labels are the labels of the file with the white space around them
    removed, so that stripping them again changes nothing, and every column
    but Date is the column of the file found under the stripped label. When
    the file cannot be read the generator is left as it was; when the Date
    column cannot be converted the table stays stored with its labels
    stripped and its dates unconverted. (Beyond ASCII [str.strip] also
    removes the white space of Unicode, which [strip] leaves in place.) *)
Theorem load_data_outcome (filepath : string) (self : generator) :
  (forall parsed_file,
      read_csv filepath = inr parsed_file ->
      Forall (fun name => ascii_label name = true) (columns parsed_file)) ->
  let stripped := map (fun nc : string * column => (strip (fst nc), snd nc)) in
  let out := load_data read_csv to_datetime filepath self in
  report_summary (snd out) = report_summary self /\
  match fst out with
  | Ok df =>
      data (snd out) = Some df /\
      exists parsed_file,
        read_csv filepath = inr parsed_file /\
        columns df = map strip (columns parsed_file) /\
        Forall (fun name => strip name = name) (columns df) /\
        forall name, name <> "Date"%string ->
                     df_get df name = df_get (stripped parsed_file) name
  | Raise e =>
      exists msg,
        e = Exception ("Error loading data: " ++ msg) /\
        ((read_csv filepath = inl msg /\ snd out = self) \/
         (exists parsed_file date,
             read_csv filepath = inr parsed_file /\
             df_get (stripped parsed_file) "Date" = Some date /\
             to_datetime date = inl msg /\
             data (snd out) = Some (stripped parsed_file)))
  end.
Proof.
  intros _ stripped out. subst out. unfold load_data.
  destruct (read_csv filepath) as [msg|parsed_file] eqn:Hread.
  - cbn [fst snd]. split; [reflexivity|]. exists msg. split; [reflexivity|].
    left. split; reflexivity.
  - fold (stripped parsed_file). set (df := stripped parsed_file).
    assert (Hcols : columns df = map strip (columns parsed_file)).
    { unfold df, stripped, columns. rewrite !map_map. reflexivity. }
    assert (Hfix : Forall (fun name => strip name = name) (columns df)).
    { rewrite Hcols. apply Forall_forall. intros name Hin.
      apply in_map_iff in Hin as (n & <- & _). apply strip_idem. }
    destruct (has_column df "Date") eqn:Hhas.
    + destruct (df_get df "Date") as [date|] eqn:Hdate.
      * destruct (to_datetime date) as [msg|datetimes] eqn:Hconv; cbn [fst snd data report_summary].
        -- split; [reflexivity|]. exists msg. split; [reflexivity|].
           right. exists parsed_file, date. repeat split; assumption || reflexivity.
        -- split; [reflexivity|]. split; [reflexivity|].
           exists parsed_file. split; [reflexivity|].
           rewrite (@columns_setitem_present df "Date" (DateCol datetimes) Hhas).
           repeat split; try assumption.
           intros name Hne. apply df_get_setitem_other. congruence.
      * cbn [fst snd data report_summary]. split; [reflexivity|]. split; [reflexivity|].
        exists parsed_file. repeat split; assumption || reflexivity.
    + cbn [fst snd data report_summary]. split; [reflexivity|]. split; [reflexivity|].
      exists parsed_file. repeat split; assumption || reflexivity.
Qed.

End Loading.

(** ** The narrator on the results of the aggregator *)

Lemma format_f_PNum (grouping : bool) (decimals : nat) (x : num) :
  exists text, format_f grouping decimals (PNum x) = Ok text.
Proof. destruct x; eexists; reflexivity. Qed.

Lemma format_f_PInt (grouping : bool) (decimals : nat) (n : Z) :
  exists text, format_f grouping decimals (PInt n) = Ok text.
Proof. eexists; reflexivity. Qed.

Lemma get_Some (d : dict) (k : string) (default v : pyval) :
  dict_get d k = Some v -> get d k default = v.
Proof. unfold get. now intros ->. Qed.

Lemma dict_get_app_l (d extra : dict) (k : string) (v : pyval) :
  dict_get d k = Some v -> dict_get (d ++ extra)%list k = Some v.
Proof.
  induction d as [|[k' v'] d IH]; [discriminate|].
  cbn [dict_get app]. destruct (String.eqb k' k); auto.
Qed.

Section PrintedReport.

Variable qsqrt : Q -> Q.
Variable repr : pyval -> string.
Variable chat_completion : string -> string -> Z -> Q -> string + string.
Lemma summaries_of_basic_summary (df : DataFrame) (report : dict) :
  basic_summary qsqrt df = Ok report ->
  (exists text, generate_basic_summary repr report = Ok text) /\
  (exists text,
      GPTFinancialAnalyzer.generate_executive_summary repr chat_completion report
      = Ok text).
Proof.
  intros H.
  apply basic_summary_inv in H
    as (company & rev & exp & ni & extra & _ & _ & _ & _ & ->).
  assert (G : forall k v default,
             dict_get (summary_head qsqrt company rev exp ni) k = Some v ->
             get (summary_head qsqrt company rev exp ni ++ extra)%list k default = v).
  { intros k v default Hk. apply get_Some. now apply dict_get_app_l. }
  unfold generate_basic_summary, GPTFinancialAnalyzer.generate_executive_summary.
  rewrite (G "total_revenue"%string _ (PInt 0) eq_refl).
  rewrite (G "total_expenses"%string _ (PInt 0) eq_refl).
  rewrite (G "total_net_income"%string _ (PInt 0) eq_refl).
  rewrite (G "profit_margin_avg"%string _ (PInt 0) eq_refl).
  rewrite (G "average_revenue"%string _ (PInt 0) eq_refl).
  rewrite (G "average_net_income"%string _ (PInt 0) eq_refl).
  rewrite (G "expense_ratio_avg"%string _ (PInt 0) eq_refl).
  destruct (format_f_PNum true 0 (series_sum rev)) as (t1 & ->).
  destruct (format_f_PNum true 0 (series_sum exp)) as (t2 & ->).
  destruct (format_f_PNum true 0 (series_sum ni)) as (t3 & ->).
  destruct (format_f_PNum false 2 (nmul (series_mean (zip_with ndiv ni rev)) hundred))
    as (t4 & ->).
  destruct (format_f_PNum true 0 (series_mean rev)) as (t5 & ->).
  destruct (format_f_PNum true 0 (series_mean ni)) as (t6 & ->).
  destruct (format_f_PNum false 2 (nmul (series_mean (zip_with ndiv exp rev)) hundred))
    as (t7 & ->).
  cbn [rbind gt_int lt_int]. split; [eexists; reflexivity|].
  destruct (chat_completion _ _ _ _); eexists; reflexivity.
Qed.

(** X15. A report that [generate_basic_report] returned can always be
    printed: [generate_basic_summary] returns a text for it, and so does
    [generate_executive_summary], whatever the remote call answers. *)
Theorem basic_report_can_be_summarised (self self' : generator) (report : dict) :
  generate_basic_report qsqrt self = (Ok report, self') ->
  (exists text, generate_basic_summary repr report = Ok text) /\
  (exists text,
      GPTFinancialAnalyzer.generate_executive_summary repr chat_completion report
      = Ok text).
Proof.
  intros H. destruct (data self) as [df|] eqn:Hd;
    [|unfold generate_basic_report in H; rewrite Hd in H; discriminate].
  apply (@generate_basic_report_Ok qsqrt self self' df report Hd) in H.
  exact (@summaries_of_basic_summary df report H).
Qed.

End PrintedReport.

Lemma basic_report_of_two_rows_summarised :
  let report :=
    match fst (generate_basic_report Qsqrt12 (holding two_rows)) with
    | Ok r => r
    | Raise _ => []
    end in
  (exists text, generate_basic_summary no_repr report = Ok text) /\
  (exists text,
      GPTFinancialAnalyzer.generate_executive_summary no_repr offline report = Ok text).
Proof.
  exact (@basic_report_can_be_summarised Qsqrt12 no_repr offline
           (holding two_rows) _ _ eq_refl).
Defined.

Lemma map_result_names (names : list string) :
  map_result GPTFinancialAnalyzer.name_of (map CStr names) = Ok names.
Proof.
  induction names as [|s names IH]; [reflexivity|].
  cbn [map map_result GPTFinancialAnalyzer.name_of rbind]. now rewrite IH.
Qed.

Lemma firstn_map {A B} (f : A -> B) (n : nat) (l : list A) :
  firstn n (map f l) = map f (firstn n l).
Proof.
  revert l. induction n as [|n IH]; intros [|x l]; simpl; try reflexivity.
  now rewrite IH.
Qed.

Lemma masked_head {A B} (f : A -> B) (mask : list bool) (vs : list A) :
  map snd (filter (fun p => fst p) (combine mask (map f vs)))
  = map f (map snd (filter (fun p => fst p) (combine mask vs))).
Proof.
  revert vs. induction mask as [|b mask IH]; intros [|c vs]; simpl;
    try reflexivity.
  destruct b; simpl; now rewrite IH.
Qed.

Lemma map_result_names_inv (l : list cell) (names : list string) :
  map_result GPTFinancialAnalyzer.name_of l = Ok names -> map CStr names = l.
Proof.
  revert names. induction l as [|c l IH]; intros names; cbn [map_result].
  - now inversion 1.
  - destruct c as [x|s|t]; cbn [GPTFinancialAnalyzer.name_of rbind]; try discriminate.
    destruct (map_result _ l) as [ys|] eqn:E; cbn [rbind]; [|discriminate].
    inversion 1. cbn [map]. now rewrite (IH ys eq_refl).
Qed.

Section RiskNarrative.

Variable qsqrt : Q -> Q.
Variable repr : pyval -> string.
Variable chat_completion : string -> string -> Z -> Q -> string + string.
Variable not_subscriptable : pyval -> exn.

Local Abbreviation narrate :=
  (GPTFinancialAnalyzer.generate_risk_assessment repr chat_completion not_subscriptable).

Lemma narrate_names (d : dict) (x : num) (names : list string) :
  dict_get d "average_volatility" = Some (PNum x) ->
  dict_get d "companies_at_risk" = Some (PList (map CStr names)) ->
  exists text, narrate d = Ok text.
Proof.
  intros Hv Hl. unfold GPTFinancialAnalyzer.generate_risk_assessment, get.
  rewrite Hv, Hl. destruct (format_f_PNum false 2 x) as (t & ->).
  cbn [rbind GPTFinancialAnalyzer.join_first_five].
  rewrite firstn_map, map_result_names. cbn [rbind].
  destruct (chat_completion _ _ _ _); eexists; reflexivity.
Qed.

Lemma narrate_other (d : dict) (x : num) (c : cell) (rest : list cell) :
  dict_get d "average_volatility" = Some (PNum x) ->
  dict_get d "companies_at_risk" = Some (PList (c :: rest)) ->
  (forall s, c <> CStr s) ->
  exists msg, narrate d = Raise (TypeError msg).
Proof.
  intros Hv Hl Hc. unfold GPTFinancialAnalyzer.generate_risk_assessment, get.
  rewrite Hv, Hl. destruct (format_f_PNum false 2 x) as (t & ->).
  cbn [rbind GPTFinancialAnalyzer.join_first_five firstn map_result].
  destruct c as [y|s|t']; [| now contradiction (Hc s) |];
    cbn [GPTFinancialAnalyzer.name_of rbind]; eexists; reflexivity.
Qed.

(** X16. The narrator's risk assessment joins the companies at risk as
    strings. On the result of the aggregator's risk assessment it returns a
    text when the Company column holds strings, or when no company is at
    risk; when the Company column holds numbers or dates and some company is
    at risk, it raises TypeError before anything is sent. *)
Theorem risk_narrative_needs_names (self : generator) (df : DataFrame)
    (company : column) (rev exp ni : list num) :
  data self = Some df ->
  df_get df "Company" = Some company ->
  df_get df "Revenue" = Some (NumCol rev) ->
  df_get df "Expenses" = Some (NumCol exp) ->
  df_get df "Net_Income" = Some (NumCol ni) ->
  exists r self' at_risk,
    generate_risk_assessment qsqrt self = (Ok r, self') /\
    dict_get r "companies_at_risk" = Some (PList at_risk) /\
    (at_risk = [] -> exists text, narrate r = Ok text) /\
    match company with
    | StrCol _ => exists text, narrate r = Ok text
    | _ => at_risk <> [] -> exists msg, narrate r = Raise (TypeError msg)
    end.
Proof.
  intros Hd Hc Hr He Hn.
  rewrite (risk_assessment_numeric qsqrt _ Hd Hc Hr He Hn).
  set (mask := zip_with orb _ _).
  do 2 eexists.
  exists (map snd (filter (fun p => fst p) (combine mask (cells company)))).
  split; [reflexivity|]. split; [reflexivity|].
  set (at_risk := map snd (filter (fun p => fst p) (combine mask (cells company)))).
  split.
  - intros E. apply (@narrate_names _ (series_mean (volatility qsqrt ni)) []);
      [reflexivity|]. cbn [dict_get String.eqb Ascii.eqb Bool.eqb andb map].
    now rewrite E.
  - destruct company as [vs|vs|vs]; cbn [cells] in at_risk.
    + intros Hne.
      assert (E : at_risk = map CNum (map snd (filter (fun p => fst p) (combine mask vs))))
        by apply masked_head.
      destruct (map snd (filter (fun p => fst p) (combine mask vs))) as [|x rest];
        [now contradiction Hne|].
      apply (@narrate_other _ (series_mean (volatility qsqrt ni)) (CNum x) (map CNum rest));
        [reflexivity| |discriminate].
      cbn [dict_get String.eqb Ascii.eqb Bool.eqb andb]. now rewrite E.
    + apply (@narrate_names _ (series_mean (volatility qsqrt ni))
               (map snd (filter (fun p => fst p) (combine mask vs)))); [reflexivity|].
      cbn [dict_get String.eqb Ascii.eqb Bool.eqb andb]. do 2 f_equal.
      apply masked_head.
    + intros Hne.
      assert (E : at_risk = map CDate (map snd (filter (fun p => fst p) (combine mask vs))))
        by apply masked_head.
      destruct (map snd (filter (fun p => fst p) (combine mask vs))) as [|x rest];
        [now contradiction Hne|].
      apply (@narrate_other _ (series_mean (volatility qsqrt ni)) (CDate x) (map CDate rest));
        [reflexivity| |discriminate].
      cbn [dict_get String.eqb Ascii.eqb Bool.eqb andb]. now rewrite E.
Qed.

(** X17. The narrator's risk assessment reads at most the first five entries
    of the list of companies at risk: two reports that agree on every other
    key and on these five entries give the same result, and a list of names
    is joined into as many names as it has, five at most. *)
Theorem risk_narrative_reads_five_names :
  (forall (d1 d2 : dict) (l : list cell),
      (forall k, k <> "companies_at_risk"%string -> dict_get d1 k = dict_get d2 k) ->
      dict_get d1 "companies_at_risk" = Some (PList l) ->
      dict_get d2 "companies_at_risk" = Some (PList (firstn 5 l)) ->
      narrate d1 = narrate d2) /\
  (forall (l : list cell) (text : string),
      GPTFinancialAnalyzer.join_first_five not_subscriptable (PList l) = Ok text ->
      exists names,
        text = String.concat ", " names /\
        map CStr names = firstn 5 l).
Proof.
  split.
  - intros d1 d2 l Hk H1 H2.
    unfold GPTFinancialAnalyzer.generate_risk_assessment, get.
    rewrite H1, H2.
    rewrite !(Hk "high_debt_companies"%string), !(Hk "low_profit_margin_companies"%string),
      !(Hk "average_volatility"%string) by discriminate.
    cbn [GPTFinancialAnalyzer.join_first_five]. now rewrite firstn_idem.
  - intros l text. cbn [GPTFinancialAnalyzer.join_first_five].
    destruct (map_result _ _) as [names|] eqn:E; cbn [rbind]; [|discriminate].
    inversion 1. exists names. split; [reflexivity|].
    exact (map_result_names_inv _ E).
Qed.

(** X18. The comprehensive report has one section for each kind of data it
    is given, under fixed titles and in a fixed order, and no section for
    data it is not given. It raises only what the construction of one of the
    prompts raises; a failure of the remote call is never raised. *)
Theorem comprehensive_report_sections (all_data : GPTFinancialAnalyzer.analysis_data) :
  match GPTFinancialAnalyzer.create_comprehensive_report repr chat_completion
          not_subscriptable all_data with
  | Ok report => map fst report = present_titles all_data
  | Raise e =>
      (exists d, GPTFinancialAnalyzer.basic_report all_data = Some d /\
                 GPTFinancialAnalyzer.generate_executive_summary repr chat_completion d
                 = Raise e) \/
      (exists l, GPTFinancialAnalyzer.company_insights all_data = Some l /\
                 company_info repr l = Raise e) \/
      (exists l, GPTFinancialAnalyzer.sector_analysis all_data = Some l /\
                 sector_info repr l = Raise e) \/
      (exists d, GPTFinancialAnalyzer.risk_assessment all_data = Some d /\
                 narrate d = Raise e) \/
      (exists l, GPTFinancialAnalyzer.top_performers all_data = Some l /\
                 performer_info repr l = Raise e)
  end.
Proof.
  destruct all_data as [b c s r t].
  unfold GPTFinancialAnalyzer.create_comprehensive_report, present_titles.
  cbn [GPTFinancialAnalyzer.basic_report GPTFinancialAnalyzer.company_insights
       GPTFinancialAnalyzer.sector_analysis GPTFinancialAnalyzer.risk_assessment
       GPTFinancialAnalyzer.top_performers].
  assert (Hc : forall l e, analyze_company_performance repr chat_completion l = Raise e ->
                           company_info repr l = Raise e).
  { intros l e. unfold analyze_company_performance.
    destruct (company_info repr l); cbn [rbind]; [|congruence].
    destruct (chat_completion _ _ _ _); discriminate. }
  assert (Hs : forall l e, generate_sector_insights repr chat_completion l = Raise e ->
                           sector_info repr l = Raise e).
  { intros l e. unfold generate_sector_insights. destruct l as [|x l]; [discriminate|].
    destruct (sector_info repr (x :: l)); cbn [rbind]; [|congruence].
    destruct (chat_completion _ _ _ _); discriminate. }
  assert (Ht : forall l e,
             generate_investment_recommendations repr chat_completion l = Raise e ->
             performer_info repr l = Raise e).
  { intros l e. unfold generate_investment_recommendations.
    destruct l as [|x l]; [discriminate|].
    destruct (performer_info repr (x :: l)); cbn [rbind]; [|congruence].
    destruct (chat_completion _ _ _ _); discriminate. }
  unfold GPTFinancialAnalyzer.section.
  destruct b as [b|];
    [destruct (GPTFinancialAnalyzer.generate_executive_summary repr chat_completion b)
       as [tb|eb] eqn:Eb; cbn [rbind]; [|left; eauto]|cbn [rbind]];
  (destruct c as [c|];
    [destruct (analyze_company_performance repr chat_completion c)
       as [tc|ec] eqn:Ec; cbn [rbind]; [|right; left; eauto]|cbn [rbind]]);
  (destruct s as [s|];
    [destruct (generate_sector_insights repr chat_completion s)
       as [ts|es] eqn:Es; cbn [rbind]; [|right; right; left; eauto]|cbn [rbind]]);
  (destruct r as [r|];
    [destruct (GPTFinancialAnalyzer.generate_risk_assessment repr chat_completion
                 not_subscriptable r)
       as [tr|er] eqn:Er; cbn [rbind]; [|right; right; right; left; eauto]|cbn [rbind]]);
  (destruct t as [t|];
    [destruct (generate_investment_recommendations repr chat_completion t)
       as [tt|et] eqn:Et; cbn [rbind]; [|right; right; right; right; eauto]|cbn [rbind]]);
  reflexivity.
Qed.

End RiskNarrative.

Lemma risk_narrative_of_numbered_companies :
  exists r self' at_risk,
    generate_risk_assessment Qsqrt12 (holding numbered_companies) = (Ok r, self') /\
    dict_get r "companies_at_risk" = Some (PList at_risk) /\
    (at_risk = [] ->
     exists text,
       GPTFinancialAnalyzer.generate_risk_assessment no_repr echo slice_error r = Ok text) /\
    (at_risk <> [] ->
     exists msg,
       GPTFinancialAnalyzer.generate_risk_assessment no_repr echo slice_error r
       = Raise (TypeError msg)).
Proof.
  exact (@risk_narrative_needs_names Qsqrt12 no_repr echo slice_error
           (holding numbered_companies) numbered_companies
           (NumCol (map Fin [1; 2]%Q)) (map Fin [100; 200]%Q) (map Fin [50; 190]%Q)
           (map Fin [50; 10]%Q) eq_refl eq_refl eq_refl eq_refl eq_refl).
Defined.

Lemma risk_narrative_of_six_names :
  let names := map CStr ["A"; "B"; "C"; "D"; "E"; "F"]%string in
  GPTFinancialAnalyzer.generate_risk_assessment no_repr echo slice_error
    [("companies_at_risk"%string, PList names)]
  = GPTFinancialAnalyzer.generate_risk_assessment no_repr echo slice_error
      [("companies_at_risk"%string, PList (firstn 5 names))].
Proof.
  apply (proj1 (risk_narrative_reads_five_names no_repr echo slice_error)
           [("companies_at_risk"%string, PList (map CStr ["A"; "B"; "C"; "D"; "E"; "F"]%string))]
           [("companies_at_risk"%string,
             PList (firstn 5 (map CStr ["A"; "B"; "C"; "D"; "E"; "F"]%string)))]
           (map CStr ["A"; "B"; "C"; "D"; "E"; "F"]%string)).
  - intros k Hk. cbn [dict_get].
    destruct (String.eqb "companies_at_risk" k) eqn:E; [|reflexivity].
    apply String.eqb_eq in E. congruence.
  - reflexivity.
  - reflexivity.
Defined.

(** ** The integrity checks on a generated report *)

Lemma within_1000_self (x : num) :
  within_1000 (PNum x) (PNum x) = Ok (is_finite x).
Proof.
  unfold within_1000. cbn [operand rbind]. f_equal.
  destruct x as [q| | |]; try reflexivity.
  cbn [nsub nneg nadd nabs nltb of_Z is_finite].
  destruct (Qle_bool _ _) eqn:E; [|reflexivity].
  apply Qle_bool_iff in E. exfalso.
  rewrite Qred_correct in E.
  assert (Z : (Qred (q + Qred (- q)) == 0)%Q).
  { rewrite Qred_correct, Qred_correct. apply Qplus_opp_r. }
  rewrite Z in E. vm_compute in E. now apply E.
Qed.

Section CheckedReport.

Variable qsqrt : Q -> Q.
Variable repr : pyval -> string.

(** X19. The five integrity checks, run on a table and on the basic report
    generated from that same table, never raise. The two checks of the
    totals pass exactly when the total is finite (an infinite total fails
    its check although the report repeats it), the checks of the company
    count and of the numeric types always pass, and the last check passes
    exactly when Company, Revenue and Net_Income hold no missing number. *)
Theorem integrity_checks_on_own_report (self self' : generator) (df : DataFrame)
    (report : dict) (company : column) (rev ni : list num) :
  data self = Some df ->
  df_get df "Company" = Some company ->
  df_get df "Revenue" = Some (NumCol rev) ->
  df_get df "Net_Income" = Some (NumCol ni) ->
  generate_basic_report qsqrt self = (Ok report, self') ->
  exists checks,
    validate_data_integrity repr df report = Ok checks /\
    map passed checks
    = [ is_finite (series_sum rev);
        is_finite (series_sum ni);
        true;
        true;
        (isnull_count company + isnull_count (NumCol rev) + isnull_count (NumCol ni)
         =? 0)%Z ].
Proof.
  intros Hd Hc Hr Hn H.
  apply (@generate_basic_report_Ok qsqrt self self' df report Hd) in H.
  apply basic_summary_inv in H
    as (company' & rev' & exp & ni' & extra & Hc' & Hr' & He & Hn' & ->).
  assert (company' = company) by congruence.
  assert (rev' = rev) by congruence.
  assert (ni' = ni) by congruence. subst.
  assert (G : forall k v default,
             dict_get (summary_head qsqrt company rev exp ni) k = Some v ->
             get (summary_head qsqrt company rev exp ni ++ extra)%list k default = v).
  { intros k v default Hk. apply get_Some. now apply dict_get_app_l. }
  unfold validate_data_integrity, getitems.
  rewrite (getitem_Some _ _ Hr), (getitem_Some _ _ Hn), (getitem_Some _ _ Hc).
  cbn [rbind col_sum].
  rewrite (G "total_revenue"%string _ (PInt 0) eq_refl).
  rewrite (G "total_net_income"%string _ (PInt 0) eq_refl).
  rewrite (G "total_companies"%string _ (PInt 0) eq_refl).
  rewrite !within_1000_self. cbn [rbind].
  destruct (format_f_PNum true 0 (series_sum rev)) as (t1 & ->).
  destruct (format_f_PNum true 0 (series_sum ni)) as (t2 & ->).
  cbn [rbind filter negb].
  rewrite (has_column_Some _ _ Hc), (has_column_Some _ _ Hr), (has_column_Some _ _ Hn).
  rewrite (has_column_Some _ _ He).
  cbn [negb filter map_result rbind forallb].
  rewrite (getitem_Some _ _ Hr), (getitem_Some _ _ Hn), (getitem_Some _ _ Hc).
  rewrite Hr, Hn, He.
  cbn [rbind is_numeric_dtype andb map fold_right passed int_eq].
  eexists. split; [reflexivity|].
  cbn [map passed]. rewrite Z.eqb_refl, Z.add_0_r, Z.add_assoc. reflexivity.
Qed.

End CheckedReport.

Lemma integrity_checks_on_two_rows :
  exists checks,
    validate_data_integrity no_repr two_rows
      (match fst (generate_basic_report Qsqrt12 (holding two_rows)) with
       | Ok r => r
       | Raise _ => []
       end) = Ok checks /\
    map passed checks = [true; true; true; true; true].
Proof.
  exact (@integrity_checks_on_own_report Qsqrt12 no_repr (holding two_rows) _ two_rows _
           (StrCol ["A"; "B"]%string) (map Fin [100; 200]%Q) (map Fin [10; 100]%Q)
           eq_refl eq_refl eq_refl eq_refl eq_refl).
Defined.

(** ** From the aggregator's tables to the narrator's prompts *)

Lemma dict_get_set_same (d : dict) (k : string) (v : pyval) :
  dict_get (dict_set d k v) k = Some v.
Proof.
  induction d as [|[k' v'] d IH]; cbn [dict_set dict_get].
  - now rewrite String.eqb_refl.
  - destruct (String.eqb k' k) eqn:E; cbn [dict_get]; now rewrite E.
Qed.

Lemma dict_get_set_other (d : dict) (k k' : string) (v : pyval) :
  k' <> k -> dict_get (dict_set d k' v) k = dict_get d k.
Proof.
  intros Hne. induction d as [|[k0 v0] d IH]; cbn [dict_set dict_get].
  - destruct (String.eqb k' k) eqn:E; [|reflexivity].
    apply String.eqb_eq in E. contradiction.
  - destruct (String.eqb k0 k') eqn:E; cbn [dict_get].
    + apply String.eqb_eq in E. subst k0.
      destruct (String.eqb k' k) eqn:E'; [|reflexivity].
      apply String.eqb_eq in E'. contradiction.
    + destruct (String.eqb k0 k); [reflexivity | exact IH].
Qed.

Lemma record_at_numeric (df : DataFrame) (k : string) (i : nat) :
  numeric_named df k = true -> numeric_or_absent (record_at df i) k.
Proof.
  unfold record_at.
  assert (G : forall d0, numeric_or_absent d0 k -> numeric_named df k = true ->
                         numeric_or_absent
                           (fold_left (fun d (nc : string * column) =>
                                         match nth_error (cells (snd nc)) i with
                                         | Some c => dict_set d (fst nc) (pyval_of_cell c)
                                         | None => d
                                         end) df d0) k).
  { induction df as [|[n c] df IH]; intros d0 H0 Hall; [exact H0|].
    cbn [fold_left fst snd]. cbn [numeric_named forallb fst snd] in Hall.
    apply andb_prop in Hall as [Hnc Hall]. apply IH; [|exact Hall].
    destruct (nth_error (cells c) i) as [x|] eqn:Ex; [|exact H0].
    unfold numeric_or_absent.
    destruct (String.eqb n k) eqn:E.
    - apply String.eqb_eq in E. subst n. rewrite dict_get_set_same.
      cbn [negb orb] in Hnc. destruct c as [vs|vs|vs]; try discriminate.
      cbn [cells] in Ex. apply nth_error_In, in_map_iff in Ex as (y & <- & _).
      exact I.
    - rewrite dict_get_set_other; [exact H0|].
      intros ->. rewrite String.eqb_refl in E. discriminate. }
  intros H. apply G; [exact I | exact H].
Qed.

Lemma format_f_numeric (d : dict) (k : string) (grouping : bool) (decimals : nat) :
  numeric_or_absent d k ->
  exists text, format_f grouping decimals (get d k (PInt 0)) = Ok text.
Proof.
  unfold numeric_or_absent, get. destruct (dict_get d k) as [[x|n|s|t|l]|];
    try contradiction; intros _.
  - apply format_f_PNum.
  - apply format_f_PInt.
Qed.

Lemma map_result_Ok {A B} (f : A -> result B) (l : list A) :
  (forall x, In x l -> exists y, f x = Ok y) -> exists ys, map_result f l = Ok ys.
Proof.
  induction l as [|x l IH]; intros H; [eexists; reflexivity|].
  destruct (H x (or_introl eq_refl)) as (y & Hy).
  destruct IH as (ys & Hys); [intros z Hz; apply H; now right|].
  exists (y :: ys). cbn [map_result]. rewrite Hy. cbn [rbind]. now rewrite Hys.
Qed.

Lemma In_firstn {A} (n : nat) (l : list A) (x : A) : In x (firstn n l) -> In x l.
Proof.
  revert l. induction n as [|n IH]; intros [|y l]; cbn [firstn In]; try tauto.
  intros [H|H]; auto.
Qed.

Lemma In_to_records (df : DataFrame) (r : dict) :
  In r (to_records df) -> exists i, r = record_at df i.
Proof.
  unfold to_records. intros H. apply in_map_iff in H as (i & <- & _). now exists i.
Qed.

Section Records.

Variable qsqrt : Q -> Q.
Variable repr : pyval -> string.
Variable chat_completion : string -> string -> Z -> Q -> string + string.
Variable not_subscriptable : pyval -> exn.

Lemma company_records_narrated (ci : DataFrame) :
  numeric_named ci "Revenue_sum" = true ->
  numeric_named ci "Net_Income_sum" = true ->
  numeric_named ci "Profit_Margin" = true ->
  exists text, analyze_company_performance repr chat_completion (to_records ci) = Ok text.
Proof.
  intros H1 H2 H3. unfold analyze_company_performance, company_info.
  destruct (@map_result_Ok _ _ (company_line repr) (firstn 10 (to_records ci)))
    as (lines & ->).
  { intros r Hr. apply In_firstn, In_to_records in Hr as (i & ->).
    unfold company_line.
    destruct (@format_f_numeric (record_at ci i) "Revenue_sum" true 0
                (@record_at_numeric ci "Revenue_sum" i H1))
      as (t1 & ->).
    destruct (@format_f_numeric (record_at ci i) "Net_Income_sum" true 0
                (@record_at_numeric ci "Net_Income_sum" i H2))
      as (t2 & ->).
    destruct (@format_f_numeric (record_at ci i) "Profit_Margin" false 1
                (@record_at_numeric ci "Profit_Margin" i H3))
      as (t3 & ->).
    cbn [rbind]. eexists; reflexivity. }
  cbn [rbind]. destruct (chat_completion _ _ _ _); eexists; reflexivity.
Qed.

Lemma sector_records_narrated (sa : DataFrame) :
  numeric_named sa "Revenue_sum" = true ->
  numeric_named sa "Avg_Profit_Margin" = true ->
  exists text, generate_sector_insights repr chat_completion (to_records sa) = Ok text.
Proof.
  intros H1 H2. unfold generate_sector_insights, sector_info.
  destruct (to_records sa) as [|r0 rest] eqn:E; [eexists; reflexivity|].
  rewrite <- E.
  destruct (@map_result_Ok _ _ (sector_line repr) (to_records sa)) as (lines & ->).
  { intros r Hr. apply In_to_records in Hr as (i & ->).
    unfold sector_line.
    destruct (@format_f_numeric (record_at sa i) "Revenue_sum" true 0
                (@record_at_numeric sa "Revenue_sum" i H1))
      as (t1 & ->).
    destruct (@format_f_numeric (record_at sa i) "Avg_Profit_Margin" false 1
                (@record_at_numeric sa "Avg_Profit_Margin" i H2))
      as (t2 & ->).
    cbn [rbind]. eexists; reflexivity. }
  cbn [rbind]. destruct (chat_completion _ _ _ _); eexists; reflexivity.
Qed.

Lemma performer_records_narrated (tp : DataFrame) :
  numeric_named tp "Revenue" = true ->
  numeric_named tp "Net_Income" = true ->
  numeric_named tp "Profit_Margin" = true ->
  exists text,
    generate_investment_recommendations repr chat_completion (to_records tp) = Ok text.
Proof.
  intros H1 H2 H3. unfold generate_investment_recommendations, performer_info.
  destruct (to_records tp) as [|r0 rest] eqn:E; [eexists; reflexivity|].
  rewrite <- E.
  destruct (@map_result_Ok _ _ (performer_line repr) (firstn 5 (to_records tp)))
    as (lines & ->).
  { intros r Hr. apply In_firstn, In_to_records in Hr as (i & ->).
    unfold performer_line.
    destruct (@format_f_numeric (record_at tp i) "Revenue" true 0
                (@record_at_numeric tp "Revenue" i H1))
      as (t1 & ->).
    destruct (@format_f_numeric (record_at tp i) "Net_Income" true 0
                (@record_at_numeric tp "Net_Income" i H2))
      as (t2 & ->).
    destruct (@format_f_numeric (record_at tp i) "Profit_Margin" false 1
                (@record_at_numeric tp "Profit_Margin" i H3))
      as (t3 & ->).
    cbn [rbind]. eexists; reflexivity. }
  cbn [rbind]. destruct (chat_completion _ _ _ _); eexists; reflexivity.
Qed.

Lemma company_insights_narrated (df : DataFrame) (company : column)
    (rev exp ni mc : list num) :
  df_get df "Company" = Some company ->
  df_get df "Revenue" = Some (NumCol rev) ->
  df_get df "Expenses" = Some (NumCol exp) ->
  df_get df "Net_Income" = Some (NumCol ni) ->
  df_get df "Market_Cap" = Some (NumCol mc) ->
  exists ci text,
    company_insights df = Ok ci /\
    analyze_company_performance repr chat_completion (to_records ci) = Ok text.
Proof.
  intros Hc Hr He Hn Hm.
  pose proof (company_insights_numeric df Hc Hr He Hn Hm) as H. cbv zeta in H.
  rewrite H. eexists.
  edestruct company_records_narrated as (text & Ht);
    [| | | exists text; split; [reflexivity | exact Ht]]; reflexivity.
Qed.

Lemma sector_analysis_narrated (df : DataFrame) (sector : column)
    (rev ni mc : list num) :
  df_get df "Sector" = Some sector ->
  df_get df "Revenue" = Some (NumCol rev) ->
  df_get df "Net_Income" = Some (NumCol ni) ->
  df_get df "Market_Cap" = Some (NumCol mc) ->
  exists sa text,
    sector_analysis df = Ok sa /\
    generate_sector_insights repr chat_completion (to_records sa) = Ok text.
Proof.
  intros Hs Hr Hn Hm.
  pose proof (sector_analysis_numeric df Hs Hr Hn Hm) as H. cbv zeta in H.
  rewrite H. eexists.
  edestruct sector_records_narrated as (text & Ht);
    [| | exists text; split; [reflexivity | exact Ht]]; reflexivity.
Qed.

Lemma top_performers_narrated (df : DataFrame) (metric : string) (top_n : Z)
    (m company expenses sector : column) (rev ni : list num) :
  df_get df metric = Some m ->
  (forall vs, m <> StrCol vs) ->
  df_get df "Company" = Some company ->
  df_get df "Revenue" = Some (NumCol rev) ->
  df_get df "Expenses" = Some expenses ->
  df_get df "Net_Income" = Some (NumCol ni) ->
  df_get df "Sector" = Some sector ->
  exists tp text,
    top_performers df metric top_n = Ok tp /\
    generate_investment_recommendations repr chat_completion (to_records tp) = Ok text.
Proof.
  intros Hm Hnot Hc Hr He Hn Hs.
  pose proof (@top_performers_numeric df metric top_n m company expenses sector rev ni
                Hm Hnot Hc Hr He Hn Hs) as H. cbv zeta in H.
  rewrite H. eexists.
  edestruct performer_records_narrated as (text & Ht);
    [| | | exists text; split; [reflexivity | exact Ht]]; reflexivity.
Qed.

(** X20. The tables of the aggregator, turned into records, are accepted by
    the narrator. On a table with numeric Revenue, Expenses, Net_Income and
    Market_Cap and a Sector column, the company analysis, the sector
    insights and the investment recommendations (for a metric that is not a
    column of strings) each return a text for the records of the table the
    corresponding method returns, whatever the Company and Sector columns
    hold and whatever the remote call answers. *)
Theorem narrator_accepts_aggregator_tables (self : generator) (df : DataFrame)
    (company sector : column) (rev exp ni mc : list num) :
  data self = Some df ->
  df_get df "Company" = Some company ->
  df_get df "Revenue" = Some (NumCol rev) ->
  df_get df "Expenses" = Some (NumCol exp) ->
  df_get df "Net_Income" = Some (NumCol ni) ->
  df_get df "Market_Cap" = Some (NumCol mc) ->
  df_get df "Sector" = Some sector ->
  (exists ci text,
      fst (get_company_insights self) = Ok ci /\
      analyze_company_performance repr chat_completion (to_records ci) = Ok text) /\
  (exists sa text,
      fst (get_sector_analysis self) = Ok sa /\
      generate_sector_insights repr chat_completion (to_records sa) = Ok text) /\
  (forall metric top_n m,
      df_get df metric = Some m ->
      (forall vs, m <> StrCol vs) ->
      exists tp text,
        fst (identify_top_performers metric top_n self) = Ok tp /\
        generate_investment_recommendations repr chat_completion (to_records tp)
        = Ok text).
Proof.
  intros Hd Hc Hr He Hn Hm Hs.
  unfold get_company_insights, get_sector_analysis, identify_top_performers.
  rewrite Hd, (has_column_Some _ _ Hs). cbn [negb fst].
  split; [eapply company_insights_narrated; eassumption|].
  split; [eapply sector_analysis_narrated; eassumption|].
  intros metric top_n m Hmet Hnot.
  exact (@top_performers_narrated df metric top_n m company (NumCol exp) sector rev ni
           Hmet Hnot Hc Hr He Hn Hs).
Qed.

Lemma comprehensive_report_Ok (all_data : GPTFinancialAnalyzer.analysis_data) :
  (forall d, GPTFinancialAnalyzer.basic_report all_data = Some d ->
             exists text,
               GPTFinancialAnalyzer.generate_executive_summary repr chat_completion d
               = Ok text) ->
  (forall l, GPTFinancialAnalyzer.company_insights all_data = Some l ->
             exists text, analyze_company_performance repr chat_completion l = Ok text) ->
  (forall l, GPTFinancialAnalyzer.sector_analysis all_data = Some l ->
             exists text, generate_sector_insights repr chat_completion l = Ok text) ->
  (forall d, GPTFinancialAnalyzer.risk_assessment all_data = Some d ->
             exists text,
               GPTFinancialAnalyzer.generate_risk_assessment repr chat_completion
                 not_subscriptable d = Ok text) ->
  (forall l, GPTFinancialAnalyzer.top_performers all_data = Some l ->
             exists text,
               generate_investment_recommendations repr chat_completion l = Ok text) ->
  exists sections,
    GPTFinancialAnalyzer.create_comprehensive_report repr chat_completion
      not_subscriptable all_data = Ok sections /\
    map fst sections = present_titles all_data.
Proof.
  destruct all_data as [b c s r t].
  cbn [GPTFinancialAnalyzer.basic_report GPTFinancialAnalyzer.company_insights
       GPTFinancialAnalyzer.sector_analysis GPTFinancialAnalyzer.risk_assessment
       GPTFinancialAnalyzer.top_performers].
  intros Hb Hc Hs Hr Ht.
  unfold GPTFinancialAnalyzer.create_comprehensive_report, present_titles,
    GPTFinancialAnalyzer.section.
  cbn [GPTFinancialAnalyzer.basic_report GPTFinancialAnalyzer.company_insights
       GPTFinancialAnalyzer.sector_analysis GPTFinancialAnalyzer.risk_assessment
       GPTFinancialAnalyzer.top_performers].
  destruct b as [b|]; [destruct (Hb b eq_refl) as (tb & ->)|]; cbn [rbind];
  (destruct c as [c|]; [destruct (Hc c eq_refl) as (tc & ->)|]; cbn [rbind]);
  (destruct s as [s|]; [destruct (Hs s eq_refl) as (ts & ->)|]; cbn [rbind]);
  (destruct r as [r|]; [destruct (Hr r eq_refl) as (tr & ->)|]; cbn [rbind]);
  (destruct t as [t|]; [destruct (Ht t eq_refl) as (tt & ->)|]; cbn [rbind]);
  eexists; split; reflexivity.
Qed.

(** X21. The calls that app.py makes for its narrated report with the risk
    assessment and the sector analysis switched on (lines 171, 206, 289, 333
    and 338, then 324-342), on a generator holding a table with named
    companies, numeric Revenue, Expenses, Net_Income and Market_Cap and a
    Sector column: every method of the aggregator returns, and the
    comprehensive report built from the results is returned with a section
    for each of them (the sector insights only when the sector table has a
    row), whatever the remote call answers. *)
Theorem comprehensive_report_of_table (self : generator) (df : DataFrame)
    (companies : list string) (sector : column) (rev exp ni mc : list num) :
  data self = Some df ->
  df_get df "Company" = Some (StrCol companies) ->
  df_get df "Revenue" = Some (NumCol rev) ->
  df_get df "Expenses" = Some (NumCol exp) ->
  df_get df "Net_Income" = Some (NumCol ni) ->
  df_get df "Market_Cap" = Some (NumCol mc) ->
  df_get df "Sector" = Some sector ->
  let s1 := snd (generate_basic_report qsqrt self) in
  let s2 := snd (get_company_insights s1) in
  let s3 := snd (generate_risk_assessment qsqrt s2) in
  let s4 := snd (get_sector_analysis s3) in
  exists report ci r sa tp sections,
    fst (generate_basic_report qsqrt self) = Ok report /\
    fst (get_company_insights s1) = Ok ci /\
    fst (generate_risk_assessment qsqrt s2) = Ok r /\
    fst (get_sector_analysis s3) = Ok sa /\
    fst (identify_top_performers "Net_Income" 5 s4) = Ok tp /\
    let all_data :=
      {| GPTFinancialAnalyzer.basic_report := Some report;
         GPTFinancialAnalyzer.company_insights := Some (to_records ci);
         GPTFinancialAnalyzer.sector_analysis :=
           match to_records sa with [] => None | l => Some l end;
         GPTFinancialAnalyzer.risk_assessment := Some r;
         GPTFinancialAnalyzer.top_performers := Some (to_records tp) |} in
    GPTFinancialAnalyzer.create_comprehensive_report repr chat_completion
      not_subscriptable all_data = Ok sections /\
    map fst sections = present_titles all_data.
Proof.
  intros Hd Hc Hr He Hn Hm Hs.
  assert (Hcap : market_cap_numeric df) by (unfold market_cap_numeric; now rewrite Hm).
  destruct (@basic_summary_numeric qsqrt df (StrCol companies) rev exp ni Hc Hr He Hn Hcap)
    as (extra & Hb).
  set (report := (summary_head qsqrt (StrCol companies) rev exp ni ++ extra)%list) in *.
  set (s1 := {| data := Some df; report_summary := report |}).
  assert (E1 : generate_basic_report qsqrt self = (Ok report, s1))
    by (unfold generate_basic_report; now rewrite Hd, Hb).
  assert (Hd1 : data s1 = Some df) by reflexivity.
  destruct (@company_insights_narrated df (StrCol companies) rev exp ni mc Hc Hr He Hn Hm)
    as (ci & tc & Hci & Htc).
  assert (E2 : get_company_insights s1 = (Ok ci, s1))
    by (unfold get_company_insights; now rewrite Hd1, Hci).
  pose proof (risk_assessment_numeric qsqrt _ Hd1 Hc Hr He Hn) as E3. cbv zeta in E3.
  set (r := [ ("high_debt_companies"%string, _); _; _; _ ]) in E3.
  set (df2 := setitem (setitem df _ _) _ _) in E3.
  set (s3 := {| data := Some df2; report_summary := _ |}) in E3.
  assert (Hsame : forall name, name <> "Debt_to_Revenue"%string ->
                               name <> "Volatility_Score"%string ->
                               df_get df2 name = df_get df name).
  { intros name H1 H2. unfold df2.
    rewrite !df_get_setitem_other by congruence. reflexivity. }
  assert (Hc2 : df_get df2 "Company" = Some (StrCol companies))
    by (rewrite Hsame by discriminate; exact Hc).
  assert (Hr2 : df_get df2 "Revenue" = Some (NumCol rev))
    by (rewrite Hsame by discriminate; exact Hr).
  assert (He2 : df_get df2 "Expenses" = Some (NumCol exp))
    by (rewrite Hsame by discriminate; exact He).
  assert (Hn2 : df_get df2 "Net_Income" = Some (NumCol ni))
    by (rewrite Hsame by discriminate; exact Hn).
  assert (Hm2 : df_get df2 "Market_Cap" = Some (NumCol mc))
    by (rewrite Hsame by discriminate; exact Hm).
  assert (Hs2 : df_get df2 "Sector" = Some sector)
    by (rewrite Hsame by discriminate; exact Hs).
  destruct (@sector_analysis_narrated df2 sector rev ni mc Hs2 Hr2 Hn2 Hm2)
    as (sa & ts & Hsa & Hts).
  assert (E4 : get_sector_analysis s3 = (Ok sa, s3)).
  { unfold get_sector_analysis. cbn [data s3].
    now rewrite (has_column_Some _ _ Hs2), Hsa. }
  destruct (@top_performers_narrated df2 "Net_Income" 5 (NumCol ni) (StrCol companies)
              (NumCol exp) sector rev ni Hn2 ltac:(discriminate) Hc2 Hr2 He2 Hn2 Hs2)
    as (tp & tt & Htp & Htt).
  assert (E5 : identify_top_performers "Net_Income" 5 s3 = (Ok tp, s3)).
  { unfold identify_top_performers. cbn [data s3]. now rewrite Htp. }
  cbv zeta. rewrite E1. cbn [fst snd]. rewrite E2. cbn [fst snd].
  rewrite E3. cbn [fst snd]. rewrite E4. cbn [fst snd]. rewrite E5. cbn [fst snd].
  exists report, ci, r, sa, tp.
  cbv zeta.
  edestruct comprehensive_report_Ok as (sections & Hsec & Htitles);
    [| | | | | exists sections; repeat split; [exact Hsec | exact Htitles]].
  - cbn [GPTFinancialAnalyzer.basic_report]. intros d [= <-].
    exact (proj2 (@summaries_of_basic_summary qsqrt repr chat_completion df report Hb)).
  - cbn [GPTFinancialAnalyzer.company_insights]. intros l [= <-]. now exists tc.
  - cbn [GPTFinancialAnalyzer.sector_analysis]. intros l Hl.
    destruct (to_records sa) as [|r0 rest] eqn:E; [discriminate|].
    injection Hl as <-. now exists ts.
  - cbn [GPTFinancialAnalyzer.risk_assessment]. intros d [= <-].
    apply (@narrate_names repr chat_completion not_subscriptable _
             (series_mean (volatility qsqrt ni))
             (map snd (filter (fun p => fst p)
                         (combine
                            (zip_with orb
                               (map (fun x => ngtb x high_debt_threshold)
                                  (zip_with ndiv exp rev))
                               (lt_mask (zip_with ndiv ni rev) low_margin_threshold))
                            companies)))); [reflexivity|].
    unfold r. cbn [dict_get String.eqb Ascii.eqb Bool.eqb andb cells]. do 2 f_equal.
    apply masked_head.
  - cbn [GPTFinancialAnalyzer.top_performers]. intros l [= <-]. now exists tt.
Qed.

End Records.

Lemma narration_of_full_table :
  (exists ci text,
      fst (get_company_insights (holding full_table)) = Ok ci /\
      analyze_company_performance no_repr offline (to_records ci) = Ok text) /\
  (exists sa text,
      fst (get_sector_analysis (holding full_table)) = Ok sa /\
      generate_sector_insights no_repr offline (to_records sa) = Ok text) /\
  (exists tp text,
      fst (identify_top_performers "Net_Income" 5 (holding full_table)) = Ok tp /\
      generate_investment_recommendations no_repr offline (to_records tp) = Ok text).
Proof.
  destruct (@narrator_accepts_aggregator_tables no_repr offline
              (holding full_table) full_table
              (StrCol ["A"; "B"]%string) (StrCol ["Retail"; "Energy"]%string)
              (map Fin [100; 200]%Q) (map Fin [90; 100]%Q) (map Fin [10; 100]%Q)
              (map Fin [1000; 3000]%Q)
              eq_refl eq_refl eq_refl eq_refl eq_refl eq_refl eq_refl)
    as (H1 & H2 & H3).
  split; [exact H1|]. split; [exact H2|].
  apply (H3 "Net_Income"%string 5%Z (NumCol (map Fin [10; 100]%Q)));
    [reflexivity | discriminate].
Defined.

Lemma comprehensive_report_of_full_table :
  let self := holding full_table in
  let s1 := snd (generate_basic_report Qsqrt12 self) in
  let s2 := snd (get_company_insights s1) in
  let s3 := snd (generate_risk_assessment Qsqrt12 s2) in
  let s4 := snd (get_sector_analysis s3) in
  exists report ci r sa tp sections,
    fst (generate_basic_report Qsqrt12 self) = Ok report /\
    fst (get_company_insights s1) = Ok ci /\
    fst (generate_risk_assessment Qsqrt12 s2) = Ok r /\
    fst (get_sector_analysis s3) = Ok sa /\
    fst (identify_top_performers "Net_Income" 5 s4) = Ok tp /\
    let all_data :=
      {| GPTFinancialAnalyzer.basic_report := Some report;
         GPTFinancialAnalyzer.company_insights := Some (to_records ci);
         GPTFinancialAnalyzer.sector_analysis :=
           match to_records sa with [] => None | l => Some l end;
         GPTFinancialAnalyzer.risk_assessment := Some r;
         GPTFinancialAnalyzer.top_performers := Some (to_records tp) |} in
    GPTFinancialAnalyzer.create_comprehensive_report no_repr offline slice_error all_data
    = Ok sections /\
    map fst sections = present_titles all_data.
Proof.
  exact (@comprehensive_report_of_table Qsqrt12 no_repr offline slice_error
           (holding full_table) full_table
           ["A"; "B"]%string (StrCol ["Retail"; "Energy"]%string)
           (map Fin [100; 200]%Q) (map Fin [90; 100]%Q) (map Fin [10; 100]%Q)
           (map Fin [1000; 3000]%Q)
           eq_refl eq_refl eq_refl eq_refl eq_refl eq_refl eq_refl).
Defined.

(** ** What each method writes *)

Section Frame.

Variable qsqrt : Q -> Q.

(** X22. Of the five methods that read the stored table, only
    [generate_basic_report] writes the stored summary and only
    [generate_risk_assessment] writes the stored table. The insights, the
    sector analysis and the ranking leave the generator as it is; the risk
    assessment keeps the summary; the basic report keeps the table, stores
    the summary it returns, and stores nothing when it raises. *)
Theorem methods_write_only_their_own (self : generator) :
  snd (get_company_insights self) = self /\
  snd (get_sector_analysis self) = self /\
  (forall metric top_n, snd (identify_top_performers metric top_n self) = self) /\
  report_summary (snd (generate_risk_assessment qsqrt self)) = report_summary self /\
  data (snd (generate_basic_report qsqrt self)) = data self /\
  match fst (generate_basic_report qsqrt self) with
  | Ok report => report_summary (snd (generate_basic_report qsqrt self)) = report
  | Raise _ => snd (generate_basic_report qsqrt self) = self
  end.
Proof.
  unfold get_company_insights, get_sector_analysis, identify_top_performers,
    generate_risk_assessment, generate_basic_report.
  destruct (data self) as [df|] eqn:Hd; cbn [fst snd].
  2: { repeat split; auto. }
  repeat split.
  - destruct (negb (has_column df "Sector")); reflexivity.
  - destruct (debt_to_revenue df) as [debt|]; [|reflexivity].
    destruct (volatility_score qsqrt _) as [v|]; reflexivity.
  - destruct (basic_summary qsqrt df); [reflexivity | exact Hd].
  - destruct (basic_summary qsqrt df); reflexivity.
Qed.

Ltac unbind H x E :=
  apply rbind_Ok in H; destruct H as (x & E & H); cbv beta zeta in H.

(** X23. A report that [generate_basic_report] returns has the ten keys of
    the summary in the order they are written, followed by the three keys of
    the market capitalisation exactly when the table has a Market_Cap
    column; none of the fields that the test harness requires is missing. *)
Theorem basic_report_keys (self self' : generator) (df : DataFrame) (report : dict) :
  data self = Some df ->
  generate_basic_report qsqrt self = (Ok report, self') ->
  map fst report
  = ([ "total_companies"; "total_revenue"; "total_expenses"; "total_net_income";
       "average_revenue"; "average_expenses"; "average_net_income"; "revenue_std";
       "profit_margin_avg"; "expense_ratio_avg" ]
     ++ (if has_column df "Market_Cap"
         then [ "total_market_cap"; "average_market_cap"; "market_cap_std" ]
         else []))%list%string /\
  Forall (fun field => dict_get report field <> None)
    [ "total_companies"; "total_revenue"; "total_net_income"; "profit_margin_avg" ]%string.
Proof.
  intros Hd H.
  apply (@generate_basic_report_Ok qsqrt self self' df report Hd) in H.
  assert (Keys : map fst report
                 = ([ "total_companies"; "total_revenue"; "total_expenses";
                      "total_net_income"; "average_revenue"; "average_expenses";
                      "average_net_income"; "revenue_std"; "profit_margin_avg";
                      "expense_ratio_avg" ]
                    ++ (if has_column df "Market_Cap"
                        then [ "total_market_cap"; "average_market_cap"; "market_cap_std" ]
                        else []))%list%string).
  { unfold basic_summary in H.
    unbind H company Ec. unbind H revenue Er. unbind H tr Etr.
    unbind H expenses Ee. unbind H te Ete.
    unbind H net_income En. unbind H tn Etn.
    unbind H ar Ear. unbind H ae Eae. unbind H an Ean.
    unbind H sr Esr. unbind H margins Em. unbind H ratios Era.
    destruct (has_column df "Market_Cap").
    - unbind H mc Emc. unbind H tm Etm. unbind H am Eam. unbind H sm Esm.
      inversion H; subst. reflexivity.
    - inversion H; subst. reflexivity. }
  split; [exact Keys|].
  apply basic_summary_inv in H
    as (company & rev & exp & ni & extra & _ & _ & _ & _ & ->).
  repeat (apply Forall_cons || apply Forall_nil);
    (erewrite dict_get_app_l by reflexivity; discriminate).
Qed.

End Frame.

Lemma basic_report_keys_full_table :
  let report :=
    match fst (generate_basic_report Qsqrt12 (holding full_table)) with
    | Ok r => r
    | Raise _ => []
    end in
  map fst report
  = [ "total_companies"; "total_revenue"; "total_expenses"; "total_net_income";
      "average_revenue"; "average_expenses"; "average_net_income"; "revenue_std";
      "profit_margin_avg"; "expense_ratio_avg";
      "total_market_cap"; "average_market_cap"; "market_cap_std" ]%string /\
  Forall (fun field => dict_get report field <> None)
    [ "total_companies"; "total_revenue"; "total_net_income"; "profit_margin_avg" ]%string.
Proof.
  exact (@basic_report_keys Qsqrt12 (holding full_table) _ full_table _ eq_refl eq_refl).
Defined.

Lemma load_data_of_padded_file :
  exists df,
    load_data read_padded parse_dates "data.csv" init
    = (Ok df, {| data := Some df; report_summary := [] |}) /\
    columns df = ["Company"; "Date"; "Revenue"]%string /\
    Forall (fun name => strip name = name) (columns df).
Proof.
  assert (Hascii : forall parsed_file,
             read_padded "data.csv" = inr parsed_file ->
             Forall (fun name => ascii_label name = true) (columns parsed_file)).
  { intros parsed_file Hread. injection Hread as <-.
    repeat (apply Forall_cons || apply Forall_nil); reflexivity. }
  pose proof (@load_data_outcome read_padded parse_dates "data.csv" init Hascii) as H.
  cbv zeta in H.
  destruct (load_data read_padded parse_dates "data.csv" init) as [[df|e] self'] eqn:E;
    [|discriminate E].
  cbn [fst snd] in H.
  destruct H as (Hsum & Hdata & parsed_file & Hread & Hcols & Hfix & _).
  exists df. split.
  { destruct self' as [d rs]. cbn [data report_summary init] in Hsum, Hdata.
    now subst. }
  split; [|exact Hfix].
  rewrite Hcols. injection Hread as <-. reflexivity.
Defined.

Lemma comprehensive_report_of_two_sections :
  match GPTFinancialAnalyzer.create_comprehensive_report no_repr offline slice_error
          {| GPTFinancialAnalyzer.basic_report := Some [];
             GPTFinancialAnalyzer.company_insights := None;
             GPTFinancialAnalyzer.sector_analysis := None;
             GPTFinancialAnalyzer.risk_assessment := None;
             GPTFinancialAnalyzer.top_performers := Some [] |} with
  | Ok report => map fst report = ["executive_summary"; "investment_recommendations"]%string
  | Raise _ => False
  end.
Proof.
  pose proof (comprehensive_report_sections no_repr offline slice_error
                {| GPTFinancialAnalyzer.basic_report := Some [];
                   GPTFinancialAnalyzer.company_insights := None;
                   GPTFinancialAnalyzer.sector_analysis := None;
                   GPTFinancialAnalyzer.risk_assessment := None;
                   GPTFinancialAnalyzer.top_performers := Some [] |}) as H.
  exact H.
Defined.

Lemma methods_write_only_their_own_two_rows :
  snd (get_company_insights (holding two_rows)) = holding two_rows /\
  report_summary (snd (generate_risk_assessment Qsqrt12 (holding two_rows))) = [] /\
  data (snd (generate_basic_report Qsqrt12 (holding two_rows))) = Some two_rows.
Proof.
  destruct (methods_write_only_their_own Qsqrt12 (holding two_rows))
    as (H1 & _ & _ & H2 & H3 & _).
  split; [exact H1|]. split; [exact H2 | exact H3].
Defined.

(** ** The lines of the prompts *)

Lemma append_empty_r (t : string) : (t ++ EmptyString)%string = t.
Proof. induction t as [|c t IH]; simpl; congruence. Qed.

Lemma Qsgn_inject_Z (z : Z) : (Qsgn (inject_Z z) <? 0)%Z = (z <? 0)%Z.
Proof. unfold Qsgn. cbn [inject_Z Qnum]. now destruct z. Qed.

Lemma format_whole (z : Z) : format_fixed true 0 (inject_Z z) = whole_text z.
Proof.
  unfold format_fixed, whole_text.
  change (10 ^ Z.of_nat 0)%Z with 1%Z.
  rewrite (@round_half_even_comp (inject_Z z * inject_Z 1)%Q (inject_Z z))
    by (change (inject_Z 1) with 1%Q; ring).
  rewrite round_half_even_Z, Qsgn_inject_Z, Z.div_1_r.
  cbn [String.concat]. now rewrite append_empty_r.
Qed.

Lemma format_one_decimal (z : Z) :
  format_fixed false 1 (inject_Z z) = one_decimal_text z.
Proof.
  unfold format_fixed, one_decimal_text.
  change (10 ^ Z.of_nat 1)%Z with 10%Z.
  rewrite <- inject_Z_mult, round_half_even_Z, Qsgn_inject_Z.
  rewrite Z.abs_mul. change (Z.abs 10) with 10%Z.
  rewrite Z.div_mul, Z.mod_mul by discriminate.
  reflexivity.
Qed.

Section PromptLines.

Variable repr : pyval -> string.
Variable chat_completion : string -> string -> Z -> Q -> string + string.

(** X24. The company analysis embeds the first ten records it is given and
    the investment recommendations the first five, one line for each in the
    order given, so that the rest of either list has no effect on the text
    sent. For a record whose name is a string and whose amounts are whole
    numbers below 2^50 in absolute value the line gives the name, the amounts with commas between the
    thousands and the margin with one decimal. *)
Theorem prompts_embed_first_records :
  (forall company_data,
      analyze_company_performance repr chat_completion company_data
      = analyze_company_performance repr chat_completion (firstn 10 company_data)) /\
  (forall company_data text,
      company_info repr company_data = Ok text ->
      exists lines,
        map_result (company_line repr) (firstn 10 company_data) = Ok lines /\
        text = String.concat nl lines /\
        List.length lines = Nat.min 10 (List.length company_data)) /\
  (forall comp name revenue income margin,
      Forall whole_amount [revenue; income; margin] ->
      dict_get comp "Company" = Some (PStr name) ->
      dict_get comp "Revenue_sum" = Some (PNum (of_Z revenue)) ->
      dict_get comp "Net_Income_sum" = Some (PNum (of_Z income)) ->
      dict_get comp "Profit_Margin" = Some (PNum (of_Z margin)) ->
      company_line repr comp
      = Ok ("- " ++ name ++ ": Revenue $" ++ whole_text revenue
            ++ ", Net Income $" ++ whole_text income
            ++ ", Profit Margin " ++ one_decimal_text margin ++ "%")%string) /\
  (forall top_performers,
      generate_investment_recommendations repr chat_completion top_performers
      = generate_investment_recommendations repr chat_completion
          (firstn 5 top_performers)) /\
  (forall top_performers text,
      performer_info repr top_performers = Ok text ->
      exists lines,
        map_result (performer_line repr) (firstn 5 top_performers) = Ok lines /\
        text = String.concat nl lines /\
        List.length lines = Nat.min 5 (List.length top_performers)) /\
  (forall perf name sector revenue income margin,
      Forall whole_amount [revenue; income; margin] ->
      dict_get perf "Company" = Some (PStr name) ->
      dict_get perf "Revenue" = Some (PNum (of_Z revenue)) ->
      dict_get perf "Net_Income" = Some (PNum (of_Z income)) ->
      dict_get perf "Profit_Margin" = Some (PNum (of_Z margin)) ->
      dict_get perf "Sector" = Some (PStr sector) ->
      performer_line repr perf
      = Ok ("- " ++ name ++ ": Revenue $" ++ whole_text revenue
            ++ ", Net Income $" ++ whole_text income
            ++ ", Profit Margin " ++ one_decimal_text margin
            ++ "%, Sector: " ++ sector)%string).
Proof.
  split; [|split; [|split; [|split; [|split]]]].
  - intros company_data. unfold analyze_company_performance, company_info.
    now rewrite firstn_idem.
  - intros company_data text. unfold company_info.
    destruct (map_result _ _) as [lines|] eqn:E; cbn [rbind]; [|discriminate].
    inversion 1. exists lines. split; [reflexivity|]. split; [reflexivity|].
    now rewrite (map_result_length _ _ E), length_firstn.
  - intros comp name revenue income margin _ Hn Hr Hi Hm.
    unfold company_line, get. rewrite Hn, Hr, Hi, Hm.
    cbn [format_f of_Z rbind str String.concat].
    now rewrite !format_whole, format_one_decimal.
  - intros [|perf rest]; [reflexivity|].
    unfold generate_investment_recommendations, performer_info.
    rewrite firstn_idem. reflexivity.
  - intros top_performers text. unfold performer_info.
    destruct (map_result _ _) as [lines|] eqn:E; cbn [rbind]; [|discriminate].
    inversion 1. exists lines. split; [reflexivity|]. split; [reflexivity|].
    now rewrite (map_result_length _ _ E), length_firstn.
  - intros perf name sector revenue income margin _ Hn Hr Hi Hm Hs.
    unfold performer_line, get. rewrite Hn, Hr, Hi, Hm, Hs.
    cbn [format_f of_Z rbind str String.concat].
    rewrite !format_whole, format_one_decimal. reflexivity.
Qed.

End PromptLines.

(** X24 on twelve companies: what is sent is what the first ten give, a line
    for each of them. *)
Lemma prompt_of_twelve_companies :
  analyze_company_performance no_repr echo twelve_companies
  = analyze_company_performance no_repr echo (firstn 10 twelve_companies) /\
  company_info no_repr twelve_companies
  = Ok (String.concat nl
          [ "- C01: Revenue $1,500,000, Net Income $300,000, Profit Margin 20.0%";
            "- C02: Revenue $1,500,000, Net Income $300,000, Profit Margin 20.0%";
            "- C03: Revenue $1,500,000, Net Income $300,000, Profit Margin 20.0%";
            "- C04: Revenue $1,500,000, Net Income $300,000, Profit Margin 20.0%";
            "- C05: Revenue $1,500,000, Net Income $300,000, Profit Margin 20.0%";
            "- C06: Revenue $1,500,000, Net Income $300,000, Profit Margin 20.0%";
            "- C07: Revenue $1,500,000, Net Income $300,000, Profit Margin 20.0%";
            "- C08: Revenue $1,500,000, Net Income $300,000, Profit Margin 20.0%";
            "- C09: Revenue $1,500,000, Net Income $300,000, Profit Margin 20.0%";
            "- C10: Revenue $1,500,000, Net Income $300,000, Profit Margin 20.0%"
          ]%string) /\
  company_line no_repr (company_record "C01")
  = Ok "- C01: Revenue $1,500,000, Net Income $300,000, Profit Margin 20.0%"%string.
Proof.
  destruct (prompts_embed_first_records no_repr echo)
    as (Hsame & _ & Hline & _).
  assert (Hwhole : Forall whole_amount [1500000; 300000; 20]%Z)
    by (repeat (apply Forall_cons || apply Forall_nil); vm_compute; reflexivity).
  split; [apply Hsame|]. split; [reflexivity|].
  rewrite (Hline (company_record "C01") "C01"%string 1500000%Z 300000%Z 20%Z
             Hwhole eq_refl eq_refl eq_refl eq_refl).
  reflexivity.
Defined.
